(** * Email classification pipeline: confidence matcher, fallback chain, orchestrator

    A shallow embedding of the decision logic of the email-classification
    service:

    - [app/services/similarity_matcher.py]  (module [SimilarityMatcher])
    - [app/llm/chains.py]                   (modules [ClassificationChain], [DPOExtraction])
    - [app/database/vector_store.py]        (module [VectorStore])
    - [app/services/email_processor.py]     (module [EmailProcessor])
    - [app/config.py], [app/models.py]      (modules [Config], [Models])

    [PyStr] and [Regex] hold the string and pattern operations the code
    uses; [Notions] and [Fixtures] hold the auxiliary notions and the
    concrete inputs of the properties, which follow them.

    Python [float] is IEEE-754 binary64, which is what Rocq's primitive
    floats are, so scores are [float] and the literals [0.85], [0.8], ...
    denote the same doubles as in the source.  Python [str] is modelled by
    [string]; case mapping and whitespace are the ASCII ones.  A Python call
    that may raise returns a value of [Py A]; [try ... except Exception] is
    [try_except]. *)

From Stdlib Require Import Bool Arith ZArith List String Ascii Lia Floats.
Import ListNotations.

#[local] Set Warnings "-inexact-float,-abstract-large-number".

Local Open Scope string_scope.
Local Open Scope bool_scope.
Local Open Scope nat_scope.

(* ------------------------------------------------------------------ *)
(** ** Python strings *)

Module PyStr.

Definition code (c : ascii) : nat := nat_of_ascii c.

Definition is_upper (c : ascii) : bool := (65 <=? code c) && (code c <=? 90).
Definition is_lower (c : ascii) : bool := (97 <=? code c) && (code c <=? 122).
Definition is_digit (c : ascii) : bool := (48 <=? code c) && (code c <=? 57).
Definition is_alpha (c : ascii) : bool := is_upper c || is_lower c.

(** [str.isspace] on the ASCII range: TAB..CR, FS..US and the space. *)
Definition is_space (c : ascii) : bool :=
  ((9 <=? code c) && (code c <=? 13)) || ((28 <=? code c) && (code c <=? 32)).

Definition to_lower (c : ascii) : ascii :=
  if is_upper c then ascii_of_nat (code c + 32) else c.
Definition to_upper (c : ascii) : ascii :=
  if is_lower c then ascii_of_nat (code c - 32) else c.

(** [s.lower()] *)
Fixpoint lower (s : string) : string :=
  match s with
  | EmptyString => EmptyString
  | String c r => String (to_lower c) (lower r)
  end.

(** [s.capitalize()]: first character upper-cased, the rest lower-cased. *)
Definition capitalize (s : string) : string :=
  match s with
  | EmptyString => EmptyString
  | String c r => String (to_upper c) (lower r)
  end.

(** [s.lstrip()] *)
Fixpoint lstrip (s : string) : string :=
  match s with
  | EmptyString => EmptyString
  | String c r => if is_space c then lstrip r else s
  end.

(** [s.rstrip()] *)
Fixpoint rstrip (s : string) : string :=
  match s with
  | EmptyString => EmptyString
  | String c r =>
      match rstrip r with
      | EmptyString => if is_space c then EmptyString else String c EmptyString
      | r' => String c r'
      end
  end.

(** [s.strip()] *)
Definition strip (s : string) : string := rstrip (lstrip s).

(** [s.startswith(p)] *)
Fixpoint startswith (s p : string) : bool :=
  match p, s with
  | EmptyString, _ => true
  | String _ _, EmptyString => false
  | String a p', String b s' => Ascii.eqb a b && startswith s' p'
  end.

(** [s[n:]] for [n >= 0] *)
Fixpoint drop (n : nat) (s : string) : string :=
  match n, s with
  | O, _ => s
  | S _, EmptyString => EmptyString
  | S n', String _ r => drop n' r
  end.

(** [s[:n]] for [n >= 0] *)
Fixpoint take (n : nat) (s : string) : string :=
  match n, s with
  | O, _ => EmptyString
  | S _, EmptyString => EmptyString
  | S n', String c r => String c (take n' r)
  end.

(** [s.endswith(p)] *)
Definition endswith (s p : string) : bool :=
  (String.length p <=? String.length s) &&
  String.eqb (drop (String.length s - String.length p) s) p.

(** [p in s] (substring test) *)
Fixpoint contains (s p : string) : bool :=
  startswith s p ||
  match s with
  | EmptyString => false
  | String _ r => contains r p
  end.

(** [s.split(sep)] for a one-character separator: always at least one
    part; [cur] is the part read so far. *)
Fixpoint split_acc (sep : ascii) (s : string) (cur : string) : list string :=
  match s with
  | EmptyString => [cur]
  | String c r =>
      if Ascii.eqb c sep then cur :: split_acc sep r EmptyString
      else split_acc sep r (String.append cur (String c EmptyString))
  end.
Definition split (sep : ascii) (s : string) : list string :=
  split_acc sep s EmptyString.

(** [sep.join(parts)] *)
Fixpoint join (sep : string) (parts : list string) : string :=
  match parts with
  | [] => EmptyString
  | [p] => p
  | p :: rest => String.append p (String.append sep (join sep rest))
  end.

(** [parts[-n:]] *)
Definition last_n {A} (n : nat) (l : list A) : list A :=
  skipn (List.length l - n) l.

(** Python truthiness of a string: [not s] is [is_empty s]. *)
Definition is_empty (s : string) : bool :=
  match s with EmptyString => true | _ => false end.

End PyStr.

(* ------------------------------------------------------------------ *)
(** ** Exceptions *)

Inductive exn : Type :=
| AttributeError | TypeError | ValueError | IndexError | ValidationError
| ProviderError (msg : string).

Inductive Py (A : Type) : Type :=
| Ret (a : A)
| Raise (e : exn).
Arguments Ret {A} a.
Arguments Raise {A} e.

Definition bind {A B} (m : Py A) (k : A -> Py B) : Py B :=
  match m with
  | Ret a => k a
  | Raise e => Raise e
  end.

(** [try: body  except Exception: handler] *)
Definition try_except {A} (body : Py A) (handler : exn -> Py A) : Py A :=
  match body with
  | Ret a => Ret a
  | Raise e => handler e
  end.

Notation "x <- m ;; k" := (bind m (fun x => k))
  (at level 61, m at next level, right associativity).

(** Python's [a > b] on floats (false as soon as one side is NaN). *)
Definition fgt (a b : float) : bool := PrimFloat.ltb b a.

(* ------------------------------------------------------------------ *)
(** ** app/config.py *)

Module Config.

Record Settings : Type := {
  confidence_threshold : float;
  exact_domain_weight : float;
  similar_domain_weight : float;
  default_domain_weight : float;
  max_email_length : nat
}.

(** The defaults of [class Settings]. *)
Definition settings : Settings := {|
  confidence_threshold := 0.85%float;
  exact_domain_weight := 1.0%float;
  similar_domain_weight := 0.8%float;
  default_domain_weight := 0.5%float;
  max_email_length := 10000
|}.

(** [CONFIDENCE_THRESHOLD] read from the environment. *)
Definition with_threshold (t : float) : Settings := {|
  confidence_threshold := t;
  exact_domain_weight := exact_domain_weight settings;
  similar_domain_weight := similar_domain_weight settings;
  default_domain_weight := default_domain_weight settings;
  max_email_length := max_email_length settings
|}.

End Config.

(* ------------------------------------------------------------------ *)
(** ** app/models.py *)

Module Models.

Inductive EmailCategory : Type :=
| MARKETING | TRANSACTIONAL | SURVEY | PERSONAL | CUSTOMER_SUPPORT.

(** [EmailCategory.value] *)
Definition category_value (c : EmailCategory) : string :=
  match c with
  | MARKETING => "marketing"
  | TRANSACTIONAL => "transactional"
  | SURVEY => "survey"
  | PERSONAL => "personal"
  | CUSTOMER_SUPPORT => "customer_support"
  end.

Record EmailInput : Type := {
  from_email : string;
  subject : string;
  html_content : option string;
  text_content : option string
}.

Record BusinessEntity : Type := {
  name : string;
  website : option string;
  dpo_email : option string;
  industry : option string;
  location : option string
}.

Record ExtractedData : Type := {
  email : option (list string);
  phone_number : option (list string);
  credit_card_number : option (list string)
}.

(** [ExtractedData()] *)
Definition empty_data : ExtractedData :=
  {| email := None; phone_number := None; credit_card_number := None |}.

Record EmailMetadata : Type := {
  sender_domain : string;
  footer_text : option string;
  urls : list string
}.

Record ProcessedEmail : Type := {
  email_category : EmailCategory;
  business_entity : BusinessEntity;
  data : ExtractedData;
  confidence_score : float;
  metadata : option EmailMetadata;
  processed_at : option string
}.

(** The values a stored document's metadata dictionary can hold. *)
Inductive MetaValue : Type :=
| MNone
| MStr (s : string)
| MFloat (f : float)
| MInt (z : Z)
| MBool (b : bool).

(** A [Dict[str, Any]] of stored metadata, in insertion order. *)
Definition MetaDict : Type := list (string * MetaValue).

(** [d.get(key, default)] *)
Fixpoint dict_get (d : MetaDict) (key : string) (default : MetaValue) : MetaValue :=
  match d with
  | [] => default
  | (k, v) :: rest => if String.eqb k key then v else dict_get rest key default
  end.

(** Python truthiness: [not v] is [negb (truthy v)]. *)
Definition truthy (v : MetaValue) : bool :=
  match v with
  | MNone => false
  | MStr s => negb (PyStr.is_empty s)
  | MFloat f => negb (PrimFloat.eqb f 0%float)
  | MInt z => negb (Z.eqb z 0)
  | MBool b => b
  end.

Record VectorMatch : Type := {
  similarity_score : float;
  domain_weight : float;
  vm_confidence_score : float;
  vm_metadata : MetaDict
}.

(** pydantic's [HttpUrl] and [EmailStr], which live outside the
    repository: a value is rejected ([None]) or accepted, and an accepted
    value is kept in its validated form, which need not be the string that
    was given (a URL without a path gets one, for instance). *)
Record Validators : Type := {
  http_url : string -> option string;
  email_str : string -> option string
}.

(** An [Optional] field: [None] passes as it is. *)
Definition validate_opt (validate : string -> option string)
    (o : option string) : option (option string) :=
  match o with
  | Some s =>
      match validate s with
      | Some validated => Some (Some validated)
      | None => None
      end
  | None => Some None
  end.

(** [BusinessEntity(name=..., website=..., dpo_email=..., ...)] *)
Definition new_BusinessEntity (V : Validators) (name : string)
    (website dpo_email industry location : option string)
  : Py BusinessEntity :=
  match validate_opt (http_url V) website,
        validate_opt (email_str V) dpo_email with
  | Some website, Some dpo_email =>
      Ret {| name := name; website := website; dpo_email := dpo_email;
             industry := industry; location := location |}
  | _, _ => Raise ValidationError
  end.

(** [ProcessedEmail(...)]: [confidence_score] is declared [ge=0.0, le=1.0]. *)
Definition new_ProcessedEmail (category : EmailCategory)
    (be : BusinessEntity) (d : ExtractedData) (confidence : float)
    (md : EmailMetadata) : Py ProcessedEmail :=
  if PrimFloat.leb 0%float confidence && PrimFloat.leb confidence 1%float
  then Ret {| email_category := category; business_entity := be; data := d;
              confidence_score := confidence; metadata := Some md;
              processed_at := None |}
  else Raise ValidationError.

End Models.

(* ------------------------------------------------------------------ *)
(** ** app/database/vector_store.py *)

Module VectorStore.
Import Models.

(** One stored document of the [email_embeddings] collection; a document
    written by another client may carry no metadata. *)
Record Entry : Type := {
  entry_id : string;
  entry_embedding : list float;
  entry_document : string;
  entry_metadata : option MetaDict
}.

Definition Collection : Type := list Entry.

(** [collection.query(...)]: the first (only) row of each returned column.
    A document stored without metadata comes back with [None]. *)
Record QueryResult : Type := {
  res_ids : list string;
  res_documents : list string;
  res_metadatas : list (option MetaDict);
  res_distances : list float
}.

(** The dictionaries [search_similar_emails] builds. *)
Record Candidate : Type := {
  cand_id : string;
  cand_document : string;
  cand_metadata : option MetaDict;
  cand_distance : float;
  cand_similarity : float
}.

(** The embedding provider and the ChromaDB client, as used by the
    service: both are outside the repository and may raise. *)
Record VectorStoreService : Type := {
  embed_query : string -> Py (list float);
  create_embedding_text : string -> EmailMetadata -> string;
  chroma_query : Collection -> list float -> nat -> Py QueryResult;
  chroma_accepts : Entry -> bool;
  uuid4 : Collection -> string
}.

(** [xs[i]] *)
Definition index {A} (xs : list A) (i : nat) : Py A :=
  match nth_error xs i with
  | Some x => Ret x
  | None => Raise IndexError
  end.

(** The loop [for i, doc_id in enumerate(results['ids'][0])]. *)
Fixpoint build_matches (r : QueryResult) (ids : list string) (i : nat)
  : Py (list Candidate) :=
  match ids with
  | [] => Ret []
  | doc_id :: rest =>
      document <- index (res_documents r) i ;;
      md <- index (res_metadatas r) i ;;
      distance <- index (res_distances r) i ;;
      matches <- build_matches r rest (S i) ;;
      Ret ({| cand_id := doc_id;
              cand_document := document;
              cand_metadata := md;
              cand_distance := distance;
              cand_similarity := PrimFloat.sub 1%float distance |} :: matches)
  end.

Definition search_similar_emails (vs : VectorStoreService) (coll : Collection)
    (query_content : string) (query_metadata : EmailMetadata) (n_results : nat)
  : list Candidate :=
  match
    (let combined_text := create_embedding_text vs query_content query_metadata in
     query_embedding <- embed_query vs combined_text ;;
     results <- chroma_query vs coll query_embedding n_results ;;
     build_matches results (res_ids results) 0)
  with
  | Ret matches => matches
  | Raise _ => []
  end.

Definition option_str (o : option string) : MetaValue :=
  match o with Some s => MStr s | None => MNone end.

(** [add_email_embedding]: returns the document id and the collection
    with the new document, or re-raises. *)
Definition add_email_embedding (vs : VectorStoreService) (coll : Collection)
    (email_content : string) (md : EmailMetadata) (category : EmailCategory)
    (be : BusinessEntity) (confidence : float)
  : Py (string * Collection) :=
  let combined_text := create_embedding_text vs email_content md in
  embedding <- embed_query vs combined_text ;;
  let doc_id := uuid4 vs coll in
  let doc_metadata : MetaDict :=
    [ ("sender_domain", MStr (sender_domain md));
      ("email_category", MStr (category_value category));
      ("business_name", MStr (name be));
      ("business_website", option_str (website be));
      ("business_industry", option_str (industry be));
      ("business_location", option_str (location be));
      ("dpo_email", option_str (dpo_email be));
      ("confidence_score", MFloat confidence);
      ("urls_count", MInt (Z.of_nat (List.length (urls md))));
      ("has_footer", MBool (match footer_text md with
                            | Some f => negb (PyStr.is_empty f)
                            | None => false end)) ] in
  let entry := {| entry_id := doc_id; entry_embedding := embedding;
                  entry_document := combined_text;
                  entry_metadata := Some doc_metadata |} in
  if chroma_accepts vs entry then Ret (doc_id, (coll ++ [entry])%list)
  else Raise ValueError.

End VectorStore.

(* ------------------------------------------------------------------ *)
(** ** app/services/similarity_matcher.py *)

Module SimilarityMatcher.
Import Models VectorStore Config.

Definition _extract_root_domain (domain : string) : string :=
  let parts := PyStr.split "." domain in
  if 2 <=? List.length parts
  then PyStr.join "." (PyStr.last_n 2 parts)
  else domain.

Definition common_prefixes : list string :=
  ["mail"; "email"; "smtp"; "noreply"; "no-reply"].

(** [a.startswith(f"{prefix}.") and a[len(prefix)+1:] == b] *)
Definition prefixed_by (prefix a b : string) : bool :=
  PyStr.startswith a (String.append prefix ".") &&
  String.eqb (PyStr.drop (String.length prefix + 1) a) b.

(** The operations of the body are total on strings, so the surrounding
    [try ... except Exception: return False] never fires. *)
Definition _are_domains_similar (domain1 domain2 : string) : bool :=
  let root1 := _extract_root_domain domain1 in
  let root2 := _extract_root_domain domain2 in
  if String.eqb root1 root2 then true
  else if PyStr.endswith domain1 (String.append "." domain2)
          || PyStr.endswith domain2 (String.append "." domain1) then true
  else if existsb (fun prefix => prefixed_by prefix domain1 domain2
                                 || prefixed_by prefix domain2 domain1)
                  common_prefixes then true
  else false.

(** [d.lower().strip()] *)
Definition normalize (d : string) : string := PyStr.strip (PyStr.lower d).

(** The query domain is a [str]; the candidate domain is whatever the
    stored metadata holds, and [.lower()] on anything but a string raises. *)
Definition _calculate_domain_weight (cfg : Settings)
    (query_domain : string) (candidate_domain : MetaValue) : Py float :=
  if PyStr.is_empty query_domain || negb (truthy candidate_domain)
  then Ret (default_domain_weight cfg)
  else
    match candidate_domain with
    | MStr c =>
        let query_domain := normalize query_domain in
        let candidate_domain := normalize c in
        if String.eqb query_domain candidate_domain
        then Ret (exact_domain_weight cfg)
        else if _are_domains_similar query_domain candidate_domain
        then Ret (similar_domain_weight cfg)
        else Ret (default_domain_weight cfg)
    | _ => Raise AttributeError
    end.

Definition _calculate_confidence_score (cfg : Settings)
    (candidate : Candidate) (query_metadata : EmailMetadata)
  : option VectorMatch :=
  match
    (let similarity_score := cand_similarity candidate in
     candidate_metadata <-
       match cand_metadata candidate with
       | Some d => Ret d
       | None => Raise AttributeError
       end ;;
     let candidate_domain :=
       dict_get candidate_metadata "sender_domain" (MStr "") in
     domain_weight <-
       _calculate_domain_weight cfg (sender_domain query_metadata)
                                candidate_domain ;;
     let confidence_score := PrimFloat.mul similarity_score domain_weight in
     Ret {| similarity_score := similarity_score;
            domain_weight := domain_weight;
            vm_confidence_score := confidence_score;
            vm_metadata := candidate_metadata |})
  with
  | Ret vector_match => Some vector_match
  | Raise _ => None
  end.

(** The loop that collects the candidates that could be scored. *)
Fixpoint score_all (cfg : Settings) (candidates : list Candidate)
    (query_metadata : EmailMetadata) : list VectorMatch :=
  match candidates with
  | [] => []
  | candidate :: rest =>
      match _calculate_confidence_score cfg candidate query_metadata with
      | Some confidence_match =>
          confidence_match :: score_all cfg rest query_metadata
      | None => score_all cfg rest query_metadata
      end
  end.

(** [max(first :: rest, key=lambda x: x.confidence_score)]: the running
    maximum is replaced only by a strictly greater key. *)
Fixpoint max_by_confidence (best : VectorMatch) (rest : list VectorMatch)
  : VectorMatch :=
  match rest with
  | [] => best
  | item :: rest' =>
      if fgt (vm_confidence_score item) (vm_confidence_score best)
      then max_by_confidence item rest'
      else max_by_confidence best rest'
  end.

(** [self.vector_store] is [None] when its construction failed. *)
Definition find_best_match (cfg : Settings)
    (vector_store : option VectorStoreService) (coll : Collection)
    (email_content : string) (md : EmailMetadata) (n_candidates : nat)
  : Py (option VectorMatch) :=
  try_except
    (match vector_store with
     | None => Ret None
     | Some vs =>
         let candidates :=
           search_similar_emails vs coll email_content md n_candidates in
         match candidates with
         | [] => Ret None
         | _ :: _ =>
             match score_all cfg candidates md with
             | [] => Ret None
             | first :: rest => Ret (Some (max_by_confidence first rest))
             end
         end
     end)
    (fun _ => Ret None).

Definition is_confident_match (cfg : Settings) (vector_match : VectorMatch)
  : bool :=
  fgt (vm_confidence_score vector_match) (confidence_threshold cfg).

(** A required [str] field and an [Optional[str]] field of a model. *)
Definition as_str (v : MetaValue) : Py string :=
  match v with MStr s => Ret s | _ => Raise ValidationError end.
Definition as_opt_str (v : MetaValue) : Py (option string) :=
  match v with
  | MNone => Ret None
  | MStr s => Ret (Some s)
  | _ => Raise ValidationError
  end.

Definition unknown_entity : BusinessEntity :=
  {| name := "Unknown"; website := None; dpo_email := None;
     industry := None; location := None |}.

Definition extract_business_entity_from_match (V : Validators)
    (vector_match : VectorMatch) : BusinessEntity :=
  let md := vm_metadata vector_match in
  match
    (name <- as_str (dict_get md "business_name" (MStr "Unknown")) ;;
     website <- as_opt_str (dict_get md "business_website" MNone) ;;
     dpo_email <- as_opt_str (dict_get md "dpo_email" MNone) ;;
     industry <- as_opt_str (dict_get md "business_industry" MNone) ;;
     location <- as_opt_str (dict_get md "business_location" MNone) ;;
     new_BusinessEntity V name website dpo_email industry location)
  with
  | Ret business_entity => business_entity
  | Raise _ => unknown_entity
  end.

(** [EmailCategory(category_str)], [ValueError] mapped to [PERSONAL]. *)
Definition get_email_category_from_match (vector_match : VectorMatch)
  : EmailCategory :=
  match dict_get (vm_metadata vector_match) "email_category" (MStr "personal") with
  | MStr s =>
      if String.eqb s "marketing" then MARKETING
      else if String.eqb s "transactional" then TRANSACTIONAL
      else if String.eqb s "survey" then SURVEY
      else if String.eqb s "personal" then PERSONAL
      else if String.eqb s "customer_support" then CUSTOMER_SUPPORT
      else PERSONAL
  | _ => PERSONAL
  end.

End SimilarityMatcher.

(* ------------------------------------------------------------------ *)
(** ** Regular expressions ([re.match] with an anchored pattern) *)

Module Regex.

Inductive regex : Type :=
| Void
| Eps
| Class (p : ascii -> bool)
| Seq (r1 r2 : regex)
| Alt (r1 r2 : regex)
| Star (r : regex).

(** [r+] and [r{2,}] *)
Definition Plus (r : regex) : regex := Seq r (Star r).
Definition AtLeast2 (r : regex) : regex := Seq r (Seq r (Star r)).
Definition Lit (c : ascii) : regex := Class (Ascii.eqb c).

Fixpoint nullable (r : regex) : bool :=
  match r with
  | Void => false
  | Eps => true
  | Class _ => false
  | Seq r1 r2 => nullable r1 && nullable r2
  | Alt r1 r2 => nullable r1 || nullable r2
  | Star _ => true
  end.

(** Brzozowski derivative: the words [w] such that [c :: w] matches. *)
Fixpoint deriv (c : ascii) (r : regex) : regex :=
  match r with
  | Void => Void
  | Eps => Void
  | Class p => if p c then Eps else Void
  | Seq r1 r2 =>
      if nullable r1
      then Alt (Seq (deriv c r1) r2) (deriv c r2)
      else Seq (deriv c r1) r2
  | Alt r1 r2 => Alt (deriv c r1) (deriv c r2)
  | Star r1 => Seq (deriv c r1) (Star r1)
  end.

(** The whole string is a word of [r]. *)
Fixpoint fullmatch (r : regex) (s : string) : bool :=
  match s with
  | EmptyString => nullable r
  | String c rest => fullmatch (deriv c r) rest
  end.

(** [s] without one final line feed, when it has one. *)
Fixpoint chomp (s : string) : option string :=
  match s with
  | EmptyString => None
  | String c EmptyString => if Ascii.eqb c "010" then Some EmptyString else None
  | String c rest =>
      match chomp rest with
      | Some rest' => Some (String c rest')
      | None => None
      end
  end.

(** [bool(re.match('^' r '$', s))]: [$] matches at the end of the string
    and also just before a final line feed. *)
Definition re_match (r : regex) (s : string) : bool :=
  fullmatch r s ||
  match chomp s with
  | Some s' => fullmatch r s'
  | None => false
  end.

End Regex.

(* ------------------------------------------------------------------ *)
(** ** app/llm/chains.py *)

Module ClassificationChain.
Import Models.

(** The typed result the output parser yields. *)
Record EmailClassificationResult : Type := {
  r_email_category : EmailCategory;
  r_business_entity : BusinessEntity;
  r_data : ExtractedData;
  r_confidence_score : float
}.

(** The prompt variables built by [classify_email]. *)
Record LLMInput : Type := {
  in_email_content : string;
  in_sender_domain : string;
  in_footer_text : string;
  in_urls : string
}.

(** [self.classification_chain.invoke]: the provider call followed by
    output parsing; it raises on provider errors and on malformed output. *)
Definition Provider : Type := LLMInput -> Py EmailClassificationResult.

(** [any(keyword in content_lower for keyword in keywords)] *)
Definition any_keyword (keywords : list string) (content_lower : string) : bool :=
  existsb (fun keyword => PyStr.contains content_lower keyword) keywords.

Definition marketing_keywords : list string :=
  ["unsubscribe"; "newsletter"; "promotion"; "offer"; "sale"; "discount"].
Definition transactional_keywords : list string :=
  ["order"; "receipt"; "confirmation"; "invoice"; "payment"; "account"].
Definition survey_keywords : list string :=
  ["survey"; "feedback"; "questionnaire"; "rate"; "review"].
Definition support_keywords : list string :=
  ["support"; "help"; "ticket"; "issue"; "problem"; "assistance"].

Definition _heuristic_classification (content : string) (md : EmailMetadata)
  : EmailCategory :=
  let content_lower := PyStr.lower content in
  if any_keyword marketing_keywords content_lower then MARKETING
  else if any_keyword transactional_keywords content_lower then TRANSACTIONAL
  else if any_keyword survey_keywords content_lower then SURVEY
  else if any_keyword support_keywords content_lower then CUSTOMER_SUPPORT
  else PERSONAL.

Definition _extract_company_name_heuristic (content : string)
    (md : EmailMetadata) : string :=
  let domain_parts := PyStr.split "." (sender_domain md) in
  if 2 <=? List.length domain_parts
  then PyStr.capitalize
         (nth (List.length domain_parts - 2) domain_parts EmptyString)
  else "Unknown Company".

(** The result of the innermost [except]: the last line of defence. *)
Definition ultimate_fallback (md : EmailMetadata) : ProcessedEmail :=
  {| email_category := PERSONAL;
     business_entity := {| name := "Unknown"; website := None;
                           dpo_email := None; industry := None;
                           location := None |};
     data := empty_data;
     confidence_score := 0.1%float;
     metadata := Some md;
     processed_at := None |}.

Definition _create_fallback_result (V : Validators) (email_content : string)
    (md : EmailMetadata) : ProcessedEmail :=
  match
    (let category := _heuristic_classification email_content md in
     business_entity <-
       new_BusinessEntity V
         (_extract_company_name_heuristic email_content md)
         (match urls md with u :: _ => Some u | [] => None end)
         None None None ;;
     let extracted_data := empty_data in
     new_ProcessedEmail category business_entity extracted_data
                        0.3%float md)
  with
  | Ret fallback => fallback
  | Raise _ => ultimate_fallback md
  end.

(** The prompt variables of one request. *)
Definition build_input_data (email_content : string) (md : EmailMetadata)
  : LLMInput :=
  {| in_email_content := email_content;
     in_sender_domain := sender_domain md;
     in_footer_text :=
       match footer_text md with
       | Some f => if PyStr.is_empty f then "No footer" else f
       | None => "No footer"
       end;
     in_urls :=
       match urls md with
       | [] => "No URLs"
       | _ :: _ => PyStr.join ", " (urls md)
       end |}.

Definition classify_email (V : Validators) (invoke : Provider)
    (email_content : string) (md : EmailMetadata) : ProcessedEmail :=
  match
    (let input_data := build_input_data email_content md in
     result <- invoke input_data ;;
     new_ProcessedEmail (r_email_category result) (r_business_entity result)
                        (r_data result) (r_confidence_score result) md)
  with
  | Ret processed_email => processed_email
  | Raise _ => _create_fallback_result V email_content md
  end.

End ClassificationChain.

Module DPOExtraction.

(** [^[a-zA-Z0-9._%+-]+@[a-zA-Z0-9.-]+\.[a-zA-Z]{2,}$] *)
Definition local_char (c : ascii) : bool :=
  PyStr.is_alpha c || PyStr.is_digit c ||
  Ascii.eqb c "." || Ascii.eqb c "_" || Ascii.eqb c "%" ||
  Ascii.eqb c "+" || Ascii.eqb c "-".
Definition domain_char (c : ascii) : bool :=
  PyStr.is_alpha c || PyStr.is_digit c || Ascii.eqb c "." || Ascii.eqb c "-".

Definition email_pattern : Regex.regex :=
  Regex.Seq (Regex.Plus (Regex.Class local_char))
 (Regex.Seq (Regex.Lit "@")
 (Regex.Seq (Regex.Plus (Regex.Class domain_char))
 (Regex.Seq (Regex.Lit ".")
            (Regex.AtLeast2 (Regex.Class PyStr.is_alpha))))).

Definition _is_valid_email (email : string) : bool :=
  if PyStr.is_empty email || String.eqb (PyStr.lower email) "none"
  then false
  else Regex.re_match email_pattern (PyStr.strip email).

(** The text handed to the provider. *)
Definition truncate_policy (content : string) : string :=
  if 8000 <? String.length content
  then String.append (PyStr.take 8000 content) "..."
  else content.

(** [ainvoke] is the provider call; it yields [response.content]. *)
Definition extract_dpo_email (ainvoke : string -> Py string)
    (content : string) : Py (option string) :=
  try_except
    (let content := truncate_policy content in
     response_content <- ainvoke content ;;
     let extracted_text := PyStr.strip response_content in
     if _is_valid_email extracted_text
     then Ret (Some extracted_text)
     else Ret None)
    (fun _ => Ret None).

End DPOExtraction.

(* ------------------------------------------------------------------ *)
(** ** app/services/email_processor.py *)

Module EmailProcessor.
Import Models VectorStore Config.

(** The dictionary returned by [PIIProcessor.extract_pii_data]; a key may
    be absent. *)
Record PiiData : Type := {
  pii_email : option (list string);
  pii_phone_number : option (list string);
  pii_credit_card_number : option (list string)
}.

(** The decoded JSON answer of the privacy-policy scraper. *)
Record ScrapeResult : Type := {
  scrape_success : bool;
  scrape_dpo_email : option string
}.

(** The collaborators built by [_initialize_services]. *)
Record Services : Type := {
  strip_html : string -> Py string;
  anonymize_text : string -> Py string;
  extract_metadata : EmailInput -> string -> Py EmailMetadata;
  extract_pii_data : string -> Py PiiData;
  scraper_run : string -> Py ScrapeResult;
  vector_store : VectorStoreService;
  matcher_vector_store : option VectorStoreService;
  llm : ClassificationChain.Provider;
  validators : Validators;
  utc_now : string
}.

(** One call of [vector_store.add_email_embedding] and its arguments. *)
Record StoreCall : Type := {
  call_text : string;
  call_metadata : option EmailMetadata;
  call_category : EmailCategory;
  call_business_entity : BusinessEntity;
  call_confidence : float
}.

(** The vector index, and the write-backs issued so far. *)
Record World : Type := {
  collection : Collection;
  store_calls : list StoreCall
}.

(** [s or ""] for an optional string. *)
Definition or_empty (o : option string) : string :=
  match o with Some s => s | None => EmptyString end.

(** [MetadataExtractor.extract_sender_domain] *)
Definition extract_sender_domain (email_address : string) : string :=
  match nth_error (PyStr.split "@" email_address) 1 with
  | Some domain => PyStr.lower domain
  | None => "unknown"
  end.

Definition _strip_html_content (cfg : Settings) (S : Services)
    (email_input : EmailInput) : string :=
  match
    (clean_text <-
       match html_content email_input with
       | Some h =>
           if PyStr.is_empty h then Ret (or_empty (text_content email_input))
           else strip_html S h
       | None => Ret (or_empty (text_content email_input))
       end ;;
     if max_email_length cfg <? String.length clean_text
     then Ret (String.append (PyStr.take (max_email_length cfg) clean_text) "...")
     else Ret clean_text)
  with
  | Ret clean_text => clean_text
  | Raise _ => or_empty (text_content email_input)
  end.

Definition _anonymize_pii (S : Services) (text : string) : string :=
  match anonymize_text S text with
  | Ret anonymized_text => anonymized_text
  | Raise _ => text
  end.

Definition _extract_metadata (S : Services) (email_input : EmailInput)
    (clean_text : string) : EmailMetadata :=
  match extract_metadata S email_input clean_text with
  | Ret md => md
  | Raise _ =>
      {| sender_domain := extract_sender_domain (from_email email_input);
         footer_text := None;
         urls := [] |}
  end.

Definition _find_vector_match (cfg : Settings) (S : Services) (w : World)
    (text : string) (md : EmailMetadata) : option VectorMatch :=
  match
    SimilarityMatcher.find_best_match cfg (matcher_vector_store S)
      (collection w) text md 10
  with
  | Ret vector_match => vector_match
  | Raise _ => None
  end.

Definition _extract_user_data (S : Services) (text : string) : ExtractedData :=
  match extract_pii_data S text with
  | Ret pii_data =>
      {| email := Some (match pii_email pii_data with
                        | Some l => l | None => [] end);
         phone_number := Some (match pii_phone_number pii_data with
                               | Some l => l | None => [] end);
         credit_card_number :=
           Some (match pii_credit_card_number pii_data with
                 | Some l => l | None => [] end) |}
  | Raise _ => empty_data
  end.

Definition with_data (pe : ProcessedEmail) (d : ExtractedData)
  : ProcessedEmail :=
  {| email_category := email_category pe;
     business_entity := business_entity pe;
     data := d;
     confidence_score := confidence_score pe;
     metadata := metadata pe;
     processed_at := processed_at pe |}.

(** [classify_email] always returns, so the [except: raise] of the source
    has nothing to re-raise. *)
Definition _process_llm_classification (S : Services) (text : string)
    (md : EmailMetadata) : ProcessedEmail :=
  let processed_email :=
    ClassificationChain.classify_email (validators S) (llm S) text md in
  with_data processed_email (_extract_user_data S text).

Definition _process_confident_match (S : Services)
    (email_input : EmailInput) (text : string) (md : EmailMetadata)
    (vector_match : VectorMatch) : ProcessedEmail :=
  let business_entity :=
    SimilarityMatcher.extract_business_entity_from_match
      (validators S) vector_match in
  let email_category :=
    SimilarityMatcher.get_email_category_from_match vector_match in
  let extracted_data := _extract_user_data S text in
  match
    new_ProcessedEmail email_category business_entity extracted_data
                       (vm_confidence_score vector_match) md
  with
  | Ret processed_email => processed_email
  | Raise _ => _process_llm_classification S text md
  end.

Definition with_dpo_email (pe : ProcessedEmail) (dpo : string)
  : ProcessedEmail :=
  let be := business_entity pe in
  {| email_category := email_category pe;
     business_entity := {| name := name be; website := website be;
                           dpo_email := Some dpo; industry := industry be;
                           location := location be |};
     data := data pe;
     confidence_score := confidence_score pe;
     metadata := metadata pe;
     processed_at := processed_at pe |}.

(** Python truthiness of an optional string. *)
Definition truthy_opt (o : option string) : bool :=
  match o with Some s => negb (PyStr.is_empty s) | None => false end.

Definition _enhance_business_entity (S : Services)
    (processed_email : ProcessedEmail) : ProcessedEmail :=
  let be := business_entity processed_email in
  match website be with
  | Some site =>
      if negb (truthy_opt (dpo_email be)) then
        match scraper_run S site with
        | Ret result_data =>
            match scrape_dpo_email result_data with
            | Some dpo =>
                if scrape_success result_data && negb (PyStr.is_empty dpo)
                then with_dpo_email processed_email dpo
                else processed_email
            | None => processed_email
            end
        | Raise _ => processed_email
        end
      else processed_email
  | None => processed_email
  end.

(** The call is recorded; a failure of [add_email_embedding] is logged
    and leaves the index as it was. *)
Definition _store_in_vector_db (S : Services) (w : World) (text : string)
    (processed_email : ProcessedEmail) : World :=
  let call := {| call_text := text;
                 call_metadata := metadata processed_email;
                 call_category := email_category processed_email;
                 call_business_entity := business_entity processed_email;
                 call_confidence := confidence_score processed_email |} in
  let calls := (store_calls w ++ [call])%list in
  match
    match metadata processed_email with
    | Some md =>
        add_email_embedding (vector_store S) (collection w) text md
          (email_category processed_email)
          (business_entity processed_email)
          (confidence_score processed_email)
    | None => Raise AttributeError
    end
  with
  | Ret (_, coll') => {| collection := coll'; store_calls := calls |}
  | Raise _ => {| collection := collection w; store_calls := calls |}
  end.

Definition with_processed_at (pe : ProcessedEmail) (t : string)
  : ProcessedEmail :=
  {| email_category := email_category pe;
     business_entity := business_entity pe;
     data := data pe;
     confidence_score := confidence_score pe;
     metadata := metadata pe;
     processed_at := Some t |}.

(** The pipeline: every stage absorbs its own failures, so the result is
    always produced; the second component is the state afterwards. *)
Definition process_email (cfg : Settings) (S : Services) (w : World)
    (email_input : EmailInput) : ProcessedEmail * World :=
  (* Step 1: HTML stripping *)
  let clean_text := _strip_html_content cfg S email_input in
  (* Step 2: PII anonymization *)
  let anonymized_text := _anonymize_pii S clean_text in
  (* Step 3: metadata extraction *)
  let md := _extract_metadata S email_input clean_text in
  (* Step 4: vector similarity search *)
  let vector_match := _find_vector_match cfg S w anonymized_text md in
  (* Step 5: process based on confidence *)
  let processed_email :=
    match vector_match with
    | Some vm =>
        if SimilarityMatcher.is_confident_match cfg vm
        then _process_confident_match S email_input anonymized_text md vm
        else _process_llm_classification S anonymized_text md
    | None => _process_llm_classification S anonymized_text md
    end in
  (* Step 6: enhance business entity if needed *)
  let processed_email := _enhance_business_entity S processed_email in
  (* Step 7: store in vector database if confident *)
  let w' :=
    if fgt (confidence_score processed_email) (confidence_threshold cfg)
    then _store_in_vector_db S w anonymized_text processed_email
    else w in
  (with_processed_at processed_email (utc_now S), w').

End EmailProcessor.

(* ------------------------------------------------------------------ *)
(** ** Notions used to state the properties *)

Module Notions.
Import Models VectorStore Config EmailProcessor.

(** A label: a string without the separator. *)
Fixpoint free_of (sep : ascii) (s : string) : bool :=
  match s with
  | EmptyString => true
  | String c r => negb (Ascii.eqb c sep) && free_of sep r
  end.

Definition first_url (md : EmailMetadata) : option string :=
  match urls md with u :: _ => Some u | [] => None end.

(** The text that is classified and, on write-back, stored. *)
Definition anonymized_text_of (cfg : Settings) (S : Services)
    (email_input : EmailInput) : string :=
  _anonymize_pii S (_strip_html_content cfg S email_input).


End Notions.

(* ------------------------------------------------------------------ *)
(** ** Concrete inputs and collaborators *)

Module Fixtures.
Import Models VectorStore Config EmailProcessor ClassificationChain.

(** A concrete scoring: a stored [acme.com] document at similarity 0.9,
    queried from [mail.acme.com]. *)
Definition acme_candidate : Candidate :=
  {| cand_id := "doc-1";
     cand_document := "Your order has shipped";
     cand_metadata := Some [("sender_domain", MStr "acme.com");
                            ("email_category", MStr "transactional")];
     cand_distance := 0.1%float;
     cand_similarity := 0.9%float |}.

Definition acme_query : EmailMetadata :=
  {| sender_domain := "mail.acme.com"; footer_text := None; urls := [] |}.

Definition acme_match : VectorMatch :=
  {| similarity_score := 0.9%float;
     domain_weight := 0.8%float;
     vm_confidence_score := PrimFloat.mul 0.9%float 0.8%float;
     vm_metadata := [("sender_domain", MStr "acme.com");
                     ("email_category", MStr "transactional")] |}.

(** A collection holding one document that was stored without metadata,
    and a store whose query reports every document at distance 0.1. *)
Definition bare_entry : Entry :=
  {| entry_id := "doc-7"; entry_embedding := [0.5%float; 0.5%float];
     entry_document := "Quarterly newsletter"; entry_metadata := None |}.

(** ChromaDB takes strings, numbers and booleans as metadata values and
    refuses a document one of whose metadata values is [None]. *)
Definition accepts_metadata (e : Entry) : bool :=
  match entry_metadata e with
  | Some md =>
      forallb (fun kv => match snd kv with MNone => false | _ => true end) md
  | None => true
  end.

Definition fixed_distance_store (d : float) : VectorStoreService :=
  {| embed_query := fun _ => Ret [0.5%float; 0.5%float];
     create_embedding_text := fun content md =>
       String.append content
         (String "010" (String.append "Domain: " (sender_domain md)));
     chroma_query := fun coll _ n =>
       let hits := firstn n coll in
       Ret {| res_ids := map entry_id hits;
              res_documents := map entry_document hits;
              res_metadatas := map entry_metadata hits;
              res_distances := map (fun _ => d) hits |};
     chroma_accepts := accepts_metadata;
     uuid4 := fun coll => "00000000-0000-4000-8000-000000000000" |}.

Definition far_entry : Entry :=
  {| entry_id := "doc-9"; entry_embedding := [0.5%float; 0.5%float];
     entry_document := "Weekly deals";
     entry_metadata := Some [("sender_domain", MStr "acme.com")] |}.

Definition near_candidate : Candidate :=
  {| cand_id := "doc-9"; cand_document := "Weekly deals";
     cand_metadata := Some [("sender_domain", MStr "acme.com")];
     cand_distance := 0.25%float;
     cand_similarity := 0.75%float |}.

(** The number of [c] in [s]. *)
Fixpoint count_char (c : ascii) (s : string) : nat :=
  match s with
  | EmptyString => 0
  | String d r => (if Ascii.eqb c d then 1 else 0) + count_char c r
  end.

(** Validators in the manner of pydantic's: a URL must have the http or
    https scheme, as [HttpUrl] requires, and one that is only scheme and
    host is kept with the path [/]; an address must be [local@domain] and
    is kept with its domain in lower case. *)
Definition scheme_validators : Validators :=
  {| http_url := fun u =>
       if PyStr.startswith (PyStr.lower u) "http://"
          || PyStr.startswith (PyStr.lower u) "https://"
       then Some (if count_char "/" u <? 3
                  then String.append u "/" else u)
       else None;
     email_str := fun s =>
       match PyStr.split "@" s with
       | [local; domain] =>
           if PyStr.is_empty local || PyStr.is_empty domain then None
           else Some (String.append local
                        (String "@" (PyStr.lower domain)))
       | _ => None
       end |}.

Definition provider_down : Provider :=
  fun _ => Raise (ProviderError "connection refused").

Definition shopify_md : EmailMetadata :=
  {| sender_domain := "shopify.com"; footer_text := None;
     urls := ["https://shopify.com/sale"] |}.

Definition shopify_home_md : EmailMetadata :=
  {| sender_domain := "shopify.com"; footer_text := None;
     urls := ["https://shopify.com"] |}.

Definition ftp_md : EmailMetadata :=
  {| sender_domain := "shopify.com"; footer_text := None;
     urls := ["ftp://files.shopify.com/catalog.zip"] |}.

(** Services with a working store and a provider that is down. *)
Definition offline_services : Services :=
  {| strip_html := fun html => Ret html;
     anonymize_text := fun text => Ret text;
     extract_metadata := fun email_input _ =>
       Ret {| sender_domain := extract_sender_domain (from_email email_input);
              footer_text := None; urls := [] |};
     extract_pii_data := fun _ =>
       Ret {| pii_email := Some []; pii_phone_number := Some [];
              pii_credit_card_number := Some [] |};
     scraper_run := fun _ => Raise (ProviderError "unreachable");
     vector_store := fixed_distance_store 0.5%float;
     matcher_vector_store := Some (fixed_distance_store 0.5%float);
     llm := provider_down;
     validators := scheme_validators;
     utc_now := "2025-01-01T00:00:00+00:00" |}.

(** A business entity with every field filled in, in validated form. *)
Definition shopify_entity : BusinessEntity :=
  {| name := "Shopify";
     website := Some "https://shopify.com/";
     dpo_email := Some "privacy@shopify.com";
     industry := Some "E-commerce";
     location := Some "Ottawa, Canada" |}.

(** The same, with a provider that answers with confidence 0.95. *)
Definition online_services : Services :=
  {| strip_html := strip_html offline_services;
     anonymize_text := anonymize_text offline_services;
     extract_metadata := extract_metadata offline_services;
     extract_pii_data := extract_pii_data offline_services;
     scraper_run := scraper_run offline_services;
     vector_store := vector_store offline_services;
     matcher_vector_store := matcher_vector_store offline_services;
     llm := fun _ =>
       Ret {| r_email_category := MARKETING;
              r_business_entity := shopify_entity;
              r_data := empty_data;
              r_confidence_score := 0.95%float |};
     validators := validators offline_services;
     utc_now := utc_now offline_services |}.

Definition shopify_email : EmailInput :=
  {| from_email := "marketing@shopify.com";
     subject := "Summer sale";
     html_content := None;
     text_content := Some "Unsubscribe here. 50% off everything" |}.

Definition empty_world : World := {| collection := []; store_calls := [] |}.

(** A policy of [n] characters. *)
Fixpoint policy_of_length (n : nat) : string :=
  match n with
  | O => EmptyString
  | S n' => String "a" (policy_of_length n')
  end.

End Fixtures.

(* ------------------------------------------------------------------ *)
(** ** Further notions and concrete inputs *)

Module MoreNotions.
Import Models VectorStore Config EmailProcessor ClassificationChain Fixtures.

Definition acme_doc_id : string := "00000000-0000-4000-8000-000000000000".

(** A score inside [0, 1], bounds included. *)
Definition in_unit_interval (c : float) : bool :=
  PrimFloat.leb 0%float c && PrimFloat.leb c 1%float.

(** The services with another classification provider. *)
Definition with_llm (S : Services) (provider : Provider) : Services :=
  {| strip_html := strip_html S;
     anonymize_text := anonymize_text S;
     extract_metadata := extract_metadata S;
     extract_pii_data := extract_pii_data S;
     scraper_run := scraper_run S;
     vector_store := vector_store S;
     matcher_vector_store := matcher_vector_store S;
     llm := provider;
     validators := validators S;
     utc_now := utc_now S |}.

(** The metadata the pipeline works with. *)
Definition metadata_of (cfg : Settings) (S : Services)
    (email_input : EmailInput) : EmailMetadata :=
  _extract_metadata S email_input (_strip_html_content cfg S email_input).

(** [key in d] *)
Definition has_key (d : MetaDict) (key : string) : bool :=
  existsb (fun kv => String.eqb (fst kv) key) d.

(** The metadata of a stored [shopify.com] classification. *)
Definition shopify_stored_metadata : MetaDict :=
  [ ("sender_domain", MStr "shopify.com");
    ("email_category", MStr "marketing");
    ("business_name", MStr "Shopify");
    ("business_website", MStr "https://shopify.com/");
    ("business_industry", MStr "E-commerce");
    ("business_location", MStr "Ottawa, Canada");
    ("dpo_email", MStr "privacy@shopify.com");
    ("confidence_score", MFloat 0.95%float);
    ("urls_count", MInt 1);
    ("has_footer", MBool false) ].

(** A stored [shopify.com] classification, and a store that reports every
    document at distance 0.05. *)
Definition shopify_entry : Entry :=
  {| entry_id := "doc-3"; entry_embedding := [0.5%float; 0.5%float];
     entry_document := "Unsubscribe here. 50% off everything";
     entry_metadata := Some shopify_stored_metadata |}.

Definition shopify_world : World :=
  {| collection := [shopify_entry]; store_calls := [] |}.

Definition near_services : Services :=
  {| strip_html := strip_html offline_services;
     anonymize_text := anonymize_text offline_services;
     extract_metadata := extract_metadata offline_services;
     extract_pii_data := extract_pii_data offline_services;
     scraper_run := scraper_run offline_services;
     vector_store := fixed_distance_store 0.05%float;
     matcher_vector_store := Some (fixed_distance_store 0.05%float);
     llm := llm offline_services;
     validators := validators offline_services;
     utc_now := utc_now offline_services |}.

Definition shopify_match : VectorMatch :=
  {| similarity_score := PrimFloat.sub 1%float 0.05%float;
     domain_weight := 1.0%float;
     vm_confidence_score :=
       PrimFloat.mul (PrimFloat.sub 1%float 0.05%float) 1.0%float;
     vm_metadata := shopify_stored_metadata |}.

End MoreNotions.

(* ------------------------------------------------------------------ *)
(** ** The language of a pattern *)

Module RegexSem.
Import Regex.

(** [matches r s]: the string [s] is a word of [r]. *)
Inductive matches : regex -> string -> Prop :=
| MEps : matches Eps EmptyString
| MClass p c : p c = true -> matches (Class p) (String c EmptyString)
| MSeq r1 r2 s1 s2 :
    matches r1 s1 -> matches r2 s2 -> matches (Seq r1 r2) (String.append s1 s2)
| MAltL r1 r2 s : matches r1 s -> matches (Alt r1 r2) s
| MAltR r1 r2 s : matches r2 s -> matches (Alt r1 r2) s
| MStar0 r : matches (Star r) EmptyString
| MStarS r s1 s2 :
    matches r s1 -> matches (Star r) s2 ->
    matches (Star r) (String.append s1 s2).

(** Every character of [s] satisfies [p]. *)
Fixpoint all_chars (p : ascii -> bool) (s : string) : bool :=
  match s with
  | EmptyString => true
  | String c r => p c && all_chars p r
  end.

(** [local@domain.tld]: a non-empty local part, a non-empty domain part
    and a top-level part of at least two letters. *)
Definition email_shape (e : string) : Prop :=
  exists l d t,
    e = String.append l (String "@" (String.append d (String "." t))) /\
    l <> EmptyString /\ all_chars DPOExtraction.local_char l = true /\
    d <> EmptyString /\ all_chars DPOExtraction.domain_char d = true /\
    2 <= String.length t /\ all_chars PyStr.is_alpha t = true.

End RegexSem.

(* ------------------------------------------------------------------ *)
(** ** Provider initialization
       ([VectorStoreService._initialize_embeddings] of
        app/database/vector_store.py and [LLMModelManager] of
        app/llm/models.py) *)

Module Providers.

Inductive ProviderKind : Type := OPENAI | GEMINI | OLLAMA.

(** The name a provider goes by in [settings.llm_provider]. *)
Definition kind_name (k : ProviderKind) : string :=
  match k with
  | OPENAI => "openai"
  | GEMINI => "gemini"
  | OLLAMA => "ollama"
  end.

(** Truthiness of an optional API key. *)
Definition key_set (key : option string) : bool :=
  match key with Some s => negb (PyStr.is_empty s) | None => false end.

(** The provider settings, the optional imports that succeeded, and the
    behaviour of the vendors' constructors: [constructs k name] tells
    whether building the object of provider [k] for the model [name]
    returns ([true]) or raises. *)
Record InitEnv : Type := {
  llm_provider : string;
  openai_api_key : option string;
  gemini_api_key : option string;
  GEMINI_AVAILABLE : bool;
  OLLAMA_AVAILABLE : bool;
  openai_model : string;
  gemini_model : string;
  ollama_model : string;
  constructs : ProviderKind -> string -> bool
}.

End Providers.

Module EmbeddingsInit.
Import Providers.

Inductive Embeddings : Type :=
| ProviderEmbeddings (k : ProviderKind) (model : string)
| FakeEmbeddings (size : nat).

(** The embedding model each provider is built with. *)
Definition embedding_model (k : ProviderKind) : string :=
  match k with
  | OPENAI => "text-embedding-ada-002"
  | GEMINI => "models/embedding-001"
  | OLLAMA => "nomic-embed-text"
  end.

Definition build (env : InitEnv) (k : ProviderKind) : Py Embeddings :=
  if constructs env k (embedding_model k)
  then Ret (ProviderEmbeddings k (embedding_model k))
  else Raise (ProviderError "constructor failed").

(** The body of the first [try]. *)
Definition try_primary (env : InitEnv) (provider : string) : Py Embeddings :=
  if String.eqb provider "openai" && key_set (openai_api_key env)
  then build env OPENAI
  else if String.eqb provider "gemini" && GEMINI_AVAILABLE env
          && key_set (gemini_api_key env)
  then build env GEMINI
  else if String.eqb provider "ollama" && OLLAMA_AVAILABLE env
  then build env OLLAMA
  else Raise ValueError.

(** The loop over [fallback_providers]; [None] when it runs to its end. *)
Fixpoint try_fallbacks (env : InitEnv) (provider : string)
    (fallback_providers : list (ProviderKind * bool)) : option Embeddings :=
  match fallback_providers with
  | [] => None
  | (fallback_provider, available) :: rest =>
      if String.eqb (kind_name fallback_provider) provider
      then try_fallbacks env provider rest
      else if negb available
      then try_fallbacks env provider rest
      else match build env fallback_provider with
           | Ret embeddings => Some embeddings
           | Raise _ => try_fallbacks env provider rest
           end
  end.

(** [_create_mock_embeddings] *)
Definition _create_mock_embeddings : Embeddings := FakeEmbeddings 1536.

(** The value [self.embeddings] has when [_initialize_embeddings] returns. *)
Definition _initialize_embeddings (env : InitEnv) : Embeddings :=
  let provider := PyStr.lower (llm_provider env) in
  match try_primary env provider with
  | Ret embeddings => embeddings
  | Raise _ =>
      let fallback_providers :=
        [ (OPENAI, key_set (openai_api_key env));
          (GEMINI, key_set (gemini_api_key env) && GEMINI_AVAILABLE env);
          (OLLAMA, OLLAMA_AVAILABLE env) ] in
      match try_fallbacks env provider fallback_providers with
      | Some embeddings => embeddings
      | None => _create_mock_embeddings
      end
  end.

End EmbeddingsInit.

Module ModelManager.
Import Providers.

Inductive Model : Type :=
| ChatModel (k : ProviderKind) (model : string)
| FakeListLLM.

(** [self.models]: a dictionary from model names to models. *)
Definition Models : Type := list (string * Model).

(** [models.get(key)] *)
Fixpoint lookup (ms : Models) (key : string) : option Model :=
  match ms with
  | [] => None
  | (k, m) :: rest => if String.eqb k key then Some m else lookup rest key
  end.

(** [models[key] = m] *)
Fixpoint assign (ms : Models) (key : string) (m : Model) : Models :=
  match ms with
  | [] => [(key, m)]
  | (k, m') :: rest =>
      if String.eqb k key then (k, m) :: rest
      else (k, m') :: assign rest key m
  end.

(** A statement of an initializer: it may raise, and in either case leaves
    a dictionary behind. *)
Definition Step : Type := Models -> Py unit * Models.

(** [self.models[key] = Chat...(model=name)] *)
Definition register (env : InitEnv) (key : string) (k : ProviderKind)
    (name : string) : Step :=
  fun ms =>
    if constructs env k name
    then (Ret tt, assign ms key (ChatModel k name))
    else (Raise (ProviderError "constructor failed"), ms).

(** [first; second] *)
Definition seq (first second : Step) : Step :=
  fun ms =>
    match first ms with
    | (Ret _, ms') => second ms'
    | (Raise e, ms') => (Raise e, ms')
    end.

Definition _initialize_openai_models (env : InitEnv) : Step :=
  fun ms =>
    if negb (key_set (openai_api_key env)) then (Raise ValueError, ms)
    else seq (register env "primary" OPENAI (openai_model env))
        (seq (register env "gpt-3.5-turbo" OPENAI "gpt-3.5-turbo")
             (register env "gpt-4" OPENAI "gpt-4")) ms.

Definition _initialize_gemini_models (env : InitEnv) : Step :=
  fun ms =>
    if negb (GEMINI_AVAILABLE env)
    then (Raise (ProviderError "Gemini not available"), ms)
    else if negb (key_set (gemini_api_key env)) then (Raise ValueError, ms)
    else seq (register env "primary" GEMINI (gemini_model env))
             (register env "gemini-pro" GEMINI "gemini-pro") ms.

Definition _initialize_ollama_models (env : InitEnv) : Step :=
  seq (register env "primary" OLLAMA (ollama_model env))
 (seq (register env "llama2" OLLAMA "llama2")
      (register env "mistral" OLLAMA "mistral")).

Definition _create_mock_model (ms : Models) : Models :=
  assign ms "primary" FakeListLLM.

(** [fallback_providers.remove(provider)], guarded by [in]. *)
Fixpoint remove_first (provider : string) (l : list string) : list string :=
  match l with
  | [] => []
  | x :: rest =>
      if String.eqb x provider then rest else x :: remove_first provider rest
  end.

(** The loop over the fallback providers, ending in the mock model. *)
Fixpoint try_fallbacks (env : InitEnv) (fallback_providers : list string)
    (ms : Models) : Models :=
  match fallback_providers with
  | [] => _create_mock_model ms
  | fallback_provider :: rest =>
      let attempt : option (Py unit * Models) :=
        if String.eqb fallback_provider "openai"
           && key_set (openai_api_key env)
        then Some (_initialize_openai_models env ms)
        else if String.eqb fallback_provider "gemini"
                && key_set (gemini_api_key env)
        then Some (_initialize_gemini_models env ms)
        else if String.eqb fallback_provider "ollama"
        then Some (_initialize_ollama_models env ms)
        else None in
      match attempt with
      | Some (Ret _, ms') => ms'
      | Some (Raise _, ms') => try_fallbacks env rest ms'
      | None => try_fallbacks env rest ms
      end
  end.

(** The dictionary [self.models] when [_initialize_models] returns. *)
Definition _initialize_models (env : InitEnv) (ms : Models) : Models :=
  let provider := PyStr.lower (llm_provider env) in
  match
    (if String.eqb provider "openai" then _initialize_openai_models env ms
     else if String.eqb provider "gemini" then _initialize_gemini_models env ms
     else if String.eqb provider "ollama" then _initialize_ollama_models env ms
     else (Raise ValueError, ms))
  with
  | (Ret _, ms') => ms'
  | (Raise _, ms') =>
      try_fallbacks env (remove_first provider ["openai"; "gemini"; "ollama"])
                    ms'
  end.

Definition get_model (ms : Models) (model_name : string) : Py Model :=
  let model_name :=
    match lookup ms model_name with
    | Some _ => model_name
    | None => "primary"
    end in
  match lookup ms model_name with
  | Some m => Ret m
  | None => Raise ValueError
  end.

(** [get_available_models] *)
Definition get_available_models (ms : Models) : list string := map fst ms.

End ModelManager.

Module ProviderNotions.
Import Providers.

(** The order in which the providers are attempted: the configured one,
    when it is a known name, then the others as openai, gemini, ollama. *)
Definition attempt_order (provider : string) : list ProviderKind :=
  if String.eqb provider "gemini" then [GEMINI; OPENAI; OLLAMA]
  else if String.eqb provider "ollama" then [OLLAMA; OPENAI; GEMINI]
  else [OPENAI; GEMINI; OLLAMA].

(** An embedding provider is usable when its import and credentials are
    there and its constructor returns. *)
Definition embeddings_usable (env : InitEnv) (k : ProviderKind) : bool :=
  match k with
  | OPENAI => key_set (openai_api_key env)
  | GEMINI => key_set (gemini_api_key env) && GEMINI_AVAILABLE env
  | OLLAMA => OLLAMA_AVAILABLE env
  end && constructs env k (EmbeddingsInit.embedding_model k).

(** The name of the primary model of a provider. *)
Definition primary_model (env : InitEnv) (k : ProviderKind) : string :=
  match k with
  | OPENAI => openai_model env
  | GEMINI => gemini_model env
  | OLLAMA => ollama_model env
  end.

(** A chat provider initializes when its import and credentials are there
    and every one of its constructors returns. *)
Definition chat_usable (env : InitEnv) (k : ProviderKind) : bool :=
  match k with
  | OPENAI =>
      key_set (openai_api_key env)
      && constructs env OPENAI (openai_model env)
      && constructs env OPENAI "gpt-3.5-turbo"
      && constructs env OPENAI "gpt-4"
  | GEMINI =>
      GEMINI_AVAILABLE env && key_set (gemini_api_key env)
      && constructs env GEMINI (gemini_model env)
      && constructs env GEMINI "gemini-pro"
  | OLLAMA =>
      constructs env OLLAMA (ollama_model env)
      && constructs env OLLAMA "llama2"
      && constructs env OLLAMA "mistral"
  end.

(** The initializer of a chat provider. *)
Definition initializer (env : InitEnv) (k : ProviderKind) : ModelManager.Step :=
  match k with
  | OPENAI => ModelManager._initialize_openai_models env
  | GEMINI => ModelManager._initialize_gemini_models env
  | OLLAMA => ModelManager._initialize_ollama_models env
  end.

(** The model a list of attempts ends with. *)
Definition first_usable_model (env : InitEnv) (l : list ProviderKind)
  : ModelManager.Model :=
  match find (chat_usable env) l with
  | Some k => ModelManager.ChatModel k (primary_model env k)
  | None => ModelManager.FakeListLLM
  end.

(** An environment in which OpenAI is configured but its second
    constructor fails, and Ollama works. *)
Definition half_openai_env : InitEnv :=
  {| llm_provider := "OpenAI";
     openai_api_key := Some "sk-test";
     gemini_api_key := None;
     GEMINI_AVAILABLE := true;
     OLLAMA_AVAILABLE := true;
     openai_model := "gpt-3.5-turbo";
     gemini_model := "gemini-pro";
     ollama_model := "llama3";
     constructs := fun k name =>
       match k with
       | OPENAI => String.eqb name "gpt-3.5-turbo"
       | GEMINI => false
       | OLLAMA => true
       end |}.

End ProviderNotions.

(* ------------------------------------------------------------------ *)
(** ** Dictionaries used to remove duplicates *)

Module PyDict.

(** [list(dict.fromkeys(l))]: the first occurrence of each element, in
    order; [seen] holds the keys inserted so far. *)
Fixpoint fromkeys_from (seen l : list string) : list string :=
  match l with
  | [] => []
  | x :: rest =>
      if existsb (String.eqb x) seen then fromkeys_from seen rest
      else x :: fromkeys_from (x :: seen) rest
  end.

Definition fromkeys (l : list string) : list string := fromkeys_from [] l.

End PyDict.

(* ------------------------------------------------------------------ *)
(** ** app/services/privacy_policy_scraper.py *)

Module PrivacyScraper.
Import Models.

(** [PrivacyPolicyResult] *)
Record PrivacyPolicyResult : Type := {
  result_dpo_email : option string;
  privacy_policy_url : option string;
  success : bool;
  error_message : option string
}.

(** What the scraper uses from outside the repository: [urljoin], which
    raises on a malformed base; the links found on the main page; the
    fetched text of a page; [re.findall] for the i-th DPO pattern
    (case-insensitive, one group); the provider behind the DPO chain;
    pydantic's validation of the result model; [asyncio.run], which raises
    when no event loop can be started and otherwise runs the coroutine to
    its end; and the text [str(exc)] of an exception. *)
Record ScraperEnv : Type := {
  urljoin : string -> string -> Py string;
  discover_privacy_links : string -> Py (list string);
  scrape_page_content : string -> Py (option string);
  findall : nat -> string -> list string;
  ainvoke : string -> Py string;
  validators : Validators;
  asyncio_run : Py unit;
  str_exc : exn -> string
}.

Definition privacy_paths : list string :=
  [ "/privacy"; "/privacy-policy"; "/privacy_policy"; "/privacypolicy";
    "/legal/privacy"; "/terms/privacy"; "/policy/privacy";
    "/privacy.html"; "/privacy.php" ].

Definition normalize_base (website_url : string) : string :=
  if PyStr.startswith website_url "http://"
     || PyStr.startswith website_url "https://"
  then website_url
  else String.append "https://" website_url.

(** The loop [for path in privacy_paths], which stops at the first
    [urljoin] that raises. *)
Fixpoint join_paths (env : ScraperEnv) (website_url : string)
    (paths : list string) : Py (list string) :=
  match paths with
  | [] => Ret []
  | path :: rest =>
      privacy_url <- urljoin env website_url path ;;
      privacy_urls <- join_paths env website_url rest ;;
      Ret (privacy_url :: privacy_urls)
  end.

Definition _find_privacy_policy_urls (env : ScraperEnv) (website_url : string)
  : Py (list string) :=
  let website_url := normalize_base website_url in
  privacy_urls <- join_paths env website_url privacy_paths ;;
  let privacy_urls :=
    match discover_privacy_links env website_url with
    | Ret discovered_urls => (privacy_urls ++ discovered_urls)%list
    | Raise _ => privacy_urls
    end in
  Ret (PyDict.fromkeys privacy_urls).

(** The scraper's own copy of the email check. *)
Definition _is_valid_email (email : string) : bool :=
  if PyStr.is_empty email || String.eqb (PyStr.lower email) "none"
  then false
  else Regex.re_match DPOExtraction.email_pattern (PyStr.strip email).

(** [for match in matches: if self._is_valid_email(match): return match] *)
Fixpoint first_valid (matches : list string) : option string :=
  match matches with
  | [] => None
  | m :: rest => if _is_valid_email m then Some m else first_valid rest
  end.

(** The loop over the four DPO patterns, numbered from [i]. *)
Fixpoint regex_loop (env : ScraperEnv) (content : string) (i n : nat)
  : option string :=
  match n with
  | O => None
  | S n' =>
      match first_valid (findall env i content) with
      | Some m => Some m
      | None => regex_loop env content (S i) n'
      end
  end.

Definition _regex_extract_dpo_email (env : ScraperEnv) (content : string)
  : option string :=
  regex_loop env content 0 4.

Definition _extract_dpo_email (env : ScraperEnv) (content : string)
  : option string :=
  let content :=
    if 8000 <? String.length content
    then String.append (PyStr.take 8000 content) "..."
    else content in
  match DPOExtraction.extract_dpo_email (ainvoke env) content with
  | Ret (Some extracted_email) =>
      if PyStr.is_empty extracted_email
      then _regex_extract_dpo_email env content
      else Some extracted_email
  | Ret None => _regex_extract_dpo_email env content
  | Raise _ => _regex_extract_dpo_email env content
  end.

(** [PrivacyPolicyResult(dpo_email=..., privacy_policy_url=..., success=True)] *)
Definition new_success (env : ScraperEnv) (dpo_email privacy_url : string)
  : Py PrivacyPolicyResult :=
  match email_str (validators env) dpo_email,
        http_url (validators env) privacy_url with
  | Some validated_email, Some validated_url =>
      Ret {| result_dpo_email := Some validated_email;
             privacy_policy_url := Some validated_url;
             success := true;
             error_message := None |}
  | _, _ => Raise ValidationError
  end.

Definition failure (message : string) : PrivacyPolicyResult :=
  {| result_dpo_email := None; privacy_policy_url := None;
     success := false; error_message := Some message |}.

(** One pass of the loop body, inside its [try]: [Ret (Some r)] returns
    [r], anything else goes on with the next URL. *)
Definition scrape_one (env : ScraperEnv) (privacy_url : string)
  : Py (option PrivacyPolicyResult) :=
  content <- scrape_page_content env privacy_url ;;
  match content with
  | Some text =>
      if PyStr.is_empty text then Ret None
      else
        match _extract_dpo_email env text with
        | Some dpo_email =>
            if negb (PyStr.is_empty dpo_email)
               && negb (String.eqb (PyStr.lower dpo_email) "none")
            then r <- new_success env dpo_email privacy_url ;; Ret (Some r)
            else Ret None
        | None => Ret None
        end
  | None => Ret None
  end.

Fixpoint scrape_loop (env : ScraperEnv) (privacy_urls : list string)
  : PrivacyPolicyResult :=
  match privacy_urls with
  | [] => failure "No DPO email found in privacy policies"
  | privacy_url :: rest =>
      match scrape_one env privacy_url with
      | Ret (Some r) => r
      | Ret None => scrape_loop env rest
      | Raise _ => scrape_loop env rest
      end
  end.

(** The outer [except] turns an exception, which only [urljoin] can
    raise here, into a failure that carries its text. *)
Definition _scrape_privacy_policy (env : ScraperEnv) (website_url : string)
  : PrivacyPolicyResult :=
  match
    (privacy_urls <- _find_privacy_policy_urls env website_url ;;
     match privacy_urls with
     | [] => Ret (failure "No privacy policy URLs found")
     | _ :: _ => Ret (scrape_loop env privacy_urls)
     end)
  with
  | Ret result => result
  | Raise exc => failure (str_exc env exc)
  end.

(** [_run]: the JSON string it returns is represented by the result it
    encodes. *)
Definition _run (env : ScraperEnv) (website_url : string)
  : Py PrivacyPolicyResult :=
  try_except
    (_ <- asyncio_run env ;;
     Ret (_scrape_privacy_policy env website_url))
    (fun exc => Ret (failure (str_exc env exc))).

End PrivacyScraper.

(* ------------------------------------------------------------------ *)
(** ** app/tasks.py *)

Module Tasks.

(** One entry of [results] and one of [errors]. *)
Record Queued : Type := {
  q_index : nat;
  q_email_filename : string;
  q_task_id : string
}.

Record Failed : Type := {
  f_index : nat;
  f_email_filename : string;
  f_error : exn
}.

Record BatchResult : Type := {
  total : nat;
  queued : nat;
  errors : nat;
  results : list Queued;
  error_details : list Failed
}.

(** [for i, email_filename in enumerate(email_filenames)], from index [i];
    [delay i] is the call of [process_email_task.delay] of that pass: it
    queues one task and yields its id, or raises. The error entry keeps
    the exception, which the source records as [str(exc)]. *)
Fixpoint batch_loop (delay : nat -> string -> Py string) (i : nat)
    (email_filenames : list string) : list Queued * list Failed :=
  match email_filenames with
  | [] => ([], [])
  | email_filename :: rest =>
      let (results, errors) := batch_loop delay (S i) rest in
      match delay i email_filename with
      | Ret task_id =>
          ({| q_index := i; q_email_filename := email_filename;
              q_task_id := task_id |} :: results, errors)
      | Raise e =>
          (results,
           {| f_index := i; f_email_filename := email_filename;
              f_error := e |} :: errors)
      end
  end.

Definition batch_process_emails_task (delay : nat -> string -> Py string)
    (email_filenames : list string) : BatchResult :=
  let (results, errors) := batch_loop delay 0 email_filenames in
  {| total := List.length email_filenames;
     queued := List.length results;
     errors := List.length errors;
     results := results;
     error_details := errors |}.

End Tasks.

(* ------------------------------------------------------------------ *)
(** ** app/services/metadata_extractor.py *)

Module MetadataExtractor.
Import Models.

(** What the extractor uses from outside this file: the two methods of
    [HTMLProcessor] it calls, [re.findall] for the URL pattern, and
    [urlparse], which yields the scheme and the network location. *)
Record Html : Type := {
  extract_urls : string -> Py (list string);
  extract_footer_text : string -> nat -> Py (option string);
  findall_urls : string -> list string;
  urlparse : string -> Py (string * string)
}.

Definition extract_urls_from_text (H : Html) (text : string) : list string :=
  if PyStr.is_empty text then []
  else
    filter (fun url =>
              match urlparse H url with
              | Ret (scheme, netloc) =>
                  negb (PyStr.is_empty scheme) && negb (PyStr.is_empty netloc)
              | Raise _ => false
              end)
           (findall_urls H text).

(** The copyright sign, as its two UTF-8 bytes. *)
Definition copyright_sign : string :=
  String (Ascii.ascii_of_nat 194) (String (Ascii.ascii_of_nat 169) EmptyString).

Definition footer_indicators : list string :=
  [ "unsubscribe"; "privacy policy"; "terms of service"; "contact us";
    "copyright"; copyright_sign; "all rights reserved"; "company";
    "address"; "phone"; "email" ].

Definition _is_likely_footer (text : string) : bool :=
  let text_lower := PyStr.lower text in
  let indicator_count :=
    List.length (filter (fun indicator => PyStr.contains text_lower indicator)
                        footer_indicators) in
  let has_email := PyStr.contains text "@" in
  let has_url := PyStr.contains text_lower "http" in
  (2 <=? indicator_count) || has_email || has_url.

(** [l[-n:]] for [n >= 0]; [l[-0:]] is the whole list. *)
Definition tail_slice {A} (n : nat) (l : list A) : list A :=
  if n =? 0 then l else PyStr.last_n n l.

Definition extract_footer_from_text (text : string) (lines_count : nat)
  : option string :=
  if PyStr.is_empty text then None
  else
    let lines := PyStr.split "010" text in
    let non_empty_lines :=
      map PyStr.strip
          (filter (fun line => negb (PyStr.is_empty (PyStr.strip line))) lines) in
    if lines_count <=? List.length non_empty_lines then
      let footer_lines := tail_slice lines_count non_empty_lines in
      let footer_text := PyStr.join (String "010" EmptyString) footer_lines in
      if _is_likely_footer footer_text then Some footer_text else None
    else None.

(** [footer_lines_count] is the setting of that name. *)
Definition extract_metadata (H : Html) (footer_lines_count : nat)
    (email : EmailInput) (clean_text : string) : EmailMetadata :=
  match
    (let sender_domain :=
       EmailProcessor.extract_sender_domain (from_email email) in
     html_urls <-
       match html_content email with
       | Some h => if PyStr.is_empty h then Ret [] else extract_urls H h
       | None => Ret []
       end ;;
     let text_urls := extract_urls_from_text H clean_text in
     let urls := PyDict.fromkeys (html_urls ++ text_urls)%list in
     html_footer <-
       match html_content email with
       | Some h =>
           if PyStr.is_empty h then Ret None
           else extract_footer_text H h footer_lines_count
       | None => Ret None
       end ;;
     let footer_text :=
       if EmailProcessor.truthy_opt html_footer then html_footer
       else extract_footer_from_text clean_text footer_lines_count in
     Ret {| sender_domain := sender_domain;
            footer_text := footer_text;
            urls := urls |})
  with
  | Ret metadata => metadata
  | Raise _ =>
      {| sender_domain :=
           EmailProcessor.extract_sender_domain (from_email email);
         footer_text := None;
         urls := [] |}
  end.

End MetadataExtractor.

(* ------------------------------------------------------------------ *)
(** ** Notions used to state the properties of the collaborators *)

Module CollaboratorNotions.
Import Models EmailProcessor.

(** The services with the privacy-policy scraper built on [env]; of the
    decoded answer, the enhancement reads [success] and [dpo_email]. *)
Definition with_scraper (S : Services) (env : PrivacyScraper.ScraperEnv)
  : Services :=
  {| strip_html := strip_html S;
     anonymize_text := anonymize_text S;
     extract_metadata := extract_metadata S;
     extract_pii_data := extract_pii_data S;
     scraper_run := fun site =>
       scraper_result <- PrivacyScraper._run env site ;;
       Ret {| scrape_success := PrivacyScraper.success scraper_result;
              scrape_dpo_email :=
                PrivacyScraper.result_dpo_email scraper_result |};
     vector_store := vector_store S;
     matcher_vector_store := matcher_vector_store S;
     llm := llm S;
     validators := validators S;
     utc_now := utc_now S |}.

(** The services with the metadata extractor built on [H]. *)
Definition with_extractor (S : Services) (H : MetadataExtractor.Html)
    (footer_lines_count : nat) : Services :=
  {| strip_html := strip_html S;
     anonymize_text := anonymize_text S;
     extract_metadata := fun email clean_text =>
       Ret (MetadataExtractor.extract_metadata H footer_lines_count
              email clean_text);
     extract_pii_data := extract_pii_data S;
     scraper_run := scraper_run S;
     vector_store := vector_store S;
     matcher_vector_store := matcher_vector_store S;
     llm := llm S;
     validators := validators S;
     utc_now := utc_now S |}.

(** The URL at which a scrape of [urls] stops: no earlier one yields a
    result. *)
Definition first_hit (env : PrivacyScraper.ScraperEnv) (urls : list string)
    (url : string) : Prop :=
  exists before after,
    urls = (before ++ url :: after)%list /\
    Forall (fun u => forall r, PrivacyScraper.scrape_one env u <> Ret (Some r))
           before.

End CollaboratorNotions.

(* ================================================================== *)
(** * Properties *)

(** ** Facts about binary64 comparison *)

Module FloatFacts.
Import SpecFloat.

Lemma SFcompare_irrefl s : SFcompare s s <> Some Lt.
Proof.
  destruct s as [b|b| |b m e]; simpl; try destruct b; try discriminate;
    rewrite Z.compare_refl, Pos.compare_cont_refl; discriminate.
Qed.

Ltac split_exponents ea eb ec :=
  destruct (Z.compare_spec ea eb), (Z.compare_spec eb ec),
           (Z.compare_spec ea ec); try discriminate; try lia; subst.

Lemma SFcompare_Lt_trans a b c :
  SFcompare a b = Some Lt -> SFcompare b c = Some Lt ->
  SFcompare a c = Some Lt.
Proof.
  destruct a as [sa|sa| |sa ma ea], b as [sb|sb| |sb mb eb],
           c as [sc|sc| |sc mc ec];
    simpl; try destruct sa; try destruct sb; try destruct sc; simpl;
    try discriminate; try reflexivity; intros H1 H2.
  all: split_exponents ea eb ec.
  all: fold (Pos.compare ma mb) in *; fold (Pos.compare mb mc) in *;
    fold (Pos.compare ma mc) in *.
  all: destruct (Pos.compare_spec ma mb), (Pos.compare_spec mb mc),
    (Pos.compare_spec ma mc);
    simpl in *; try discriminate; try lia; try reflexivity.
Qed.

Lemma SFcompare_antisym a b :
  SFcompare a b = Some Lt \/ SFcompare a b = Some Eq ->
  SFcompare b a <> Some Lt.
Proof.
  destruct a as [sa|sa| |sa ma ea], b as [sb|sb| |sb mb eb];
    simpl; try destruct sa; try destruct sb; simpl;
    intros [H|H]; try discriminate.
  all: destruct (Z.compare_spec ea eb), (Z.compare_spec eb ea);
    try discriminate; try lia; subst.
  all: fold (Pos.compare ma mb) in *; fold (Pos.compare mb ma) in *.
  all: destruct (Pos.compare_spec ma mb), (Pos.compare_spec mb ma);
    simpl in *; try discriminate; try lia.
Qed.

Lemma ltb_Lt x y :
  PrimFloat.ltb x y = true <-> SFcompare (Prim2SF x) (Prim2SF y) = Some Lt.
Proof.
  rewrite ltb_spec. unfold SFltb.
  destruct (SFcompare (Prim2SF x) (Prim2SF y)) as [[]|];
    split; congruence.
Qed.

Lemma ltb_irrefl x : PrimFloat.ltb x x = false.
Proof.
  destruct (PrimFloat.ltb x x) eqn:E; [|reflexivity].
  apply ltb_Lt in E. now apply SFcompare_irrefl in E.
Qed.

Lemma ltb_trans a b c :
  PrimFloat.ltb a b = true -> PrimFloat.ltb b c = true ->
  PrimFloat.ltb a c = true.
Proof.
  rewrite !ltb_Lt. apply SFcompare_Lt_trans.
Qed.


Lemma eqb_not_gt a b : PrimFloat.eqb a b = true -> fgt a b = false.
Proof.
  unfold fgt. rewrite eqb_spec. unfold SFeqb. intros H.
  destruct (PrimFloat.ltb b a) eqn:E; [|reflexivity].
  apply ltb_Lt in E. exfalso.
  apply (SFcompare_antisym (Prim2SF a) (Prim2SF b)); [|exact E].
  destruct (SFcompare (Prim2SF a) (Prim2SF b)) as [[]|];
    try discriminate; auto.
Qed.

End FloatFacts.

(** ** The confidence matcher *)

Module MatcherProps.
Import Models VectorStore Config SimilarityMatcher Notions Fixtures.

Lemma prefixes_sym a b :
  existsb (fun prefix => prefixed_by prefix a b || prefixed_by prefix b a)
          common_prefixes
  = existsb (fun prefix => prefixed_by prefix b a || prefixed_by prefix a b)
            common_prefixes.
Proof.
  induction common_prefixes as [|p ps IH]; simpl; [reflexivity|].
  now rewrite IH, (orb_comm (prefixed_by p a b)).
Qed.

(** C8. The domain-similarity test of the matcher is symmetric: for all
    domain strings [a] and [b], [_are_domains_similar a b] and
    [_are_domains_similar b a] are the same boolean. *)
Theorem are_domains_similar_sym : forall a b,
  _are_domains_similar a b = _are_domains_similar b a.
Proof.
  intros a b. unfold _are_domains_similar.
  rewrite (String.eqb_sym (_extract_root_domain a)).
  rewrite (orb_comm (PyStr.endswith a _)).
  now rewrite prefixes_sym.
Qed.

(** C3. [is_confident_match] depends on the candidate only through its
    confidence score and holds exactly when the threshold is strictly
    below that score in the binary64 order; a score equal to the
    threshold (as a float, or numerically) is rejected; the default
    threshold is 0.85. *)
Theorem is_confident_match_strict : forall cfg vm,
  (is_confident_match cfg vm = true <->
     SpecFloat.SFcompare (Prim2SF (confidence_threshold cfg))
                         (Prim2SF (vm_confidence_score vm)) = Some Lt)
  /\ (vm_confidence_score vm = confidence_threshold cfg ->
      is_confident_match cfg vm = false)
  /\ (PrimFloat.eqb (vm_confidence_score vm) (confidence_threshold cfg) = true ->
      is_confident_match cfg vm = false)
  /\ (forall vm', vm_confidence_score vm' = vm_confidence_score vm ->
      is_confident_match cfg vm' = is_confident_match cfg vm)
  /\ confidence_threshold settings = 0.85%float.
Proof.
  intros cfg vm. unfold is_confident_match.
  split; [apply FloatFacts.ltb_Lt|].
  split; [intros ->; apply FloatFacts.ltb_irrefl|].
  split; [apply FloatFacts.eqb_not_gt|].
  split; [now intros vm' ->|reflexivity].
Qed.

Lemma is_empty_spec s : PyStr.is_empty s = true <-> s = "".
Proof. destruct s; simpl; split; congruence. Qed.

Lemma is_empty_false s : PyStr.is_empty s = false <-> s <> "".
Proof. destruct s; simpl; split; congruence. Qed.

(** The weight on two non-empty domain strings. *)
Lemma domain_weight_str cfg q c :
  q <> "" -> c <> "" ->
  _calculate_domain_weight cfg q (MStr c) =
  Ret (if String.eqb (normalize q) (normalize c) then exact_domain_weight cfg
       else if _are_domains_similar (normalize q) (normalize c)
            then similar_domain_weight cfg
            else default_domain_weight cfg).
Proof.
  intros Hq Hc. unfold _calculate_domain_weight. simpl.
  apply is_empty_false in Hq, Hc. rewrite Hq, Hc. simpl.
  destruct (String.eqb _ _); [reflexivity|].
  destruct (_are_domains_similar _ _); reflexivity.
Qed.

Lemma domain_weight_missing cfg q cd :
  q = "" \/ truthy cd = false ->
  _calculate_domain_weight cfg q cd = Ret (default_domain_weight cfg).
Proof.
  intros [-> | H]; unfold _calculate_domain_weight; simpl; [reflexivity|].
  rewrite H. now rewrite orb_true_r.
Qed.

Lemma domain_weight_range cfg q cd w :
  _calculate_domain_weight cfg q cd = Ret w ->
  w = exact_domain_weight cfg \/ w = similar_domain_weight cfg \/
  w = default_domain_weight cfg.
Proof.
  unfold _calculate_domain_weight.
  destruct (PyStr.is_empty q || negb (truthy cd)).
  - intros [= <-]. auto.
  - destruct cd; try discriminate.
    destruct (String.eqb _ _); [intros [= <-]; auto|].
    destruct (_are_domains_similar _ _); intros [= <-]; auto.
Qed.

(** What a successful scoring of one candidate computed. *)
Lemma score_inv cfg candidate qmd m :
  _calculate_confidence_score cfg candidate qmd = Some m ->
  exists md w,
    cand_metadata candidate = Some md /\
    _calculate_domain_weight cfg (sender_domain qmd)
      (dict_get md "sender_domain" (MStr "")) = Ret w /\
    m = {| similarity_score := cand_similarity candidate;
           domain_weight := w;
           vm_confidence_score := PrimFloat.mul (cand_similarity candidate) w;
           vm_metadata := md |}.
Proof.
  unfold _calculate_confidence_score.
  destruct (cand_metadata candidate) as [md|]; simpl; [|discriminate].
  destruct (_calculate_domain_weight _ _ _) as [w|e] eqn:E; simpl;
    [|discriminate].
  intros [= <-]. now exists md, w.
Qed.

(** C1. For every candidate the matcher scores, the confidence score is
    the float product of the similarity and the domain weight; the weight
    is one of the three configured constants (1.0, 0.8 and 0.5 by
    default): the default one as soon as the query domain or the
    candidate's stored domain is missing or empty, otherwise the exact
    one when the lower-cased, stripped domains are equal, otherwise the
    similar one when they are similar, otherwise the default one. *)
Theorem confidence_is_similarity_times_weight :
  forall cfg candidate qmd m,
    _calculate_confidence_score cfg candidate qmd = Some m ->
    exists md,
      cand_metadata candidate = Some md /\
      similarity_score m = cand_similarity candidate /\
      vm_confidence_score m =
        PrimFloat.mul (similarity_score m) (domain_weight m) /\
      (domain_weight m = exact_domain_weight cfg \/
       domain_weight m = similar_domain_weight cfg \/
       domain_weight m = default_domain_weight cfg) /\
      (let q := sender_domain qmd in
       let cd := dict_get md "sender_domain" (MStr "") in
       (q = "" \/ cd = MNone \/ cd = MStr "" ->
        domain_weight m = default_domain_weight cfg) /\
       (forall c, cd = MStr c -> q <> "" -> c <> "" ->
          (normalize q = normalize c ->
           domain_weight m = exact_domain_weight cfg) /\
          (normalize q <> normalize c ->
           _are_domains_similar (normalize q) (normalize c) = true ->
           domain_weight m = similar_domain_weight cfg) /\
          (normalize q <> normalize c ->
           _are_domains_similar (normalize q) (normalize c) = false ->
           domain_weight m = default_domain_weight cfg))) /\
      exact_domain_weight settings = 1.0%float /\
      similar_domain_weight settings = 0.8%float /\
      default_domain_weight settings = 0.5%float.
Proof.
  intros cfg candidate qmd m H.
  destruct (score_inv _ _ _ _ H) as (md & w & Hmd & Hw & ->).
  exists md. simpl.
  split; [exact Hmd|]. split; [reflexivity|]. split; [reflexivity|].
  split; [exact (domain_weight_range _ _ _ _ Hw)|].
  split; [|repeat split].
  split.
  - intros Hmiss.
    assert (Hd : _calculate_domain_weight cfg (sender_domain qmd)
                   (dict_get md "sender_domain" (MStr ""))
                 = Ret (default_domain_weight cfg)).
    { apply domain_weight_missing.
      destruct Hmiss as [Hq | [Hc | Hc]]; [now left | right; now rewrite Hc ..]. }
    congruence.
  - intros c Hc Hq Hne. rewrite Hc in Hw.
    rewrite (domain_weight_str _ _ _ Hq Hne) in Hw.
    repeat split.
    + intros E. apply String.eqb_eq in E. rewrite E in Hw. congruence.
    + intros E S. apply String.eqb_neq in E. rewrite E, S in Hw. congruence.
    + intros E S. apply String.eqb_neq in E. rewrite E, S in Hw. congruence.
Qed.

Lemma confidence_is_similarity_times_weight_witness :
  _calculate_confidence_score settings acme_candidate acme_query
    = Some acme_match /\
  vm_confidence_score acme_match = PrimFloat.mul 0.9%float 0.8%float.
Proof.
  split; [reflexivity|].
  destruct (confidence_is_similarity_times_weight
              settings acme_candidate acme_query acme_match eq_refl)
    as (md & _ & _ & Hc & _).
  exact Hc.
Defined.

(** Precedence matters: equal domains are also similar, yet weigh 1.0. *)
Lemma similar_refl d : _are_domains_similar d d = true.
Proof. unfold _are_domains_similar. now rewrite String.eqb_refl. Qed.

Example weight_exact_after_normalising :
  _calculate_domain_weight settings " Shopify.COM" (MStr "shopify.com")
  = Ret 1.0%float.
Proof. reflexivity. Qed.

Example weight_similar_mail_prefix :
  _calculate_domain_weight settings "mail.acme.com" (MStr "acme.com")
  = Ret 0.8%float.
Proof. reflexivity. Qed.

Example weight_different :
  _calculate_domain_weight settings "acme.com" (MStr "shopify.com")
  = Ret 0.5%float.
Proof. reflexivity. Qed.

(** *** [find_best_match] *)

Lemma fgt_asym a b : fgt a b = true -> fgt b a = false.
Proof.
  unfold fgt. intros H. destruct (PrimFloat.ltb a b) eqn:E; [|reflexivity].
  pose proof (FloatFacts.ltb_trans _ _ _ H E) as T.
  now rewrite FloatFacts.ltb_irrefl in T.
Qed.

Lemma fgt_trans a b c : fgt a b = true -> fgt b c = true -> fgt a c = true.
Proof. unfold fgt. intros H1 H2. exact (FloatFacts.ltb_trans _ _ _ H2 H1). Qed.

Lemma max_by_confidence_In : forall rest best,
  In (max_by_confidence best rest) (best :: rest).
Proof.
  induction rest as [|item rest IH]; intros best; simpl; [auto|].
  destruct (fgt _ _).
  - right. apply IH.
  - destruct (IH best) as [E|I]; [left; exact E | right; right; exact I].
Qed.

(** The running maximum only moves to strictly greater keys. *)
Lemma max_by_confidence_mono : forall rest best,
  max_by_confidence best rest = best \/
  fgt (vm_confidence_score (max_by_confidence best rest))
      (vm_confidence_score best) = true.
Proof.
  induction rest as [|item rest IH]; intros best; simpl; [auto|].
  destruct (fgt (vm_confidence_score item) (vm_confidence_score best)) eqn:E.
  - right. destruct (IH item) as [-> | G]; [exact E|].
    exact (fgt_trans _ _ _ G E).
  - apply IH.
Qed.

Lemma not_above_after_step r a b :
  (r = a \/ fgt (vm_confidence_score r) (vm_confidence_score a) = true) ->
  fgt (vm_confidence_score b) (vm_confidence_score a) = false ->
  fgt (vm_confidence_score b) (vm_confidence_score r) = false.
Proof.
  intros [-> | G] H; [exact H|].
  destruct (fgt (vm_confidence_score b) (vm_confidence_score r)) eqn:E;
    [|reflexivity].
  rewrite (fgt_trans _ _ _ E G) in H. discriminate.
Qed.

Lemma max_by_confidence_upper : forall rest best m,
  In m (best :: rest) ->
  fgt (vm_confidence_score m)
      (vm_confidence_score (max_by_confidence best rest)) = false.
Proof.
  induction rest as [|item rest IH]; intros best m Hin; simpl.
  - destruct Hin as [<- | []]. apply FloatFacts.ltb_irrefl.
  - destruct (fgt (vm_confidence_score item) (vm_confidence_score best)) eqn:E.
    + destruct Hin as [<- | Hin]; [|apply IH; exact Hin].
      apply (not_above_after_step _ item best).
      * apply max_by_confidence_mono.
      * apply fgt_asym, E.
    + destruct Hin as [<- | [<- | Hin]].
      * apply IH. now left.
      * apply (not_above_after_step _ best item);
          [apply max_by_confidence_mono | exact E].
      * apply IH. now right.
Qed.

Lemma score_all_In cfg qmd : forall candidates m,
  In m (score_all cfg candidates qmd) <->
  exists c, In c candidates /\
            _calculate_confidence_score cfg c qmd = Some m.
Proof.
  induction candidates as [|c cs IH]; intros m; simpl.
  - split; [intros [] | intros (c & [] & _)].
  - destruct (_calculate_confidence_score cfg c qmd) as [m'|] eqn:E; simpl.
    + rewrite IH. split.
      * intros [<- | (c' & I & S)]; [exists c; auto | exists c'; auto].
      * intros (c' & [<- | I] & S); [left; congruence | right; eauto].
    + rewrite IH. split.
      * intros (c' & I & S). exists c'; auto.
      * intros (c' & [<- | I] & S); [congruence | eauto].
Qed.

(** C5 (amended). [find_best_match] always returns and never raises.  It
    returns none when the vector store is unavailable, when the search
    yields no candidate, and when none of the candidates could be scored;
    otherwise it returns one of the scored candidates, and no scored
    candidate has a strictly greater confidence score. *)
Theorem find_best_match_spec :
  forall cfg vector_store coll content qmd n,
  exists r,
    find_best_match cfg vector_store coll content qmd n = Ret r /\
    (vector_store = None -> r = None) /\
    (forall vs, vector_store = Some vs ->
       let candidates := search_similar_emails vs coll content qmd n in
       let scored := score_all cfg candidates qmd in
       (forall m, In m scored <->
          exists c, In c candidates /\
                    _calculate_confidence_score cfg c qmd = Some m) /\
       (candidates = [] -> r = None) /\
       (scored = [] -> r = None) /\
       (scored <> [] ->
          exists best,
            r = Some best /\ In best scored /\
            forall m, In m scored ->
              fgt (vm_confidence_score m) (vm_confidence_score best) = false)).
Proof.
  intros cfg vector_store coll content qmd n.
  unfold find_best_match.
  destruct vector_store as [vs|]; simpl.
  2:{ exists None. split; [reflexivity|]. split; [reflexivity|discriminate]. }
  destruct (search_similar_emails vs coll content qmd n) as [|c cs] eqn:Ec.
  - exists None. simpl. split; [reflexivity|]. split; [discriminate|].
    intros vs' [= <-]. rewrite Ec. simpl.
    split; [|tauto].
    intros m. split; [intros [] | intros (c & [] & _)].
  - destruct (score_all cfg (c :: cs) qmd) as [|first rest] eqn:Es; simpl.
    + exists None. split; [reflexivity|]. split; [discriminate|].
      intros vs' [= <-]. rewrite Ec. cbv zeta.
      split; [apply score_all_In|]. rewrite Es.
      repeat split; congruence.
    + exists (Some (max_by_confidence first rest)).
      split; [reflexivity|]. split; [discriminate|].
      intros vs' [= <-]. rewrite Ec. cbv zeta.
      split; [apply score_all_In|]. rewrite Es.
      split; [discriminate|]. split; [discriminate|].
      intros _. exists (max_by_confidence first rest).
      split; [reflexivity|]. split; [apply max_by_confidence_In|].
      apply max_by_confidence_upper.
Qed.

(** C5, as stated, fails: the store is available and the search returns a
    candidate, yet the result is none, because the only candidate has no
    metadata and cannot be scored. *)
Lemma find_best_match_unscored_counterexample :
  search_similar_emails (fixed_distance_store 0.1%float) [bare_entry]
    "Quarterly newsletter" acme_query 10
  = [ {| cand_id := "doc-7"; cand_document := "Quarterly newsletter";
         cand_metadata := None; cand_distance := 0.1%float;
         cand_similarity := PrimFloat.sub 1%float 0.1%float |} ]
  /\ find_best_match settings (Some (fixed_distance_store 0.1%float))
       [bare_entry] "Quarterly newsletter" acme_query 10
     = Ret None.
Proof. split; reflexivity. Qed.

(** *** Similarity scores *)

Lemma build_matches_similarity r : forall ids i matches,
  build_matches r ids i = Ret matches ->
  forall c, In c matches ->
    cand_similarity c = PrimFloat.sub 1%float (cand_distance c).
Proof.
  induction ids as [|doc_id ids IH]; intros i matches; simpl.
  - intros [= <-] c [].
  - destruct (index (res_documents r) i) as [doc|]; simpl; [|discriminate].
    destruct (index (res_metadatas r) i) as [md|]; simpl; [|discriminate].
    destruct (index (res_distances r) i) as [d|]; simpl; [|discriminate].
    destruct (build_matches r ids (S i)) as [ms|] eqn:E; simpl;
      [|discriminate].
    intros [= <-] c [<- | Hin]; [reflexivity|].
    exact (IH _ _ E c Hin).
Qed.

Lemma search_similarity vs coll content qmd n c :
  In c (search_similar_emails vs coll content qmd n) ->
  cand_similarity c = PrimFloat.sub 1%float (cand_distance c).
Proof.
  unfold search_similar_emails.
  destruct (embed_query vs _) as [emb|]; simpl; [|intros []].
  destruct (chroma_query vs coll emb n) as [r|]; simpl; [|intros []].
  destruct (build_matches r (res_ids r) 0) as [ms|] eqn:E; [|intros []].
  exact (build_matches_similarity r _ _ _ E c).
Qed.

(** C9 (amended). Every candidate the search produces has similarity
    [1 - distance], the distance being the one the index reported; so has
    every match the matcher scores from it.  A distance of 0 (an identical
    embedding) gives similarity 1.  The score is neither clamped nor
    checked against [0,1]. *)
Theorem similarity_is_one_minus_distance :
  forall cfg vs coll content qmd n c,
    In c (search_similar_emails vs coll content qmd n) ->
    cand_similarity c = PrimFloat.sub 1%float (cand_distance c) /\
    (cand_distance c = 0%float -> cand_similarity c = 1%float) /\
    (forall m, _calculate_confidence_score cfg c qmd = Some m ->
               similarity_score m = PrimFloat.sub 1%float (cand_distance c)).
Proof.
  intros cfg vs coll content qmd n c Hin.
  pose proof (search_similarity _ _ _ _ _ _ Hin) as Hs.
  split; [exact Hs|]. split.
  - intros Hd. rewrite Hs, Hd. reflexivity.
  - intros m Hm. destruct (score_inv _ _ _ _ Hm) as (md & w & _ & _ & ->).
    exact Hs.
Qed.

(** C9, as stated, fails: a document the index reports at distance 1.5
    yields a candidate, and a scored match, of similarity -0.5. *)
Lemma similarity_below_zero_counterexample :
  exists c m,
    search_similar_emails (fixed_distance_store 1.5%float) [far_entry]
      "Weekly deals" acme_query 10 = [c] /\
    _calculate_confidence_score settings c acme_query = Some m /\
    similarity_score m = (-0.5)%float /\
    PrimFloat.ltb (similarity_score m) 0%float = true /\
    find_best_match settings (Some (fixed_distance_store 1.5%float))
      [far_entry] "Weekly deals" acme_query 10 = Ret (Some m).
Proof.
  eexists. eexists.
  split; [reflexivity|]. split; [reflexivity|].
  split; [reflexivity|]. split; reflexivity.
Qed.

Lemma similarity_is_one_minus_distance_witness :
  In near_candidate
     (search_similar_emails (fixed_distance_store 0.25%float) [far_entry]
        "Weekly deals" acme_query 10) /\
  cand_similarity near_candidate
    = PrimFloat.sub 1%float (cand_distance near_candidate).
Proof.
  assert (H : In near_candidate
     (search_similar_emails (fixed_distance_store 0.25%float) [far_entry]
        "Weekly deals" acme_query 10)) by (left; reflexivity).
  split; [exact H|].
  exact (proj1 (similarity_is_one_minus_distance settings
            (fixed_distance_store 0.25%float) [far_entry] "Weekly deals"
            acme_query 10 near_candidate H)).
Defined.

End MatcherProps.

(** ** The fallback classification chain *)

Module ChainProps.
Import Models ClassificationChain Notions Fixtures.

(** *** Substrings *)

Lemma startswith_spec : forall p s,
  PyStr.startswith s p = true <-> exists rest, s = String.append p rest.
Proof.
  induction p as [|a p IH]; intros s; simpl.
  - split; [intros _; now exists s | now destruct s].
  - destruct s as [|b s]; simpl.
    + split; [discriminate | intros (rest & H); discriminate].
    + rewrite andb_true_iff, Ascii.eqb_eq, IH. split.
      * intros (-> & rest & ->). now exists rest.
      * intros (rest & [= -> ->]). split; [reflexivity | now exists rest].
Qed.

(** [p in s] holds exactly when [s] is [before ++ p ++ after]. *)
Lemma contains_spec : forall s p,
  PyStr.contains s p = true <->
  exists before after, s = String.append before (String.append p after).
Proof.
  induction s as [|c s IH]; intros p.
  - cbn [PyStr.contains]. rewrite orb_false_r, startswith_spec. split.
    + intros (rest & H). now exists EmptyString, rest.
    + intros ([|b before] & after & H); [now exists after | discriminate].
  - cbn [PyStr.contains]. rewrite orb_true_iff, startswith_spec, IH. split.
    + intros [(rest & H) | (before & after & ->)].
      * now exists EmptyString, rest.
      * now exists (String c before), after.
    + intros ([|b before] & after & H).
      * left. now exists after.
      * right. simpl in H. injection H as _ ->. now exists before, after.
Qed.

Lemma lower_append : forall a b,
  PyStr.lower (String.append a b)
  = String.append (PyStr.lower a) (PyStr.lower b).
Proof.
  induction a as [|c a IH]; intros b; simpl; [reflexivity|].
  now rewrite IH.
Qed.

(** A lower-case keyword found in the text is found in the lowered text. *)
Lemma contains_lower s p :
  PyStr.lower p = p ->
  PyStr.contains s p = true -> PyStr.contains (PyStr.lower s) p = true.
Proof.
  intros Hp. rewrite !contains_spec. intros (before & after & ->).
  exists (PyStr.lower before), (PyStr.lower after).
  now rewrite !lower_append, Hp.
Qed.

Lemma any_keyword_In keywords t k :
  In k keywords -> PyStr.contains t k = true -> any_keyword keywords t = true.
Proof.
  intros Hin Hk. unfold any_keyword. apply existsb_exists. now exists k.
Qed.

(** C4. The heuristic classifier is a total function of the text alone
    (the metadata is ignored) and yields the category of the first keyword
    bucket that has a keyword occurring in the lower-cased text, the buckets
    being tried in the order marketing, transactional, survey,
    customer_support, with personal when none matches; a text containing
    both "unsubscribe" and "invoice" is marketing. *)
Theorem heuristic_classification_first_bucket :
  forall content md,
    let hit := fun keywords =>
      existsb (fun keyword => PyStr.contains (PyStr.lower content) keyword)
              keywords in
    let marketing :=
      ["unsubscribe"; "newsletter"; "promotion"; "offer"; "sale"; "discount"] in
    let transactional :=
      ["order"; "receipt"; "confirmation"; "invoice"; "payment"; "account"] in
    let survey := ["survey"; "feedback"; "questionnaire"; "rate"; "review"] in
    let support :=
      ["support"; "help"; "ticket"; "issue"; "problem"; "assistance"] in
    (exists! c, _heuristic_classification content md = c) /\
    (forall md', _heuristic_classification content md'
                 = _heuristic_classification content md) /\
    (hit marketing = true ->
     _heuristic_classification content md = MARKETING) /\
    (hit marketing = false -> hit transactional = true ->
     _heuristic_classification content md = TRANSACTIONAL) /\
    (hit marketing = false -> hit transactional = false ->
     hit survey = true ->
     _heuristic_classification content md = SURVEY) /\
    (hit marketing = false -> hit transactional = false ->
     hit survey = false -> hit support = true ->
     _heuristic_classification content md = CUSTOMER_SUPPORT) /\
    (hit marketing = false -> hit transactional = false ->
     hit survey = false -> hit support = false ->
     _heuristic_classification content md = PERSONAL) /\
    (forall a b a' b',
       content = String.append a (String.append "unsubscribe" b) ->
       content = String.append a' (String.append "invoice" b') ->
       _heuristic_classification content md = MARKETING).
Proof.
  intros content md hit marketing transactional survey support.
  assert (Hdef : _heuristic_classification content md =
    if hit marketing then MARKETING
    else if hit transactional then TRANSACTIONAL
    else if hit survey then SURVEY
    else if hit support then CUSTOMER_SUPPORT
    else PERSONAL) by reflexivity.
  split.
  { exists (_heuristic_classification content md).
    split; [reflexivity | now intros c' <-]. }
  split; [reflexivity|].
  split; [intros H; now rewrite Hdef, H|].
  split; [intros H1 H2; now rewrite Hdef, H1, H2|].
  split; [intros H1 H2 H3; now rewrite Hdef, H1, H2, H3|].
  split; [intros H1 H2 H3 H4; now rewrite Hdef, H1, H2, H3, H4|].
  split; [intros H1 H2 H3 H4; now rewrite Hdef, H1, H2, H3, H4|].
  intros a b _ _ Hu _.
  assert (H : hit marketing = true).
  { apply (any_keyword_In marketing _ "unsubscribe"); [now left|].
    apply contains_lower; [reflexivity|].
    apply contains_spec. now exists a, b. }
  now rewrite Hdef, H.
Qed.

Example heuristic_unsubscribe_invoice :
  _heuristic_classification
    "Your Invoice is attached. Click here to UNSUBSCRIBE."
    {| sender_domain := "shopify.com"; footer_text := None; urls := [] |}
  = MARKETING.
Proof. reflexivity. Qed.

Example heuristic_invoice_only :
  _heuristic_classification "Your invoice is attached."
    {| sender_domain := "shopify.com"; footer_text := None; urls := [] |}
  = TRANSACTIONAL.
Proof. reflexivity. Qed.

(** *** Dot-separated labels *)

Lemma append_snoc : forall cur c s,
  String.append (String.append cur (String c EmptyString)) s
  = String.append cur (String c s).
Proof.
  induction cur as [|a cur IH]; intros c s; simpl; [reflexivity|].
  now rewrite IH.
Qed.

Lemma append_empty_r : forall s, String.append s EmptyString = s.
Proof. induction s as [|c s IH]; simpl; [reflexivity | now rewrite IH]. Qed.

Lemma split_acc_label sep : forall l cur,
  free_of sep l = true ->
  PyStr.split_acc sep l cur = [String.append cur l].
Proof.
  induction l as [|c l IH]; intros cur; simpl.
  - intros _. now rewrite append_empty_r.
  - rewrite andb_true_iff, negb_true_iff. intros (Hc & Hl).
    rewrite Hc, (IH _ Hl). now rewrite append_snoc.
Qed.

Lemma split_acc_label_sep sep : forall l rest cur,
  free_of sep l = true ->
  PyStr.split_acc sep (String.append l (String sep rest)) cur
  = String.append cur l :: PyStr.split_acc sep rest EmptyString.
Proof.
  induction l as [|c l IH]; intros rest cur; simpl.
  - intros _. now rewrite Ascii.eqb_refl, append_empty_r.
  - rewrite andb_true_iff, negb_true_iff. intros (Hc & Hl).
    rewrite Hc, (IH _ _ Hl). now rewrite append_snoc.
Qed.

(** Splitting the dotted name of a non-empty list of labels gives the
    labels back. *)
Lemma split_join : forall labels,
  labels <> [] ->
  forallb (free_of ".") labels = true ->
  PyStr.split "." (PyStr.join "." labels) = labels.
Proof.
  induction labels as [|l labels IH]; intros Hne Hfree; [congruence|].
  simpl in Hfree. apply andb_true_iff in Hfree as (Hl & Hrest).
  destruct labels as [|l' labels].
  - simpl. unfold PyStr.split. now rewrite split_acc_label.
  - change (PyStr.join "." (l :: l' :: labels))
      with (String.append l (String "." (PyStr.join "." (l' :: labels)))).
    unfold PyStr.split. rewrite (split_acc_label_sep _ _ _ _ Hl). simpl.
    f_equal. apply IH; [discriminate | exact Hrest].
Qed.

Lemma free_of_append sep : forall a b,
  free_of sep (String.append a b) = free_of sep a && free_of sep b.
Proof.
  induction a as [|c a IH]; intros b; simpl; [reflexivity|].
  now rewrite IH, andb_assoc.
Qed.

Lemma split_acc_join sep : forall s cur,
  free_of sep cur = true ->
  PyStr.split_acc sep s cur <> [] /\
  forallb (free_of sep) (PyStr.split_acc sep s cur) = true /\
  PyStr.join (String sep EmptyString) (PyStr.split_acc sep s cur)
    = String.append cur s.
Proof.
  induction s as [|c s IH]; intros cur Hcur; simpl.
  - split; [discriminate|]. rewrite Hcur, append_empty_r. now split.
  - destruct (Ascii.eqb c sep) eqn:E.
    + apply Ascii.eqb_eq in E. subst c.
      destruct (IH EmptyString eq_refl) as (Hne & Hall & Hjoin).
      split; [discriminate|]. split; [simpl; now rewrite Hcur, Hall|].
      destruct (PyStr.split_acc sep s EmptyString) as [|q qs] eqn:Eq;
        [congruence|].
      change (PyStr.join (String sep EmptyString) (cur :: q :: qs))
        with (String.append cur
                (String sep (PyStr.join (String sep EmptyString) (q :: qs)))).
      now rewrite Hjoin.
    + assert (Hc : free_of sep (String.append cur (String c EmptyString)) = true).
      { rewrite free_of_append, Hcur. simpl. now rewrite E. }
      destruct (IH _ Hc) as (Hne & Hall & Hjoin).
      split; [exact Hne|]. split; [exact Hall|].
      now rewrite Hjoin, append_snoc.
Qed.

(** Every domain string is the dotted name of its labels. *)
Lemma domain_has_labels (d : string) :
  exists labels,
    d = PyStr.join "." labels /\ forallb (free_of ".") labels = true.
Proof.
  exists (PyStr.split "." d).
  destruct (split_acc_join "." d EmptyString eq_refl) as (_ & Hall & Hjoin).
  split; [symmetry; exact Hjoin | exact Hall].
Qed.

Lemma company_name_of_labels content md labels :
  sender_domain md = PyStr.join "." labels ->
  forallb (free_of ".") labels = true ->
  _extract_company_name_heuristic content md =
  if 2 <=? List.length labels
  then PyStr.capitalize (nth (List.length labels - 2) labels EmptyString)
  else "Unknown Company".
Proof.
  intros Hd Hfree. unfold _extract_company_name_heuristic. rewrite Hd.
  destruct labels as [|l labels]; [reflexivity|].
  now rewrite split_join.
Qed.

(** *** The fallback result *)

Lemma fallback_valid V content md validated :
  validate_opt (http_url V) (first_url md) = Some validated ->
  _create_fallback_result V content md =
  {| email_category := _heuristic_classification content md;
     business_entity :=
       {| name := _extract_company_name_heuristic content md;
          website := validated; dpo_email := None;
          industry := None; location := None |};
     data := empty_data;
     confidence_score := 0.3%float;
     metadata := Some md;
     processed_at := None |}.
Proof.
  intros H. unfold _create_fallback_result, new_BusinessEntity.
  fold (first_url md). rewrite H. reflexivity.
Qed.

Lemma fallback_invalid V content md :
  validate_opt (http_url V) (first_url md) = None ->
  _create_fallback_result V content md = ultimate_fallback md.
Proof.
  intros H. unfold _create_fallback_result, new_BusinessEntity.
  fold (first_url md). rewrite H. reflexivity.
Qed.

(** C6 (amended). When the provider invocation fails and the first URL of
    the metadata, if there is one, passes the website validation of the
    business-entity model, the result has: as business name the capitalized
    second-to-last label of the sender domain, or "Unknown Company" when
    the domain has fewer than two labels; as website the validated form of
    the first URL of the metadata, as the business-entity model keeps it,
    or none when there is no URL; confidence 0.3, which is not above the
    default threshold.  When the first URL fails the validation, the
    result is the static last-resort one: personal, "Unknown", no website,
    confidence 0.1. *)
Theorem fallback_result_fields :
  forall V invoke content md labels e,
    invoke (build_input_data content md) = Raise e ->
    sender_domain md = PyStr.join "." labels ->
    forallb (free_of ".") labels = true ->
    (forall validated,
       validate_opt (http_url V) (first_url md) = Some validated ->
       name (business_entity (classify_email V invoke content md)) =
         (if 2 <=? List.length labels
          then PyStr.capitalize (nth (List.length labels - 2) labels EmptyString)
          else "Unknown Company") /\
       website (business_entity (classify_email V invoke content md))
         = validated /\
       (first_url md = None -> validated = None) /\
       (forall u, first_url md = Some u -> validated = http_url V u) /\
       confidence_score (classify_email V invoke content md) = 0.3%float /\
       fgt (confidence_score (classify_email V invoke content md))
           (Config.confidence_threshold Config.settings) = false) /\
    (validate_opt (http_url V) (first_url md) = None ->
       (exists u, first_url md = Some u /\ http_url V u = None) /\
       classify_email V invoke content md = ultimate_fallback md /\
       email_category (ultimate_fallback md) = PERSONAL /\
       name (business_entity (ultimate_fallback md)) = "Unknown" /\
       website (business_entity (ultimate_fallback md)) = None /\
       confidence_score (ultimate_fallback md) = 0.1%float).
Proof.
  intros V invoke content md labels e Hfail Hd Hfree.
  assert (Hc : classify_email V invoke content md
               = _create_fallback_result V content md).
  { unfold classify_email. cbv zeta. now rewrite Hfail. }
  rewrite Hc. split.
  - intros validated Hok. rewrite (fallback_valid _ _ _ _ Hok). simpl.
    split; [exact (company_name_of_labels _ _ _ Hd Hfree)|].
    split; [reflexivity|].
    split; [|split; [|split; reflexivity]].
    + intros Hnone. rewrite Hnone in Hok. simpl in Hok. congruence.
    + intros u Hu. rewrite Hu in Hok. simpl in Hok.
      destruct (http_url V u); congruence.
  - intros Hbad. rewrite (fallback_invalid _ _ _ Hbad).
    split; [|repeat split].
    destruct (first_url md) as [u|]; simpl in Hbad; [|discriminate].
    exists u. split; [reflexivity|].
    destruct (http_url V u); [discriminate | reflexivity].
Qed.

Lemma fallback_result_fields_witness :
  name (business_entity
          (classify_email scheme_validators provider_down
             "Unsubscribe here. 50% off everything" shopify_home_md))
    = "Shopify" /\
  website (business_entity
          (classify_email scheme_validators provider_down
             "Unsubscribe here. 50% off everything" shopify_home_md))
    = Some "https://shopify.com/" /\
  confidence_score
          (classify_email scheme_validators provider_down
             "Unsubscribe here. 50% off everything" shopify_home_md)
    = 0.3%float.
Proof.
  destruct (fallback_result_fields scheme_validators provider_down
              "Unsubscribe here. 50% off everything" shopify_home_md
              ["shopify"; "com"] (ProviderError "connection refused")
              eq_refl eq_refl eq_refl) as (Hok & _).
  destruct (Hok (Some "https://shopify.com/") eq_refl)
    as (Hn & Hw & _ & _ & Hc & _).
  split; [exact Hn|]. split; [exact Hw | exact Hc].
Defined.

(** C6, as stated, fails: the provider is down and the first URL of the
    metadata is not an http(s) URL, so building the business entity raises
    and the result is the last-resort one, with confidence 0.1 (not 0.3),
    name "Unknown" (not "Shopify") and no website. *)
Lemma fallback_invalid_url_counterexample :
  classify_email scheme_validators provider_down
    "Unsubscribe here. 50% off everything" ftp_md = ultimate_fallback ftp_md /\
  confidence_score (ultimate_fallback ftp_md) = 0.1%float /\
  PrimFloat.eqb (confidence_score (ultimate_fallback ftp_md)) 0.3%float = false /\
  name (business_entity (ultimate_fallback ftp_md)) = "Unknown" /\
  website (business_entity (ultimate_fallback ftp_md)) = None.
Proof. repeat split. Qed.

End ChainProps.

(** ** The DPO extraction chain *)

Module DPOProps.
Import DPOExtraction Fixtures.

Lemma take_length : forall n s,
  String.length (PyStr.take n s) = Nat.min n (String.length s).
Proof.
  induction n as [|n IH]; intros s; [reflexivity|].
  destruct s as [|c s]; simpl; [reflexivity | now rewrite IH].
Qed.

Lemma append_length : forall a b,
  String.length (String.append a b) = String.length a + String.length b.
Proof.
  induction a as [|c a IH]; intros b; simpl; [reflexivity | now rewrite IH].
Qed.

Lemma take_prefix : forall n s,
  String.append (PyStr.take n s) (PyStr.drop n s) = s.
Proof.
  induction n as [|n IH]; intros s; [reflexivity|].
  destruct s as [|c s]; simpl; [reflexivity | now rewrite IH].
Qed.

(** *** Whitespace stripping *)

Lemma rstrip_cons c r :
  PyStr.rstrip (String c r) =
  match PyStr.rstrip r with
  | EmptyString =>
      if PyStr.is_space c then EmptyString else String c EmptyString
  | String d x => String c (String d x)
  end.
Proof. reflexivity. Qed.

Lemma rstrip_idem : forall s, PyStr.rstrip (PyStr.rstrip s) = PyStr.rstrip s.
Proof.
  induction s as [|c s IH]; [reflexivity|].
  rewrite rstrip_cons.
  destruct (PyStr.rstrip s) as [|d x] eqn:E.
  - destruct (PyStr.is_space c) eqn:Ec; [reflexivity|].
    rewrite rstrip_cons. simpl. now rewrite Ec.
  - rewrite rstrip_cons, IH. reflexivity.
Qed.

Lemma lstrip_head : forall s,
  PyStr.lstrip s = EmptyString \/
  exists c r, PyStr.lstrip s = String c r /\ PyStr.is_space c = false.
Proof.
  induction s as [|c s IH]; [now left|].
  cbn [PyStr.lstrip]. destruct (PyStr.is_space c) eqn:Ec; [exact IH|].
  right. now exists c, s.
Qed.

Lemma rstrip_head c r :
  PyStr.is_space c = false ->
  exists r', PyStr.rstrip (String c r) = String c r'.
Proof.
  intros Hc. rewrite rstrip_cons.
  destruct (PyStr.rstrip r) as [|d x]; [rewrite Hc|]; eauto.
Qed.

Lemma strip_idem s : PyStr.strip (PyStr.strip s) = PyStr.strip s.
Proof.
  unfold PyStr.strip.
  destruct (lstrip_head s) as [-> | (c & r & -> & Hc)]; [reflexivity|].
  destruct (rstrip_head c r Hc) as (r' & E).
  rewrite E at 1. cbn [PyStr.lstrip]. rewrite Hc, <- E.
  apply rstrip_idem.
Qed.

Lemma space_not_upper c :
  PyStr.is_space c = true -> PyStr.to_lower c = c.
Proof.
  unfold PyStr.is_space, PyStr.to_lower, PyStr.is_upper.
  destruct (65 <=? PyStr.code c) eqn:E1, (PyStr.code c <=? 90) eqn:E2;
    simpl; try reflexivity.
  apply Nat.leb_le in E1. intros H. exfalso.
  apply orb_true_iff in H as [H | H]; apply andb_true_iff in H as (_ & H);
    apply Nat.leb_le in H; lia.
Qed.

(** A reply that reads "none" in some letter case has no blank in it. *)
Lemma strip_of_none r :
  PyStr.lower r = "none" -> PyStr.strip r = r.
Proof.
  destruct r as [|c1 [|c2 [|c3 [|c4 [|c5 r]]]]]; try discriminate.
  cbn [PyStr.lower]. intros [= H1 _ _ H4].
  assert (S1 : PyStr.is_space c1 = false).
  { destruct (PyStr.is_space c1) eqn:E; [|reflexivity].
    rewrite (space_not_upper _ E) in H1. subst c1. discriminate. }
  assert (S4 : PyStr.is_space c4 = false).
  { destruct (PyStr.is_space c4) eqn:E; [|reflexivity].
    rewrite (space_not_upper _ E) in H4. subst c4. discriminate. }
  unfold PyStr.strip. cbn [PyStr.lstrip]. rewrite S1.
  rewrite !rstrip_cons. simpl. now rewrite S4.
Qed.

Lemma valid_email_of_stripped t :
  PyStr.strip t = t ->
  _is_valid_email t =
  negb (PyStr.is_empty t) && negb (String.eqb (PyStr.lower t) "none")
  && Regex.re_match email_pattern t.
Proof.
  intros Ht. unfold _is_valid_email. rewrite Ht.
  destruct (PyStr.is_empty t), (String.eqb (PyStr.lower t) "none"); reflexivity.
Qed.

(** C7 (amended). The policy text handed to the provider is the input
    when it has at most 8000 characters, and otherwise its first 8000
    characters followed by the marker "..."; the result depends on the
    provider only through its reply to that text.  The chain never raises:
    a provider failure gives none, and so does a reply that is empty, that
    reads "none" in any letter case, or whose whitespace-stripped form is
    empty, reads "none" or does not match the email pattern; any other
    reply gives its stripped form. *)
Theorem extract_dpo_email_spec :
  forall ainvoke content,
    (String.length content <= 8000 -> truncate_policy content = content) /\
    (8000 < String.length content ->
       truncate_policy content
         = String.append (PyStr.take 8000 content) "..." /\
       String.length (PyStr.take 8000 content) = 8000 /\
       content = String.append (PyStr.take 8000 content)
                               (PyStr.drop 8000 content)) /\
    (forall ainvoke',
       ainvoke' (truncate_policy content) = ainvoke (truncate_policy content) ->
       extract_dpo_email ainvoke' content = extract_dpo_email ainvoke content) /\
    (exists r, extract_dpo_email ainvoke content = Ret r) /\
    (forall e, ainvoke (truncate_policy content) = Raise e ->
       extract_dpo_email ainvoke content = Ret None) /\
    (forall reply, ainvoke (truncate_policy content) = Ret reply ->
       (reply = EmptyString \/ PyStr.lower reply = "none" \/
        PyStr.strip reply = EmptyString \/
        PyStr.lower (PyStr.strip reply) = "none" \/
        Regex.re_match email_pattern (PyStr.strip reply) = false ->
        extract_dpo_email ainvoke content = Ret None) /\
       (PyStr.strip reply <> EmptyString ->
        PyStr.lower (PyStr.strip reply) <> "none" ->
        Regex.re_match email_pattern (PyStr.strip reply) = true ->
        extract_dpo_email ainvoke content = Ret (Some (PyStr.strip reply)))).
Proof.
  intros ainvoke content.
  split.
  { intros H. unfold truncate_policy.
    destruct (8000 <? String.length content) eqn:E; [|reflexivity].
    apply Nat.ltb_lt in E. lia. }
  split.
  { intros H. unfold truncate_policy.
    apply Nat.ltb_lt in H as H'. rewrite H'.
    split; [reflexivity|]. split.
    - rewrite take_length. lia.
    - now rewrite take_prefix. }
  split.
  { intros ainvoke' H. unfold extract_dpo_email. cbv zeta. now rewrite H. }
  assert (Hret : forall reply, ainvoke (truncate_policy content) = Ret reply ->
    extract_dpo_email ainvoke content =
    if negb (PyStr.is_empty (PyStr.strip reply))
       && negb (String.eqb (PyStr.lower (PyStr.strip reply)) "none")
       && Regex.re_match email_pattern (PyStr.strip reply)
    then Ret (Some (PyStr.strip reply)) else Ret None).
  { intros reply H. unfold extract_dpo_email. cbv zeta. rewrite H. simpl.
    rewrite (valid_email_of_stripped _ (strip_idem reply)).
    destruct (_ && _); reflexivity. }
  split.
  { destruct (ainvoke (truncate_policy content)) as [reply|e] eqn:E.
    - rewrite (Hret _ eq_refl). destruct (_ && _); eauto.
    - unfold extract_dpo_email. cbv zeta. rewrite E. simpl. eauto. }
  split.
  { intros e E. unfold extract_dpo_email. cbv zeta. now rewrite E. }
  intros reply E. rewrite (Hret _ E). split.
  - intros [-> | [H | [H | [H | H]]]].
    + reflexivity.
    + rewrite (strip_of_none _ H), H. simpl.
      now rewrite andb_false_r.
    + now rewrite H.
    + rewrite H. simpl. now rewrite andb_false_r.
    + rewrite H. now rewrite andb_false_r.
  - intros H1 H2 H3.
    apply MatcherProps.is_empty_false in H1.
    apply String.eqb_neq in H2. now rewrite H1, H2, H3.
Qed.

(** C7, as stated, fails: a reply padded with blanks does not match the
    email pattern, yet the chain returns the address inside it instead of
    none; and for a policy of 9000 characters the provider is handed 8003
    characters, the first 8000 and the marker. *)
Lemma dpo_padded_reply_counterexample :
  Regex.re_match email_pattern " dpo@acme.com " = false /\
  extract_dpo_email (fun _ => Ret " dpo@acme.com ")
    "Contact our Data Protection Officer." = Ret (Some "dpo@acme.com") /\
  String.length (truncate_policy (policy_of_length 9000)) = 8003.
Proof. repeat split; vm_compute; reflexivity. Qed.

End DPOProps.

(** ** The orchestrator *)

Module PipelineProps.
Import Models VectorStore Config EmailProcessor ClassificationChain.
Import Notions Fixtures MoreNotions.





Lemma new_ProcessedEmail_inv cat be d conf md pe :
  new_ProcessedEmail cat be d conf md = Ret pe ->
  pe = {| email_category := cat; business_entity := be; data := d;
          confidence_score := conf; metadata := Some md;
          processed_at := None |} /\
  in_unit_interval conf = true.
Proof.
  unfold new_ProcessedEmail, in_unit_interval.
  destruct (_ && _); [|discriminate]. intros [= <-]. now split.
Qed.

Lemma fallback_confidence V text md :
  confidence_score (_create_fallback_result V text md) = 0.3%float \/
  confidence_score (_create_fallback_result V text md) = 0.1%float.
Proof.
  unfold _create_fallback_result.
  destruct (new_BusinessEntity _ _ _ _ _ _) as [be|]; simpl; [|now right].
  now left.
Qed.

Lemma fallback_metadata V text md :
  metadata (_create_fallback_result V text md) = Some md.
Proof.
  unfold _create_fallback_result.
  destruct (new_BusinessEntity _ _ _ _ _ _) as [be|]; reflexivity.
Qed.

Lemma classify_email_range V invoke text md :
  in_unit_interval (confidence_score (classify_email V invoke text md)) = true.
Proof.
  unfold classify_email. cbv zeta.
  destruct (invoke _) as [result|]; simpl.
  - destruct (new_ProcessedEmail _ _ _ _ _) as [pe|] eqn:E.
    + now destruct (new_ProcessedEmail_inv _ _ _ _ _ _ E) as (-> & H).
    + destruct (fallback_confidence V text md) as [-> | ->]; reflexivity.
  - destruct (fallback_confidence V text md) as [-> | ->]; reflexivity.
Qed.

Lemma classify_email_metadata V invoke text md :
  metadata (classify_email V invoke text md) = Some md.
Proof.
  unfold classify_email. cbv zeta.
  destruct (invoke _) as [result|]; simpl; [|apply fallback_metadata].
  destruct (new_ProcessedEmail _ _ _ _ _) as [pe|] eqn:E;
    [|apply fallback_metadata].
  now destruct (new_ProcessedEmail_inv _ _ _ _ _ _ E) as (-> & _).
Qed.

(** What the enhancement stage leaves alone. *)
Lemma enhance_preserves S pe :
  email_category (_enhance_business_entity S pe) = email_category pe /\
  data (_enhance_business_entity S pe) = data pe /\
  confidence_score (_enhance_business_entity S pe) = confidence_score pe /\
  metadata (_enhance_business_entity S pe) = metadata pe /\
  processed_at (_enhance_business_entity S pe) = processed_at pe /\
  name (business_entity (_enhance_business_entity S pe))
    = name (business_entity pe) /\
  website (business_entity (_enhance_business_entity S pe))
    = website (business_entity pe) /\
  industry (business_entity (_enhance_business_entity S pe))
    = industry (business_entity pe) /\
  location (business_entity (_enhance_business_entity S pe))
    = location (business_entity pe).
Proof.
  unfold _enhance_business_entity.
  destruct (website (business_entity pe)) as [site|] eqn:Ew;
    [|rewrite ?Ew; repeat split].
  destruct (negb (truthy_opt (dpo_email (business_entity pe))));
    [|rewrite ?Ew; repeat split].
  destruct (scraper_run S site) as [r|]; [|rewrite ?Ew; repeat split].
  destruct (scrape_dpo_email r) as [dpo|]; [|rewrite ?Ew; repeat split].
  destruct (scrape_success r && negb (PyStr.is_empty dpo));
    simpl; rewrite ?Ew; repeat split.
Qed.

(** The result before enhancement, write-back and time stamp. *)
Lemma classified_cases cfg S w email_input :
  let text := anonymized_text_of cfg S email_input in
  let md := metadata_of cfg S email_input in
  exists pe0,
    fst (process_email cfg S w email_input)
      = with_processed_at (_enhance_business_entity S pe0) (utc_now S) /\
    snd (process_email cfg S w email_input)
      = (if fgt (confidence_score (_enhance_business_entity S pe0))
                (confidence_threshold cfg)
         then _store_in_vector_db S w text (_enhance_business_entity S pe0)
         else w) /\
    (pe0 = _process_llm_classification S text md \/
     exists vm,
       _find_vector_match cfg S w text md = Some vm /\
       SimilarityMatcher.is_confident_match cfg vm = true /\
       pe0 = _process_confident_match S email_input text md vm).
Proof.
  intros text md. unfold process_email. cbv zeta.
  fold (anonymized_text_of cfg S email_input). fold text.
  fold (metadata_of cfg S email_input). fold md.
  eexists. split; [reflexivity|]. split; [reflexivity|].
  destruct (_find_vector_match cfg S w text md) as [vm|]; [|now left].
  destruct (SimilarityMatcher.is_confident_match cfg vm) eqn:E; [|now left].
  right. exists vm. auto.
Qed.

Lemma llm_classification_facts S text md :
  in_unit_interval
    (confidence_score (_process_llm_classification S text md)) = true /\
  data (_process_llm_classification S text md) = _extract_user_data S text /\
  metadata (_process_llm_classification S text md) = Some md.
Proof.
  unfold _process_llm_classification. simpl.
  split; [apply classify_email_range|].
  split; [reflexivity | apply classify_email_metadata].
Qed.

Lemma confident_match_facts S email_input text md vm :
  in_unit_interval
    (confidence_score (_process_confident_match S email_input text md vm))
    = true /\
  data (_process_confident_match S email_input text md vm)
    = _extract_user_data S text /\
  metadata (_process_confident_match S email_input text md vm) = Some md.
Proof.
  unfold _process_confident_match.
  destruct (new_ProcessedEmail _ _ _ _ _) as [pe|] eqn:E.
  - destruct (new_ProcessedEmail_inv _ _ _ _ _ _ E) as (-> & H). now simpl.
  - apply llm_classification_facts.
Qed.


End PipelineProps.
Module Scenarios.
Import Models VectorStore Config EmailProcessor ClassificationChain.
Import Notions Fixtures.

(** Two low-confidence classifications in a row leave the index as it was. *)
Example low_confidence_twice_index_unchanged :
  let run1 := process_email settings offline_services empty_world shopify_email in
  let run2 := process_email settings offline_services (snd run1) shopify_email in
  confidence_score (fst run1) = 0.3%float /\
  email_category (fst run1) = MARKETING /\
  name (business_entity (fst run1)) = "Shopify" /\
  snd run1 = empty_world /\ snd run2 = empty_world /\ fst run2 = fst run1.
Proof. repeat split. Qed.

(** A confident classification is written back once. *)
Example confident_result_written_back :
  let run := process_email settings online_services empty_world shopify_email in
  confidence_score (fst run) = 0.95%float /\
  List.length (collection (snd run)) = 1 /\
  List.length (store_calls (snd run)) = 1.
Proof. repeat split. Qed.

(** A result exactly at the threshold is not written back. *)
Example threshold_result_not_written_back :
  fgt 0.85%float (confidence_threshold settings) = false /\
  fgt 0.3%float (confidence_threshold settings) = false /\
  fgt 0.95%float (confidence_threshold settings) = true.
Proof. repeat split. Qed.

(** The email pattern on a few strings. *)
Example email_pattern_accepts :
  DPOExtraction._is_valid_email "dpo@acme.com" = true /\
  DPOExtraction._is_valid_email "data.protection+eu@mail.acme-corp.co.uk" = true.
Proof. split; reflexivity. Qed.

Example email_pattern_rejects :
  DPOExtraction._is_valid_email "dpo@acme" = false /\
  DPOExtraction._is_valid_email "dpo@acme.c" = false /\
  DPOExtraction._is_valid_email "@acme.com" = false /\
  DPOExtraction._is_valid_email "dpo@@acme.com" = false /\
  DPOExtraction._is_valid_email "dpo acme.com" = false /\
  DPOExtraction._is_valid_email "none" = false /\
  DPOExtraction._is_valid_email "" = false.
Proof. repeat split. Qed.

(** The DPO chain on a few replies. *)
Example dpo_reply_with_blanks :
  DPOExtraction.extract_dpo_email (fun _ => Ret "  dpo@acme.com ")
    "Contact our Data Protection Officer." = Ret (Some "dpo@acme.com").
Proof. reflexivity. Qed.

Example dpo_reply_none :
  DPOExtraction.extract_dpo_email (fun _ => Ret "NONE")
    "Contact our Data Protection Officer." = Ret None.
Proof. reflexivity. Qed.

Example dpo_reply_not_an_email :
  DPOExtraction.extract_dpo_email (fun _ => Ret "privacy at acme dot com")
    "Contact our Data Protection Officer." = Ret None.
Proof. reflexivity. Qed.

Example dpo_provider_down :
  DPOExtraction.extract_dpo_email (fun _ => Raise (ProviderError "timeout"))
    "Contact our Data Protection Officer." = Ret None.
Proof. reflexivity. Qed.

Example dpo_truncation_of_long_policy :
  String.length (DPOExtraction.truncate_policy (policy_of_length 9000)) = 8003 /\
  DPOExtraction.truncate_policy (policy_of_length 8000) = policy_of_length 8000.
Proof. split; vm_compute; reflexivity. Qed.

End Scenarios.

(** ** Further properties of the confidence matcher *)

Module MatcherExtras.
Import Models VectorStore Config SimilarityMatcher Notions Fixtures.
Import MatcherProps ChainProps MoreNotions.

Lemma two_last_labels {A} : forall l : list A,
  2 <= List.length l -> exists pre a b, l = (pre ++ [a; b])%list.
Proof.
  induction l as [|x l IH]; simpl; [lia|].
  intros H. destruct l as [|y l]; [simpl in H; lia|].
  destruct l as [|z l].
  - now exists [], x, y.
  - destruct IH as (pre & a & b & E); [simpl; lia|].
    exists (x :: pre), a, b. now rewrite E.
Qed.

Lemma last_n_two {A} (pre : list A) a b :
  PyStr.last_n 2 (pre ++ [a; b])%list = [a; b].
Proof.
  unfold PyStr.last_n. rewrite length_app. simpl.
  replace (List.length pre + 2 - 2) with (List.length pre + 0) by lia.
  rewrite skipn_app, Nat.add_0_r, skipn_all.
  replace (List.length pre - List.length pre) with 0 by lia.
  reflexivity.
Qed.

Lemma forallb_free_app sep (l1 l2 : list string) :
  forallb (free_of sep) (l1 ++ l2)%list
  = forallb (free_of sep) l1 && forallb (free_of sep) l2.
Proof. apply forallb_app. Qed.

(** The root of a dotted name with at least two labels is its last two
    labels. *)
Lemma root_of_labels pre a b :
  forallb (free_of ".") (pre ++ [a; b])%list = true ->
  _extract_root_domain (PyStr.join "." (pre ++ [a; b])%list)
  = PyStr.join "." [a; b].
Proof.
  intros Hfree. unfold _extract_root_domain.
  rewrite split_join; [|now destruct pre|exact Hfree].
  rewrite length_app. cbn [List.length].
  replace (2 <=? List.length pre + 2) with true
    by (symmetry; apply Nat.leb_le; lia).
  now rewrite last_n_two.
Qed.

(** X1. Taking the root domain is idempotent: the root of a root is that
    root, for every domain string. *)
Theorem extract_root_domain_idempotent : forall domain,
  _extract_root_domain (_extract_root_domain domain)
  = _extract_root_domain domain.
Proof.
  intros domain.
  destruct (split_acc_join "." domain EmptyString eq_refl)
    as (_ & Hfree & Hjoin).
  fold (PyStr.split "." domain) in Hfree, Hjoin. simpl in Hjoin.
  destruct (Nat.leb_spec 2 (List.length (PyStr.split "." domain))) as [H|H].
  - destruct (two_last_labels _ H) as (pre & a & b & E).
    rewrite E in Hfree, Hjoin. rewrite <- Hjoin.
    rewrite (root_of_labels _ _ _ Hfree).
    apply (root_of_labels [] a b).
    rewrite forallb_free_app in Hfree.
    now apply andb_true_iff in Hfree as (_ & Hab).
  - unfold _extract_root_domain at 2.
    replace (2 <=? List.length (PyStr.split "." domain)) with false
      by (symmetry; apply Nat.leb_gt; lia).
    unfold _extract_root_domain.
    now replace (2 <=? List.length (PyStr.split "." domain)) with false
      by (symmetry; apply Nat.leb_gt; lia).
Qed.

(** X2. Two domains whose last two labels coincide are similar, whatever
    labels precede them: every subdomain is similar to its parent, and so
    are two unrelated names under one two-label suffix. *)
Theorem same_last_two_labels_similar : forall pre1 pre2 a b,
  forallb (free_of ".") (pre1 ++ [a; b])%list = true ->
  forallb (free_of ".") (pre2 ++ [a; b])%list = true ->
  _are_domains_similar (PyStr.join "." (pre1 ++ [a; b])%list)
                       (PyStr.join "." (pre2 ++ [a; b])%list) = true.
Proof.
  intros pre1 pre2 a b H1 H2. unfold _are_domains_similar.
  rewrite (root_of_labels _ _ _ H1), (root_of_labels _ _ _ H2).
  now rewrite String.eqb_refl.
Qed.

Lemma same_last_two_labels_similar_witness :
  _are_domains_similar "shop.example.co.uk" "bank.co.uk" = true.
Proof.
  exact (same_last_two_labels_similar ["shop"; "example"] ["bank"]
           "co" "uk" eq_refl eq_refl).
Defined.

(** X3. The domain weight does not depend on which of two domain strings
    is the query's and which the candidate's. *)
Theorem domain_weight_symmetric : forall cfg d1 d2,
  _calculate_domain_weight cfg d1 (MStr d2)
  = _calculate_domain_weight cfg d2 (MStr d1).
Proof.
  intros cfg d1 d2. unfold _calculate_domain_weight. simpl.
  rewrite !negb_involutive.
  rewrite (orb_comm (PyStr.is_empty d1)).
  destruct (PyStr.is_empty d2 || PyStr.is_empty d1); [reflexivity|].
  rewrite (String.eqb_sym (normalize d1)).
  destruct (String.eqb (normalize d2) (normalize d1)); [reflexivity|].
  assert (S : _are_domains_similar (normalize d1) (normalize d2)
              = _are_domains_similar (normalize d2) (normalize d1)).
  { unfold _are_domains_similar.
    rewrite (String.eqb_sym (_extract_root_domain (normalize d1))).
    rewrite (orb_comm (PyStr.endswith (normalize d1) _)).
    now rewrite prefixes_sym. }
  now rewrite S.
Qed.

(** *** Stored metadata read back *)

(** The metadata [add_email_embedding] stores for a result. *)
Lemma stored_metadata_inv vs coll text md cat be conf doc_id coll' :
  add_email_embedding vs coll text md cat be conf = Ret (doc_id, coll') ->
  exists entry,
    coll' = (coll ++ [entry])%list /\
    entry_id entry = doc_id /\
    entry_metadata entry = Some
      [ ("sender_domain", MStr (sender_domain md));
        ("email_category", MStr (category_value cat));
        ("business_name", MStr (name be));
        ("business_website", option_str (website be));
        ("business_industry", option_str (industry be));
        ("business_location", option_str (location be));
        ("dpo_email", option_str (dpo_email be));
        ("confidence_score", MFloat conf);
        ("urls_count", MInt (Z.of_nat (List.length (urls md))));
        ("has_footer", MBool (match footer_text md with
                              | Some f => negb (PyStr.is_empty f)
                              | None => false end)) ].
Proof.
  unfold add_email_embedding.
  destruct (embed_query vs _) as [emb|]; simpl; [|discriminate].
  destruct (chroma_accepts vs _); [|discriminate].
  intros [= <- <-]. eexists. split; [reflexivity|]. split; reflexivity.
Qed.

Lemma as_opt_str_option_str o : as_opt_str (option_str o) = Ret o.
Proof. now destruct o. Qed.

Lemma validate_opt_inv validate o v :
  validate_opt validate o = Some v ->
  (o = None /\ v = None) \/
  (exists s t, o = Some s /\ validate s = Some t /\ v = Some t).
Proof.
  destruct o as [s|]; simpl.
  - destruct (validate s) as [t|] eqn:E; [|discriminate].
    intros [= <-]. right. now exists s, t.
  - intros [= <-]. now left.
Qed.

(** The entity read from the metadata stored for [be]. *)
Lemma read_back_entity V m be :
  dict_get m "business_name" (MStr "Unknown") = MStr (name be) ->
  dict_get m "business_website" MNone = option_str (website be) ->
  dict_get m "dpo_email" MNone = option_str (dpo_email be) ->
  dict_get m "business_industry" MNone = option_str (industry be) ->
  dict_get m "business_location" MNone = option_str (location be) ->
  forall vm, vm_metadata vm = m ->
    extract_business_entity_from_match V vm =
    match validate_opt (http_url V) (website be),
          validate_opt (email_str V) (dpo_email be) with
    | Some w, Some d =>
        {| name := name be; website := w; dpo_email := d;
           industry := industry be; location := location be |}
    | _, _ => unknown_entity
    end.
Proof.
  intros Hn Hw Hd Hi Hl vm Hvm. unfold extract_business_entity_from_match.
  rewrite Hvm, Hn, Hw, Hd, Hi, Hl. cbn [as_str bind].
  rewrite !as_opt_str_option_str. cbn [bind]. unfold new_BusinessEntity.
  destruct (validate_opt (http_url V) (website be)) as [w|]; [|reflexivity].
  destruct (validate_opt (email_str V) (dpo_email be)) as [d|]; reflexivity.
Qed.

(** X4. What [add_email_embedding] stores is read back by the matcher:
    for a match carrying the metadata of the stored document,
    [get_email_category_from_match] gives the stored category, the scored
    domain is the stored sender domain, and
    [extract_business_entity_from_match] gives the stored business entity
    with its website and DPO email validated once more: the stored entity
    itself when validation returns the stored website and DPO email as
    they are, and the default entity, stored name included, when
    validation rejects one of them. *)
Theorem stored_classification_read_back :
  forall V vs coll text md cat be conf doc_id coll',
    add_email_embedding vs coll text md cat be conf = Ret (doc_id, coll') ->
    exists entry m,
      coll' = (coll ++ [entry])%list /\
      entry_metadata entry = Some m /\
      forall vm, vm_metadata vm = m ->
        get_email_category_from_match vm = cat /\
        dict_get (vm_metadata vm) "sender_domain" (MStr "")
          = MStr (sender_domain md) /\
        (forall w d,
           validate_opt (http_url V) (website be) = Some w ->
           validate_opt (email_str V) (dpo_email be) = Some d ->
           extract_business_entity_from_match V vm =
           {| name := name be; website := w; dpo_email := d;
              industry := industry be; location := location be |}) /\
        (validate_opt (http_url V) (website be) = Some (website be) ->
         validate_opt (email_str V) (dpo_email be) = Some (dpo_email be) ->
         extract_business_entity_from_match V vm = be) /\
        (validate_opt (http_url V) (website be) = None \/
         validate_opt (email_str V) (dpo_email be) = None ->
         extract_business_entity_from_match V vm = unknown_entity).
Proof.
  intros V vs coll text md cat be conf doc_id coll' H.
  destruct (stored_metadata_inv _ _ _ _ _ _ _ _ _ H) as (entry & -> & _ & Hm).
  eexists entry, _. split; [reflexivity|]. split; [exact Hm|].
  intros vm Hvm.
  pose proof (fun H1 H2 H3 H4 H5 =>
                read_back_entity V _ be H1 H2 H3 H4 H5 vm Hvm) as Hread.
  specialize (Hread eq_refl eq_refl eq_refl eq_refl eq_refl).
  split; [|split; [|split; [|split]]].
  - unfold get_email_category_from_match. rewrite Hvm. simpl.
    now destruct cat.
  - now rewrite Hvm.
  - intros w d Hw Hd. now rewrite Hread, Hw, Hd.
  - intros Hw Hd. rewrite Hread, Hw, Hd. now destruct be.
  - intros [Hbad | Hbad]; rewrite Hread, Hbad; [reflexivity|].
    now destruct (validate_opt (http_url V) (website be)).
Qed.

Lemma stored_classification_read_back_witness :
  exists entry m,
    add_email_embedding (fixed_distance_store 0.1%float) [] "Summer sale"
      shopify_md MARKETING shopify_entity 0.95%float
      = Ret (acme_doc_id, [entry]) /\
    entry_metadata entry = Some m /\
    get_email_category_from_match
      {| similarity_score := 1%float; domain_weight := 1%float;
         vm_confidence_score := 1%float; vm_metadata := m |} = MARKETING /\
    extract_business_entity_from_match scheme_validators
      {| similarity_score := 1%float; domain_weight := 1%float;
         vm_confidence_score := 1%float; vm_metadata := m |}
      = shopify_entity.
Proof.
  destruct (stored_classification_read_back scheme_validators
              (fixed_distance_store 0.1%float) [] "Summer sale" shopify_md
              MARKETING shopify_entity 0.95%float acme_doc_id _ eq_refl)
    as (entry & m & E & Hm & Hread).
  exists entry, m. split; [cbn [app] in E; now rewrite <- E|].
  split; [exact Hm|].
  destruct (Hread {| similarity_score := 1%float; domain_weight := 1%float;
              vm_confidence_score := 1%float; vm_metadata := m |} eq_refl)
    as (Hcat & _ & _ & Hsame & _).
  split; [exact Hcat | exact (Hsame eq_refl eq_refl)].
Defined.

Lemma dict_get_missing : forall (d : MetaDict) key default,
  has_key d key = false -> dict_get d key default = default.
Proof.
  induction d as [|[k v] d IH]; intros key default; simpl; [reflexivity|].
  destruct (String.eqb k key); simpl; [discriminate | apply IH].
Qed.

(** The name of the entity read from a match. *)
Lemma read_back_name V vm :
  name (extract_business_entity_from_match V vm) = "Unknown" \/
  dict_get (vm_metadata vm) "business_name" (MStr "Unknown")
    = MStr (name (extract_business_entity_from_match V vm)).
Proof.
  unfold extract_business_entity_from_match.
  destruct (dict_get (vm_metadata vm) "business_name" _) as [|n| | |];
    try (now left). cbn [as_str bind].
  destruct (as_opt_str (dict_get (vm_metadata vm) "business_website" MNone));
    [|now left]. cbn [bind].
  destruct (as_opt_str (dict_get (vm_metadata vm) "dpo_email" MNone));
    [|now left]. cbn [bind].
  destruct (as_opt_str (dict_get (vm_metadata vm) "business_industry" MNone));
    [|now left]. cbn [bind].
  destruct (as_opt_str (dict_get (vm_metadata vm) "business_location" MNone));
    [|now left]. cbn [bind].
  unfold new_BusinessEntity.
  destruct (validate_opt _ _); [|now left].
  destruct (validate_opt _ _); [now right | now left].
Qed.

(** X5. Stored metadata that cannot be read degrades to defaults: a missing
    or unknown category string, or one that is not a string, reads as
    personal; a missing business name reads as "Unknown", whatever else
    the metadata holds; and a business name that is not a string, or a
    stored website or DPO email rejected by the model's validation, makes
    the whole entity the default one, the stored name included. *)
Theorem malformed_stored_metadata_defaults : forall V vm,
  (forall s, dict_get (vm_metadata vm) "email_category" (MStr "personal")
               = MStr s ->
     s <> "marketing" -> s <> "transactional" -> s <> "survey" ->
     s <> "customer_support" ->
     get_email_category_from_match vm = PERSONAL) /\
  ((forall s, dict_get (vm_metadata vm) "email_category" (MStr "personal")
               <> MStr s) ->
     get_email_category_from_match vm = PERSONAL) /\
  (has_key (vm_metadata vm) "email_category" = false ->
     get_email_category_from_match vm = PERSONAL) /\
  (has_key (vm_metadata vm) "business_name" = false ->
     name (extract_business_entity_from_match V vm) = "Unknown") /\
  (vm_metadata vm = [] ->
     get_email_category_from_match vm = PERSONAL /\
     extract_business_entity_from_match V vm = unknown_entity) /\
  ((forall s, dict_get (vm_metadata vm) "business_name" (MStr "Unknown")
               <> MStr s) ->
     extract_business_entity_from_match V vm = unknown_entity) /\
  (forall u, dict_get (vm_metadata vm) "business_website" MNone = MStr u ->
     http_url V u = None ->
     extract_business_entity_from_match V vm = unknown_entity) /\
  (forall a, dict_get (vm_metadata vm) "dpo_email" MNone = MStr a ->
     email_str V a = None ->
     extract_business_entity_from_match V vm = unknown_entity).
Proof.
  intros V vm. split; [|split; [|split; [|split; [|split; [|split; [|split]]]]]].
  - intros s Hs H1 H2 H3 H4. unfold get_email_category_from_match.
    rewrite Hs. apply String.eqb_neq in H1, H2, H3, H4.
    rewrite H1, H2, H3, H4. now destruct (String.eqb s "personal").
  - intros H. unfold get_email_category_from_match.
    destruct (dict_get _ _ _) as [|s| | |] eqn:E; try reflexivity.
    now destruct (H s).
  - intros H. unfold get_email_category_from_match.
    now rewrite (dict_get_missing _ _ _ H).
  - intros H. destruct (read_back_name V vm) as [Hn | Hn]; [exact Hn|].
    rewrite (dict_get_missing _ _ _ H) in Hn. congruence.
  - intros E. unfold get_email_category_from_match,
      extract_business_entity_from_match. rewrite E. simpl.
    split; reflexivity.
  - intros H. unfold extract_business_entity_from_match.
    destruct (dict_get (vm_metadata vm) "business_name" _) as [|s| | |] eqn:E;
      try reflexivity.
    now destruct (H s).
  - intros u Hu Hbad. unfold extract_business_entity_from_match.
    destruct (as_str _) as [n|]; [|reflexivity]. simpl.
    rewrite Hu. simpl.
    destruct (as_opt_str (dict_get (vm_metadata vm) "dpo_email" MNone));
      [|reflexivity]. simpl.
    destruct (as_opt_str (dict_get (vm_metadata vm) "business_industry" MNone));
      [|reflexivity]. simpl.
    destruct (as_opt_str (dict_get (vm_metadata vm) "business_location" MNone));
      [|reflexivity]. simpl.
    unfold new_BusinessEntity. simpl. now rewrite Hbad.
  - intros a Ha Hbad. unfold extract_business_entity_from_match.
    destruct (as_str _) as [n|]; [|reflexivity]. simpl.
    destruct (as_opt_str (dict_get (vm_metadata vm) "business_website" MNone))
      as [w|]; [|reflexivity]. simpl.
    rewrite Ha. simpl.
    destruct (as_opt_str (dict_get (vm_metadata vm) "business_industry" MNone));
      [|reflexivity]. simpl.
    destruct (as_opt_str (dict_get (vm_metadata vm) "business_location" MNone));
      [|reflexivity]. simpl.
    unfold new_BusinessEntity. simpl. rewrite Hbad.
    now destruct (validate_opt (http_url V) w).
Qed.

(** *** Search results *)

Lemma index_inv {A} (xs : list A) i x :
  index xs i = Ret x -> nth_error xs i = Some x.
Proof. unfold index. destruct (nth_error xs i); congruence. Qed.

Lemma build_matches_aligned r : forall ids i matches,
  build_matches r ids i = Ret matches ->
  map cand_id matches = ids /\
  (forall k c, nth_error matches k = Some c ->
     nth_error (res_documents r) (i + k) = Some (cand_document c) /\
     nth_error (res_metadatas r) (i + k) = Some (cand_metadata c) /\
     nth_error (res_distances r) (i + k) = Some (cand_distance c)) /\
  (ids <> [] ->
     i + List.length ids <= List.length (res_documents r) /\
     i + List.length ids <= List.length (res_metadatas r) /\
     i + List.length ids <= List.length (res_distances r)).
Proof.
  induction ids as [|doc_id ids IH]; intros i matches; simpl.
  - intros [= <-]. split; [reflexivity|]. split; [|congruence].
    intros [|k] c; discriminate.
  - destruct (index (res_documents r) i) as [doc|] eqn:E1; simpl;
      [|discriminate].
    destruct (index (res_metadatas r) i) as [md|] eqn:E2; simpl;
      [|discriminate].
    destruct (index (res_distances r) i) as [d|] eqn:E3; simpl;
      [|discriminate].
    destruct (build_matches r ids (S i)) as [ms|] eqn:E; simpl;
      [|discriminate].
    intros [= <-]. destruct (IH _ _ E) as (Hids & Hpos & Hlen).
    apply index_inv in E1, E2, E3.
    split; [simpl; now rewrite Hids|]. split.
    + intros [|k] c; simpl.
      * intros [= <-]. rewrite Nat.add_0_r. simpl. auto.
      * intros Hk. replace (i + S k) with (S i + k) by lia. now apply Hpos.
    + intros _.
      assert (L1 : i < List.length (res_documents r))
        by (apply nth_error_Some; congruence).
      assert (L2 : i < List.length (res_metadatas r))
        by (apply nth_error_Some; congruence).
      assert (L3 : i < List.length (res_distances r))
        by (apply nth_error_Some; congruence).
      destruct ids as [|x ids]; [simpl; lia|].
      destruct Hlen as (H1 & H2 & H3); [discriminate|].
      cbn [List.length] in *. lia.
Qed.

(** With columns as long as the list of ids, the loop runs to its end. *)
Lemma build_matches_total r : forall ids i,
  i + List.length ids <= List.length (res_documents r) ->
  i + List.length ids <= List.length (res_metadatas r) ->
  i + List.length ids <= List.length (res_distances r) ->
  exists matches, build_matches r ids i = Ret matches.
Proof.
  induction ids as [|doc_id ids IH]; intros i H1 H2 H3; simpl.
  - now exists [].
  - simpl in H1, H2, H3. unfold index.
    destruct (nth_error (res_documents r) i) as [doc|] eqn:E1;
      [|apply nth_error_None in E1; lia].
    destruct (nth_error (res_metadatas r) i) as [md|] eqn:E2;
      [|apply nth_error_None in E2; lia].
    destruct (nth_error (res_distances r) i) as [d|] eqn:E3;
      [|apply nth_error_None in E3; lia].
    cbn [bind].
    destruct (IH (S i)) as (ms & ->); try lia.
    cbn [bind]. eexists. reflexivity.
Qed.

(** X6. [search_similar_emails] absorbs every failure into an empty list:
    when the embedding or the index query raises, and when the index
    answers with a column shorter than its list of ids.  Otherwise, that
    is when the embedding and the query return and no column is shorter
    than the list of ids, its candidates are the index's hits in the
    index's order: as many as there are ids, with the same ids, each with
    the document, metadata and distance found at its position and the
    similarity 1 minus that distance. *)
Theorem search_results_aligned :
  forall vs coll content qmd n,
    (forall e,
       embed_query vs (create_embedding_text vs content qmd) = Raise e ->
       search_similar_emails vs coll content qmd n = []) /\
    (forall emb,
       embed_query vs (create_embedding_text vs content qmd) = Ret emb ->
       (forall e, chroma_query vs coll emb n = Raise e ->
          search_similar_emails vs coll content qmd n = []) /\
       (forall r, chroma_query vs coll emb n = Ret r ->
          (List.length (res_documents r) < List.length (res_ids r) \/
           List.length (res_metadatas r) < List.length (res_ids r) \/
           List.length (res_distances r) < List.length (res_ids r) ->
           search_similar_emails vs coll content qmd n = []) /\
          (List.length (res_ids r) <= List.length (res_documents r) ->
           List.length (res_ids r) <= List.length (res_metadatas r) ->
           List.length (res_ids r) <= List.length (res_distances r) ->
           List.length (search_similar_emails vs coll content qmd n)
             = List.length (res_ids r) /\
           map cand_id (search_similar_emails vs coll content qmd n)
             = res_ids r /\
           forall k c,
             nth_error (search_similar_emails vs coll content qmd n) k
               = Some c ->
             nth_error (res_ids r) k = Some (cand_id c) /\
             nth_error (res_documents r) k = Some (cand_document c) /\
             nth_error (res_metadatas r) k = Some (cand_metadata c) /\
             nth_error (res_distances r) k = Some (cand_distance c) /\
             cand_similarity c = PrimFloat.sub 1%float (cand_distance c)))).
Proof.
  intros vs coll content qmd n. unfold search_similar_emails. cbv zeta.
  split; [intros e E; now rewrite E|].
  intros emb E. rewrite E. simpl. split; [intros e Eq; now rewrite Eq|].
  intros r Eq. rewrite Eq. cbn [bind]. split.
  - destruct (build_matches r (res_ids r) 0) as [ms|] eqn:Eb; [|reflexivity].
    destruct (build_matches_aligned _ _ _ _ Eb) as (Hids & Hpos & Hlen).
    intros Hshort.
    assert (Hemp : res_ids r = [] \/ res_ids r <> [])
      by (destruct (res_ids r); [left | right]; congruence).
    destruct Hemp as [Hemp | Hne].
    + rewrite Hemp in Hshort. simpl in Hshort. lia.
    + destruct (Hlen Hne) as (H1 & H2 & H3). simpl in *. lia.
  - intros L1 L2 L3.
    destruct (build_matches_total r (res_ids r) 0 L1 L2 L3) as (ms & Eb).
    rewrite Eb.
    destruct (build_matches_aligned _ _ _ _ Eb) as (Hids & Hpos & _).
    split; [rewrite <- Hids; now rewrite length_map|].
    split; [exact Hids|].
    intros k c Hk. destruct (Hpos k c Hk) as (H1 & H2 & H3).
    split; [rewrite <- Hids, nth_error_map, Hk; reflexivity|].
    split; [exact H1|]. split; [exact H2|]. split; [exact H3|].
    apply (build_matches_similarity _ _ _ _ Eb).
    now apply nth_error_In with k.
Qed.

End MatcherExtras.

(** ** Further properties of the orchestrator *)

Module PipelineExtras.
Import Models VectorStore Config EmailProcessor ClassificationChain.
Import Notions Fixtures MoreNotions PipelineProps.

(** X7. Whatever the collaborators do, the result of [process_email] has a
    confidence score inside [0, 1], carries the metadata extracted for this
    message and the time stamp, and its user data is the one extracted from
    this message's anonymized text: neither a stored match nor the
    provider's reply contributes user data. *)
Theorem pipeline_result_invariants : forall cfg S w email_input,
  in_unit_interval
    (confidence_score (fst (process_email cfg S w email_input))) = true /\
  data (fst (process_email cfg S w email_input))
    = _extract_user_data S (anonymized_text_of cfg S email_input) /\
  metadata (fst (process_email cfg S w email_input))
    = Some (metadata_of cfg S email_input) /\
  processed_at (fst (process_email cfg S w email_input)) = Some (utc_now S).
Proof.
  intros cfg S w email_input.
  destruct (classified_cases cfg S w email_input) as (pe0 & -> & _ & Hpe0).
  destruct (enhance_preserves S pe0) as (_ & Hd & Hc & Hm & _).
  cbn [with_processed_at confidence_score data metadata processed_at].
  rewrite Hd, Hc, Hm.
  destruct Hpe0 as [-> | (vm & _ & _ & ->)].
  - destruct (llm_classification_facts S
                (anonymized_text_of cfg S email_input)
                (metadata_of cfg S email_input)) as (H1 & H2 & H3).
    now rewrite H1, H2, H3.
  - destruct (confident_match_facts S email_input
                (anonymized_text_of cfg S email_input)
                (metadata_of cfg S email_input) vm) as (H1 & H2 & H3).
    now rewrite H1, H2, H3.
Qed.

Lemma confident_match_valid S email_input text md vm :
  in_unit_interval (vm_confidence_score vm) = true ->
  _process_confident_match S email_input text md vm =
  {| email_category := SimilarityMatcher.get_email_category_from_match vm;
     business_entity :=
       SimilarityMatcher.extract_business_entity_from_match (validators S) vm;
     data := _extract_user_data S text;
     confidence_score := vm_confidence_score vm;
     metadata := Some md;
     processed_at := None |}.
Proof.
  intros H. unfold _process_confident_match, new_ProcessedEmail.
  unfold in_unit_interval in H. now rewrite H.
Qed.

Lemma process_email_confident cfg S w email_input vm :
  _find_vector_match cfg S w (anonymized_text_of cfg S email_input)
    (metadata_of cfg S email_input) = Some vm ->
  SimilarityMatcher.is_confident_match cfg vm = true ->
  in_unit_interval (vm_confidence_score vm) = true ->
  process_email cfg S w email_input =
  let text := anonymized_text_of cfg S email_input in
  let pe := _enhance_business_entity S
              (_process_confident_match S email_input text
                 (metadata_of cfg S email_input) vm) in
  (with_processed_at pe (utc_now S),
   if fgt (confidence_score pe) (confidence_threshold cfg)
   then _store_in_vector_db S w text pe else w).
Proof.
  intros Hfind Hconf Hunit. unfold process_email. cbv zeta.
  fold (anonymized_text_of cfg S email_input).
  fold (metadata_of cfg S email_input).
  now rewrite Hfind, Hconf.
Qed.

(** X8. When the matcher returns a confident match whose confidence lies in
    [0, 1], the classification provider plays no part: with any other
    provider the pipeline returns the same result and leaves the same
    state, and the result has the category read from the match, the
    match's confidence and the business name read from the match. *)
Theorem confident_match_bypasses_provider :
  forall cfg S w email_input vm provider,
    _find_vector_match cfg S w (anonymized_text_of cfg S email_input)
      (metadata_of cfg S email_input) = Some vm ->
    SimilarityMatcher.is_confident_match cfg vm = true ->
    in_unit_interval (vm_confidence_score vm) = true ->
    process_email cfg (with_llm S provider) w email_input
      = process_email cfg S w email_input /\
    email_category (fst (process_email cfg S w email_input))
      = SimilarityMatcher.get_email_category_from_match vm /\
    confidence_score (fst (process_email cfg S w email_input))
      = vm_confidence_score vm /\
    name (business_entity (fst (process_email cfg S w email_input)))
      = name (SimilarityMatcher.extract_business_entity_from_match
                (validators S) vm).
Proof.
  intros cfg S w email_input vm provider Hfind Hconf Hunit.
  split.
  - rewrite (process_email_confident cfg S w email_input vm Hfind Hconf Hunit).
    rewrite (process_email_confident cfg (with_llm S provider) w email_input
               vm Hfind Hconf Hunit).
    cbv zeta.
    rewrite !(confident_match_valid _ _ _ _ _ Hunit). reflexivity.
  - rewrite (process_email_confident cfg S w email_input vm Hfind Hconf Hunit).
    cbv zeta. cbn [fst with_processed_at email_category confidence_score
                   business_entity].
    destruct (enhance_preserves S
                (_process_confident_match S email_input
                   (anonymized_text_of cfg S email_input)
                   (metadata_of cfg S email_input) vm))
      as (Hcat & _ & Hc & _ & _ & Hn & _).
    rewrite Hcat, Hc, Hn.
    now rewrite (confident_match_valid _ _ _ _ _ Hunit).
Qed.

Lemma confident_match_bypasses_provider_witness :
  process_email settings
    (with_llm near_services
       (fun _ => Raise (ProviderError "quota exceeded")))
    shopify_world shopify_email
  = process_email settings near_services shopify_world shopify_email /\
  email_category
    (fst (process_email settings near_services shopify_world shopify_email))
  = MARKETING.
Proof.
  destruct (confident_match_bypasses_provider settings near_services
              shopify_world shopify_email shopify_match
              (fun _ => Raise (ProviderError "quota exceeded"))
              eq_refl eq_refl eq_refl) as (H1 & H2 & _).
  split; [exact H1 | exact H2].
Defined.

Lemma not_above_lower a b thr :
  PrimFloat.ltb a b = true -> fgt b thr = false -> fgt a thr = false.
Proof.
  unfold fgt. intros Hab Hb.
  destruct (PrimFloat.ltb thr a) eqn:E; [|reflexivity].
  now rewrite (FloatFacts.ltb_trans _ _ _ E Hab) in Hb.
Qed.

(** X9. A heuristic result is never written back when the threshold is not
    below 0.3: if no confident match is found and the provider invocation
    fails, the result has confidence 0.3 or 0.1 and the index and the list
    of write-backs are left as they were. *)
Theorem heuristic_result_not_written_back :
  forall cfg S w email_input e,
    (forall vm,
       _find_vector_match cfg S w (anonymized_text_of cfg S email_input)
         (metadata_of cfg S email_input) = Some vm ->
       SimilarityMatcher.is_confident_match cfg vm = false) ->
    llm S (build_input_data (anonymized_text_of cfg S email_input)
                            (metadata_of cfg S email_input)) = Raise e ->
    fgt 0.3%float (confidence_threshold cfg) = false ->
    snd (process_email cfg S w email_input) = w /\
    (confidence_score (fst (process_email cfg S w email_input)) = 0.3%float \/
     confidence_score (fst (process_email cfg S w email_input)) = 0.1%float).
Proof.
  intros cfg S w email_input e Hno Hfail Hthr.
  destruct (classified_cases cfg S w email_input) as (pe0 & -> & -> & Hpe0).
  destruct (enhance_preserves S pe0) as (_ & _ & Hc & _).
  cbn [with_processed_at confidence_score]. rewrite Hc.
  assert (E : pe0 = _process_llm_classification S
                      (anonymized_text_of cfg S email_input)
                      (metadata_of cfg S email_input)).
  { destruct Hpe0 as [-> | (vm & Hf & Hconf & _)]; [reflexivity|].
    rewrite (Hno vm Hf) in Hconf. discriminate. }
  assert (Hconf : confidence_score pe0 = 0.3%float \/
                  confidence_score pe0 = 0.1%float).
  { rewrite E. unfold _process_llm_classification, classify_email.
    cbv zeta. rewrite Hfail. simpl. apply fallback_confidence. }
  split; [|exact Hconf].
  destruct Hconf as [-> | ->]; [now rewrite Hthr|].
  now rewrite (not_above_lower 0.1%float 0.3%float _ eq_refl Hthr).
Qed.

Lemma heuristic_result_not_written_back_witness :
  snd (process_email settings offline_services empty_world shopify_email)
  = empty_world.
Proof.
  refine (proj1 (heuristic_result_not_written_back settings offline_services
            empty_world shopify_email (ProviderError "connection refused")
            _ eq_refl eq_refl)).
  intros vm H. discriminate H.
Defined.

(** X10. The enhancement stage can only fill in a missing DPO email: the
    category, user data, confidence, metadata, business name, website,
    industry and location are kept; a result that already has a DPO email,
    or has no website, or whose scrape fails, is returned unchanged; and
    when the DPO email does change, the entity had a website and no DPO
    email, and the scraper reported success with that, non-empty, email. *)
Theorem enhancement_only_backfills_dpo : forall S pe,
  (email_category (_enhance_business_entity S pe) = email_category pe /\
   data (_enhance_business_entity S pe) = data pe /\
   confidence_score (_enhance_business_entity S pe) = confidence_score pe /\
   metadata (_enhance_business_entity S pe) = metadata pe /\
   processed_at (_enhance_business_entity S pe) = processed_at pe /\
   name (business_entity (_enhance_business_entity S pe))
     = name (business_entity pe) /\
   website (business_entity (_enhance_business_entity S pe))
     = website (business_entity pe) /\
   industry (business_entity (_enhance_business_entity S pe))
     = industry (business_entity pe) /\
   location (business_entity (_enhance_business_entity S pe))
     = location (business_entity pe)) /\
  (truthy_opt (dpo_email (business_entity pe)) = true ->
   _enhance_business_entity S pe = pe) /\
  (website (business_entity pe) = None ->
   _enhance_business_entity S pe = pe) /\
  (forall site e,
     website (business_entity pe) = Some site ->
     scraper_run S site = Raise e ->
     _enhance_business_entity S pe = pe) /\
  (dpo_email (business_entity (_enhance_business_entity S pe))
     <> dpo_email (business_entity pe) ->
   exists site r dpo,
     website (business_entity pe) = Some site /\
     truthy_opt (dpo_email (business_entity pe)) = false /\
     scraper_run S site = Ret r /\
     scrape_success r = true /\
     scrape_dpo_email r = Some dpo /\
     dpo <> EmptyString /\
     dpo_email (business_entity (_enhance_business_entity S pe)) = Some dpo).
Proof.
  intros S pe. split; [apply enhance_preserves|].
  unfold _enhance_business_entity.
  split; [|split; [|split]].
  - intros H. rewrite H. simpl. now destruct (website (business_entity pe)).
  - now intros ->.
  - intros site e -> ->.
    now destruct (negb (truthy_opt (dpo_email (business_entity pe)))).
  - destruct (website (business_entity pe)) as [site|]; [|congruence].
    destruct (truthy_opt (dpo_email (business_entity pe))) eqn:Et;
      simpl; [congruence|].
    destruct (scraper_run S site) as [r|] eqn:Er; [|congruence].
    destruct (scrape_dpo_email r) as [dpo|] eqn:Ed; [|congruence].
    destruct (scrape_success r) eqn:Es; simpl; [|congruence].
    destruct (PyStr.is_empty dpo) eqn:Ee; simpl; [congruence|].
    intros _. exists site, r, dpo.
    apply MatcherProps.is_empty_false in Ee. auto 10.
Qed.

Lemma truncated_length n s :
  String.length
    (if n <? String.length s
     then String.append (PyStr.take n s) "..." else s) <= n + 3.
Proof.
  destruct (Nat.ltb_spec n (String.length s)) as [H|H]; [|lia].
  rewrite DPOProps.append_length, DPOProps.take_length. simpl. lia.
Qed.

(** X11. The text produced by the first stage has at most
    [max_email_length + 3] characters whenever HTML stripping does not
    raise, in particular for every message without an HTML body, where it
    is the plain-text body cut to [max_email_length] characters and marked
    with "...".  When stripping raises, the plain-text body is returned
    whole, whatever its length. *)
Theorem stripped_text_bounded : forall cfg S email_input,
  (forall h e,
     html_content email_input = Some h -> h <> EmptyString ->
     strip_html S h = Raise e ->
     _strip_html_content cfg S email_input
       = or_empty (text_content email_input)) /\
  (forall h clean,
     html_content email_input = Some h -> h <> EmptyString ->
     strip_html S h = Ret clean ->
     String.length (_strip_html_content cfg S email_input)
       <= max_email_length cfg + 3 /\
     (String.length clean <= max_email_length cfg ->
      _strip_html_content cfg S email_input = clean)) /\
  (html_content email_input = None \/
   html_content email_input = Some EmptyString ->
   String.length (_strip_html_content cfg S email_input)
     <= max_email_length cfg + 3 /\
   _strip_html_content cfg S email_input =
     (if max_email_length cfg <? String.length (or_empty (text_content email_input))
      then String.append
             (PyStr.take (max_email_length cfg)
                         (or_empty (text_content email_input))) "..."
      else or_empty (text_content email_input))).
Proof.
  intros cfg S email_input. unfold _strip_html_content.
  split; [|split].
  - intros h e -> Hh ->. apply MatcherProps.is_empty_false in Hh.
    now rewrite Hh.
  - intros h clean -> Hh ->. apply MatcherProps.is_empty_false in Hh.
    rewrite Hh. simpl. split.
    + pose proof (truncated_length (max_email_length cfg) clean) as B.
      now destruct (max_email_length cfg <? String.length clean).
    + intros L. apply Nat.ltb_ge in L. now rewrite L.
  - intros [-> | ->]; simpl.
    + pose proof (truncated_length (max_email_length cfg)
                    (or_empty (text_content email_input))) as B.
      now destruct (max_email_length cfg <? _).
    + pose proof (truncated_length (max_email_length cfg)
                    (or_empty (text_content email_input))) as B.
      now destruct (max_email_length cfg <? _).
Qed.

End PipelineExtras.

(** ** Further properties of the DPO chain and of the metadata helpers *)

Module DPOExtras.
Import Regex RegexSem DPOExtraction DPOProps.

Lemma append_nil_inv a b :
  String.append a b = EmptyString -> a = EmptyString /\ b = EmptyString.
Proof. destruct a; simpl; [auto | discriminate]. Qed.

Lemma nullable_sound : forall r, nullable r = true -> matches r EmptyString.
Proof.
  induction r; simpl; try discriminate; intros H.
  - constructor.
  - apply andb_true_iff in H as (H1 & H2).
    exact (MSeq _ _ EmptyString EmptyString (IHr1 H1) (IHr2 H2)).
  - apply orb_true_iff in H as [H | H];
      [apply MAltL | apply MAltR]; auto.
  - constructor.
Qed.

Lemma nullable_complete r s :
  matches r s -> s = EmptyString -> nullable r = true.
Proof.
  induction 1; intros E; simpl; try reflexivity; try discriminate.
  - apply append_nil_inv in E as (-> & ->).
    now rewrite IHmatches1, IHmatches2.
  - now rewrite IHmatches.
  - rewrite IHmatches; [apply orb_true_r | assumption].
Qed.

Lemma deriv_sound c : forall r s,
  matches (deriv c r) s -> matches r (String c s).
Proof.
  induction r; simpl; intros s H.
  - inversion H.
  - inversion H.
  - destruct (p c) eqn:E; inversion H; subst. now constructor.
  - destruct (nullable r1) eqn:N.
    + inversion H as [| | | ? ? ? H' | ? ? ? H' | |]; subst.
      * inversion H' as [| | ? ? s1 s2 H1 H2 | | | |]; subst.
        exact (MSeq _ _ (String c s1) s2 (IHr1 _ H1) H2).
      * exact (MSeq _ _ EmptyString (String c s)
                 (nullable_sound _ N) (IHr2 _ H')).
    + inversion H as [| | ? ? s1 s2 H1 H2 | | | |]; subst.
      exact (MSeq _ _ (String c s1) s2 (IHr1 _ H1) H2).
  - inversion H; subst; [apply MAltL | apply MAltR]; auto.
  - inversion H as [| | ? ? s1 s2 H1 H2 | | | |]; subst.
    exact (MStarS _ (String c s1) s2 (IHr _ H1) H2).
Qed.

Lemma deriv_complete c r s' :
  matches r s' -> forall s, s' = String c s -> matches (deriv c r) s.
Proof.
  induction 1; intros w E; simpl; try discriminate.
  - injection E as -> <-. rewrite H. constructor.
  - destruct s1 as [|c1 s1]; simpl in E.
    + rewrite (nullable_complete _ _ H eq_refl). apply MAltR. auto.
    + injection E as -> <-.
      pose proof (MSeq _ _ _ _ (IHmatches1 _ eq_refl) H0) as M.
      destruct (nullable r1); [now apply MAltL | exact M].
  - apply MAltL. auto.
  - apply MAltR. auto.
  - destruct s1 as [|c1 s1]; simpl in E.
    + now apply IHmatches2.
    + injection E as -> <-.
      exact (MSeq _ _ _ _ (IHmatches1 _ eq_refl) H0).
Qed.

(** The derivative matcher decides membership in the language. *)
Lemma fullmatch_spec : forall s r, fullmatch r s = true <-> matches r s.
Proof.
  induction s as [|c s IH]; intros r; simpl.
  - split; [apply nullable_sound | intros H; now apply (nullable_complete r EmptyString)].
  - rewrite IH. split; [apply deriv_sound|].
    intros H. now apply (deriv_complete c r (String c s)).
Qed.

Lemma class_inv p s :
  matches (Class p) s -> exists c, s = String c EmptyString /\ p c = true.
Proof. intros H. inversion H; subst. eauto. Qed.

Lemma star_class_all p r s :
  matches r s -> r = Star (Class p) -> all_chars p s = true.
Proof.
  induction 1; intros E; try discriminate; [reflexivity|].
  injection E as ->. apply class_inv in H as (c & -> & Hc). simpl.
  now rewrite Hc, IHmatches2.
Qed.

Lemma all_star_class p : forall s,
  all_chars p s = true -> matches (Star (Class p)) s.
Proof.
  induction s as [|c s IH]; simpl; intros H; [constructor|].
  apply andb_true_iff in H as (Hc & Hs).
  exact (MStarS _ (String c EmptyString) s (MClass p c Hc) (IH Hs)).
Qed.

Lemma plus_class_iff p s :
  matches (Plus (Class p)) s <-> s <> EmptyString /\ all_chars p s = true.
Proof.
  unfold Plus. split.
  - intros H. inversion H as [| | ? ? s1 s2 H1 H2 | | | |]; subst.
    apply class_inv in H1 as (c & -> & Hc). simpl. split; [discriminate|].
    now rewrite Hc, (star_class_all p _ _ H2 eq_refl).
  - intros (Hne & Hall). destruct s as [|c s]; [congruence|].
    simpl in Hall. apply andb_true_iff in Hall as (Hc & Hs).
    exact (MSeq _ _ (String c EmptyString) s (MClass p c Hc)
             (all_star_class p s Hs)).
Qed.

Lemma atleast2_class_iff p s :
  matches (AtLeast2 (Class p)) s <->
  2 <= String.length s /\ all_chars p s = true.
Proof.
  unfold AtLeast2. split.
  - intros H. inversion H as [| | ? ? s1 s2 H1 H2 | | | |]; subst.
    apply class_inv in H1 as (c & -> & Hc).
    inversion H2 as [| | ? ? s3 s4 H3 H4 | | | |]; subst.
    apply class_inv in H3 as (c' & -> & Hc'). simpl. split; [lia|].
    now rewrite Hc, Hc', (star_class_all p _ _ H4 eq_refl).
  - intros (Hlen & Hall).
    destruct s as [|c [|c' s]]; simpl in Hlen; try lia.
    simpl in Hall. apply andb_true_iff in Hall as (Hc & Hall).
    apply andb_true_iff in Hall as (Hc' & Hs).
    exact (MSeq _ _ (String c EmptyString) (String c' s) (MClass p c Hc)
             (MSeq _ _ (String c' EmptyString) s (MClass p c' Hc')
                (all_star_class p s Hs))).
Qed.

Lemma lit_iff c s : matches (Lit c) s <-> s = String c EmptyString.
Proof.
  unfold Lit. split.
  - intros H. apply class_inv in H as (c' & -> & Hc).
    now apply Ascii.eqb_eq in Hc as ->.
  - intros ->. constructor. apply Ascii.eqb_refl.
Qed.

(** The words of the email pattern. *)
Lemma email_pattern_spec e :
  fullmatch email_pattern e = true <-> email_shape e.
Proof.
  rewrite fullmatch_spec. unfold email_pattern, email_shape. split.
  - intros H.
    inversion H as [| | ? ? l s1 Hl H1 | | | |]; subst.
    inversion H1 as [| | ? ? a s2 Ha H2 | | | |]; subst.
    inversion H2 as [| | ? ? d s3 Hd H3 | | | |]; subst.
    inversion H3 as [| | ? ? dot t Hdot Ht | | | |]; subst.
    apply lit_iff in Ha, Hdot. subst.
    apply plus_class_iff in Hl as (Hl1 & Hl2), Hd as (Hd1 & Hd2).
    apply atleast2_class_iff in Ht as (Ht1 & Ht2).
    exists l, d, t. simpl. auto 10.
  - intros (l & d & t & -> & Hl1 & Hl2 & Hd1 & Hd2 & Ht1 & Ht2).
    apply (MSeq _ _ l); [now apply plus_class_iff|].
    apply (MSeq _ _ (String "@" EmptyString)); [now apply lit_iff|].
    apply (MSeq _ _ d); [now apply plus_class_iff|].
    apply (MSeq _ _ (String "." EmptyString)); [now apply lit_iff|].
    now apply atleast2_class_iff.
Qed.

(** A right-stripped string does not end in a line feed. *)
Lemma chomp_rstrip : forall s, chomp (PyStr.rstrip s) = None.
Proof.
  induction s as [|c s IH]; [reflexivity|].
  rewrite rstrip_cons.
  destruct (PyStr.rstrip s) as [|d x] eqn:E.
  - destruct (PyStr.is_space c) eqn:Ec; [reflexivity|].
    simpl. destruct (Ascii.eqb c "010") eqn:En; [|reflexivity].
    apply Ascii.eqb_eq in En. subst c. discriminate.
  - change (chomp (String c (String d x)))
      with (match chomp (String d x) with
            | Some rest' => Some (String c rest')
            | None => None
            end).
    now rewrite IH.
Qed.

Lemma re_match_stripped r s :
  re_match r (PyStr.strip s) = fullmatch r (PyStr.strip s).
Proof.
  unfold re_match, PyStr.strip. rewrite chomp_rstrip. apply orb_false_r.
Qed.

Lemma strip_empty_inv s : s = EmptyString -> PyStr.strip s = EmptyString.
Proof. now intros ->. Qed.

Lemma no_at_in_none x y :
  PyStr.lower (String.append x (String "@" y)) <> "none".
Proof.
  destruct x as [|a [|b [|c [|d [|e x]]]]]; simpl; intros H;
    injection H; intros; try discriminate.
Qed.

(** [_is_valid_email] is the email shape of the stripped string. *)
Lemma valid_email_iff_shape email :
  _is_valid_email email = true <-> email_shape (PyStr.strip email).
Proof.
  unfold _is_valid_email.
  rewrite re_match_stripped. split.
  - destruct (PyStr.is_empty email || String.eqb (PyStr.lower email) "none");
      [discriminate|].
    apply email_pattern_spec.
  - intros Hs.
    destruct (PyStr.is_empty email) eqn:Ee.
    + apply MatcherProps.is_empty_spec in Ee. subst email.
      destruct Hs as (l & d & t & E & _). destruct l; discriminate.
    + destruct (String.eqb (PyStr.lower email) "none") eqn:En.
      * apply String.eqb_eq in En.
        rewrite (strip_of_none _ En) in Hs.
        destruct Hs as (l & d & t & -> & _).
        now apply no_at_in_none in En.
      * simpl. now apply email_pattern_spec.
Qed.

(** What the chain returns is the stripped reply, and it is valid. *)
Lemma chain_result_inv ainvoke content e :
  extract_dpo_email ainvoke content = Ret (Some e) ->
  _is_valid_email e = true /\
  exists reply,
    ainvoke (truncate_policy content) = Ret reply /\ e = PyStr.strip reply.
Proof.
  unfold extract_dpo_email. cbv zeta.
  destruct (ainvoke (truncate_policy content)) as [reply|]; simpl;
    [|discriminate].
  destruct (_is_valid_email (PyStr.strip reply)) eqn:E; [|discriminate].
  intros [= <-]. split; [exact E | now exists reply].
Qed.

(** X12. [_is_valid_email] accepts exactly the strings whose
    whitespace-stripped form is [local@domain.tld]: a non-empty local part
    over letters, digits and [._%+-], a non-empty domain part over letters,
    digits, dots and hyphens, and a top-level part of at least two letters.
    Hence every address the DPO chain returns has that form, and is the
    stripped reply of the provider. *)
Theorem valid_email_shape :
  (forall email,
     _is_valid_email email = true <-> email_shape (PyStr.strip email)) /\
  (forall ainvoke content e,
     extract_dpo_email ainvoke content = Ret (Some e) ->
     email_shape e /\
     exists reply,
       ainvoke (truncate_policy content) = Ret reply /\
       e = PyStr.strip reply).
Proof.
  split; [exact valid_email_iff_shape|].
  intros ainvoke content e H.
  apply chain_result_inv in H as (V & reply & Hr & ->).
  split; [|now exists reply].
  apply valid_email_iff_shape in V. now rewrite strip_idem in V.
Qed.

Lemma take_app_exact : forall n a b,
  String.length a = n -> PyStr.take n (String.append a b) = a.
Proof.
  induction n as [|n IH]; intros a b H.
  - destruct a; [reflexivity | discriminate].
  - destruct a as [|c a]; [discriminate|]. simpl in *.
    rewrite IH; [reflexivity | lia].
Qed.

(** X13. The text handed to the provider never exceeds 8003 characters,
    and truncating twice is truncating once: a caller that truncates the
    policy itself before calling the chain, as the privacy-policy scraper
    does, gets the result it would get with the whole policy. *)
Theorem truncate_policy_bounded_idempotent : forall ainvoke content,
  String.length (truncate_policy content) <= 8003 /\
  truncate_policy (truncate_policy content) = truncate_policy content /\
  extract_dpo_email ainvoke (truncate_policy content)
    = extract_dpo_email ainvoke content.
Proof.
  intros ainvoke content.
  assert (Hidem : truncate_policy (truncate_policy content)
                  = truncate_policy content).
  { unfold truncate_policy.
    destruct (8000 <? String.length content) eqn:E; [|now rewrite E].
    apply Nat.ltb_lt in E.
    rewrite append_length, take_length.
    change (String.length "...") with 3.
    replace (8000 <? Nat.min 8000 (String.length content) + 3) with true
      by (symmetry; apply Nat.ltb_lt; lia).
    rewrite take_app_exact; [reflexivity|].
    rewrite take_length. lia. }
  split; [|split; [exact Hidem|]].
  - unfold truncate_policy.
    destruct (Nat.ltb_spec 8000 (String.length content)) as [H|H];
      [|change 8003 with (8000 + 3); lia].
    rewrite append_length, take_length.
    change (String.length "...") with 3.
    change 8003 with (8000 + 3). lia.
  - unfold extract_dpo_email. cbv zeta. now rewrite Hidem.
Qed.

End DPOExtras.

(** ** The sender domain *)

Module MetadataExtras.
Import Models EmailProcessor Notions ChainProps.

Lemma to_lower_idem c : PyStr.to_lower (PyStr.to_lower c) = PyStr.to_lower c.
Proof. destruct c as [[] [] [] [] [] [] [] []]; reflexivity. Qed.

Lemma lower_idem : forall s, PyStr.lower (PyStr.lower s) = PyStr.lower s.
Proof.
  induction s as [|c s IH]; simpl; [reflexivity|].
  now rewrite to_lower_idem, IH.
Qed.

(** X14. [extract_sender_domain] gives "unknown" for an address without
    "@"; for [local@domain] it gives the lower-cased domain; when the
    address has further "@" signs it gives the lower-cased part between
    the first and the second; and its result is always in lower case. *)
Theorem sender_domain_of_address :
  (forall addr,
     free_of "@" addr = true -> extract_sender_domain addr = "unknown") /\
  (forall local domain,
     free_of "@" local = true -> free_of "@" domain = true ->
     extract_sender_domain (String.append local (String "@" domain))
       = PyStr.lower domain) /\
  (forall local mid rest,
     free_of "@" local = true -> free_of "@" mid = true ->
     extract_sender_domain
       (String.append local (String "@" (String.append mid (String "@" rest))))
       = PyStr.lower mid) /\
  (forall addr,
     PyStr.lower (extract_sender_domain addr) = extract_sender_domain addr).
Proof.
  unfold extract_sender_domain, PyStr.split.
  split; [|split; [|split]].
  - intros addr H. now rewrite (split_acc_label _ _ _ H).
  - intros local domain Hl Hd.
    rewrite (split_acc_label_sep _ _ _ _ Hl), (split_acc_label _ _ _ Hd).
    reflexivity.
  - intros local mid rest Hl Hm.
    rewrite (split_acc_label_sep _ _ _ _ Hl), (split_acc_label_sep _ _ _ _ Hm).
    reflexivity.
  - intros addr.
    destruct (nth_error _ 1) as [d|]; [apply lower_idem | reflexivity].
Qed.

Example sender_domain_examples :
  extract_sender_domain "Marketing@Shopify.COM" = "shopify.com" /\
  extract_sender_domain "no-at-sign" = "unknown" /\
  extract_sender_domain "a@b@c" = "b".
Proof. repeat split. Qed.

End MetadataExtras.

(** ** Provider initialization *)

Module ProviderProps.
Import Providers ProviderNotions.

Lemma provider_cases provider :
  provider = "openai" \/ provider = "gemini" \/ provider = "ollama" \/
  (String.eqb provider "openai" = false /\
   String.eqb provider "gemini" = false /\
   String.eqb provider "ollama" = false /\
   String.eqb "openai" provider = false /\
   String.eqb "gemini" provider = false /\
   String.eqb "ollama" provider = false).
Proof.
  destruct (String.eqb_spec provider "openai") as [->|H1]; [now left|].
  destruct (String.eqb_spec provider "gemini") as [->|H2]; [now right; left|].
  destruct (String.eqb_spec provider "ollama") as [->|H3];
    [now right; right; left|].
  right. right. right.
  repeat split; try reflexivity; apply String.eqb_neq; congruence.
Qed.

(** Case analysis on every flag and constructor outcome in the goal. *)
Ltac split_flags env :=
  repeat match goal with
  | |- context [EmbeddingsInit.build] => unfold EmbeddingsInit.build; cbn
  | |- context [key_set (openai_api_key env)] =>
      destruct (key_set (openai_api_key env)); cbn
  | |- context [key_set (gemini_api_key env)] =>
      destruct (key_set (gemini_api_key env)); cbn
  | |- context [GEMINI_AVAILABLE env] => destruct (GEMINI_AVAILABLE env); cbn
  | |- context [OLLAMA_AVAILABLE env] => destruct (OLLAMA_AVAILABLE env); cbn
  | |- context [constructs env ?k ?n] => destruct (constructs env k n); cbn
  end;
  try reflexivity.

(** X15. [_initialize_embeddings] always ends with an embeddings object:
    that of the first usable provider, trying the configured provider
    first and then openai, gemini, ollama, where usable means that the
    provider's import and credentials are present and its constructor
    returns; the 1536-dimensional mock is installed exactly when no
    provider is usable. *)
Theorem embeddings_first_usable : forall env,
  EmbeddingsInit._initialize_embeddings env =
    match find (embeddings_usable env)
               (attempt_order (PyStr.lower (llm_provider env))) with
    | Some k =>
        EmbeddingsInit.ProviderEmbeddings k (EmbeddingsInit.embedding_model k)
    | None => EmbeddingsInit.FakeEmbeddings 1536
    end.
Proof.
  intros env.
  unfold EmbeddingsInit._initialize_embeddings, EmbeddingsInit.try_primary,
    EmbeddingsInit._create_mock_embeddings, attempt_order, embeddings_usable,
    EmbeddingsInit.build.
  cbv zeta.
  destruct (provider_cases (PyStr.lower (llm_provider env)))
    as [-> | [-> | [-> | (E1 & E2 & E3 & E4 & E5 & E6)]]].
  - cbn. split_flags env.
  - cbn. split_flags env.
  - cbn. split_flags env.
  - rewrite E1, E2, E3.
    cbn [andb EmbeddingsInit.try_fallbacks kind_name].
    rewrite E4, E5, E6. cbn. split_flags env.
Qed.

(** *** The model manager *)

Import ModelManager.

Lemma lookup_assign_same : forall ms key m,
  lookup (assign ms key m) key = Some m.
Proof.
  induction ms as [|[k m'] ms IH]; intros key m; simpl.
  - now rewrite String.eqb_refl.
  - destruct (String.eqb k key) eqn:E; simpl; rewrite E; [reflexivity|].
    apply IH.
Qed.

Lemma lookup_assign_other : forall ms key key' m,
  String.eqb key key' = false ->
  lookup (assign ms key m) key' = lookup ms key'.
Proof.
  induction ms as [|[k m'] ms IH]; intros key key' m H; simpl.
  - now rewrite H.
  - destruct (String.eqb k key) eqn:E; simpl.
    + apply String.eqb_eq in E. subst k. now rewrite H.
    + destruct (String.eqb k key'); [reflexivity | now apply IH].
Qed.

Lemma initializer_usable env k ms :
  chat_usable env k = true ->
  exists ms',
    initializer env k ms = (Ret tt, ms') /\
    lookup ms' "primary" = Some (ChatModel k (primary_model env k)).
Proof.
  destruct k; simpl; intros H;
    repeat (apply andb_true_iff in H as (H & ?)).
  - unfold _initialize_openai_models, seq, register.
    rewrite H. simpl. rewrite H0, H1, H2.
    eexists. split; [reflexivity|].
    rewrite !lookup_assign_other by reflexivity. apply lookup_assign_same.
  - unfold _initialize_gemini_models, seq, register.
    rewrite H, H2. simpl. rewrite H0, H1.
    eexists. split; [reflexivity|].
    rewrite !lookup_assign_other by reflexivity. apply lookup_assign_same.
  - unfold _initialize_ollama_models, seq, register.
    rewrite H, H0, H1.
    eexists. split; [reflexivity|].
    rewrite !lookup_assign_other by reflexivity. apply lookup_assign_same.
Qed.

Lemma initializer_unusable env k ms :
  chat_usable env k = false ->
  exists e ms', initializer env k ms = (Raise e, ms').
Proof.
  destruct k; simpl.
  - unfold _initialize_openai_models, seq, register.
    destruct (key_set (openai_api_key env)); simpl; [|eauto].
    destruct (constructs env OPENAI (openai_model env)); simpl; [|eauto].
    destruct (constructs env OPENAI "gpt-3.5-turbo"); simpl; [|eauto].
    destruct (constructs env OPENAI "gpt-4"); simpl; [discriminate | eauto].
  - unfold _initialize_gemini_models, seq, register.
    destruct (GEMINI_AVAILABLE env); simpl; [|eauto].
    destruct (key_set (gemini_api_key env)); simpl; [|eauto].
    destruct (constructs env GEMINI (gemini_model env)); simpl; [|eauto].
    destruct (constructs env GEMINI "gemini-pro"); simpl;
      [discriminate | eauto].
  - unfold _initialize_ollama_models, seq, register.
    destruct (constructs env OLLAMA (ollama_model env)); simpl; [|eauto].
    destruct (constructs env OLLAMA "llama2"); simpl; [|eauto].
    destruct (constructs env OLLAMA "mistral"); simpl;
      [discriminate | eauto].
Qed.

Lemma chat_usable_key env k :
  chat_usable env k = true ->
  match k with
  | OPENAI => key_set (openai_api_key env) = true
  | GEMINI => key_set (gemini_api_key env) = true
  | OLLAMA => True
  end.
Proof.
  destruct k; simpl; intros H; [| |exact I];
    repeat (apply andb_true_iff in H as (H & ?)); assumption.
Qed.

Lemma fallbacks_first_usable env : forall l ms,
  lookup (try_fallbacks env (map kind_name l) ms) "primary"
  = Some (first_usable_model env l).
Proof.
  induction l as [|k l IH]; intros ms.
  - apply lookup_assign_same.
  - unfold first_usable_model. cbn [map find try_fallbacks].
    destruct (chat_usable env k) eqn:U.
    + pose proof (chat_usable_key env k U) as K.
      destruct (initializer_usable env k ms U) as (ms' & E & L).
      destruct k; cbn in *; rewrite ?K; cbn; rewrite E; exact L.
    + destruct (initializer_unusable env k ms U) as (e & ms' & E).
      fold (first_usable_model env l).
      destruct k; cbn in *.
      * destruct (key_set (openai_api_key env)); cbn; [rewrite E|]; apply IH.
      * destruct (key_set (gemini_api_key env)); cbn; [rewrite E|]; apply IH.
      * rewrite E. apply IH.
Qed.

(** X16. After [_initialize_models] the dictionary always has a "primary"
    model, so [get_model] never raises and answers an unregistered name
    with the primary model.  The primary model is that of the first
    provider whose initializer runs to its end, trying the configured
    provider first and then openai, gemini, ollama; it is the mock model
    exactly when no initializer does.  A provider whose initializer fails
    half-way never supplies the primary model. *)
Theorem primary_model_first_usable : forall env ms0,
  let ms := _initialize_models env ms0 in
  let primary :=
    first_usable_model env (attempt_order (PyStr.lower (llm_provider env))) in
  lookup ms "primary" = Some primary /\
  (forall name, exists m, get_model ms name = Ret m) /\
  (forall name, lookup ms name = None -> get_model ms name = Ret primary) /\
  (forall name m, lookup ms name = Some m -> get_model ms name = Ret m) /\
  (primary = FakeListLLM <->
   chat_usable env OPENAI = false /\ chat_usable env GEMINI = false /\
   chat_usable env OLLAMA = false).
Proof.
  intros env ms0 ms primary.
  assert (P : lookup ms "primary" = Some primary).
  { subst ms primary. unfold _initialize_models, attempt_order. cbv zeta.
    destruct (provider_cases (PyStr.lower (llm_provider env)))
      as [-> | [-> | [-> | (E1 & E2 & E3 & E4 & E5 & E6)]]].
    - cbn [String.eqb Ascii.eqb Bool.eqb remove_first].
      unfold first_usable_model. cbn [find].
      destruct (chat_usable env OPENAI) eqn:U.
      + destruct (initializer_usable env OPENAI ms0 U) as (ms' & E & L).
        cbn in E. now rewrite E.
      + destruct (initializer_unusable env OPENAI ms0 U) as (e & ms' & E).
        cbn in E. rewrite E.
        exact (fallbacks_first_usable env [GEMINI; OLLAMA] ms').
    - cbn [String.eqb Ascii.eqb Bool.eqb remove_first].
      unfold first_usable_model. cbn [find].
      destruct (chat_usable env GEMINI) eqn:U.
      + destruct (initializer_usable env GEMINI ms0 U) as (ms' & E & L).
        cbn in E. now rewrite E.
      + destruct (initializer_unusable env GEMINI ms0 U) as (e & ms' & E).
        cbn in E. rewrite E.
        exact (fallbacks_first_usable env [OPENAI; OLLAMA] ms').
    - cbn [String.eqb Ascii.eqb Bool.eqb remove_first].
      unfold first_usable_model. cbn [find].
      destruct (chat_usable env OLLAMA) eqn:U.
      + destruct (initializer_usable env OLLAMA ms0 U) as (ms' & E & L).
        cbn in E. now rewrite E.
      + destruct (initializer_unusable env OLLAMA ms0 U) as (e & ms' & E).
        cbn in E. rewrite E.
        exact (fallbacks_first_usable env [OPENAI; GEMINI] ms').
    - rewrite E1, E2, E3. cbn [remove_first]. rewrite E4, E5, E6.
      exact (fallbacks_first_usable env [OPENAI; GEMINI; OLLAMA] ms0). }
  split; [exact P|].
  split; [|split; [|split]].
  - intros name. unfold get_model.
    destruct (lookup ms name) as [m|] eqn:E.
    + rewrite E. eauto.
    + rewrite P. eauto.
  - intros name E. unfold get_model. now rewrite E, P.
  - intros name m E. unfold get_model. now rewrite E, E.
  - subst primary. unfold first_usable_model, attempt_order.
    destruct (String.eqb (PyStr.lower (llm_provider env)) "gemini");
      [|destruct (String.eqb (PyStr.lower (llm_provider env)) "ollama")];
      cbn [find];
      destruct (chat_usable env OPENAI), (chat_usable env GEMINI),
               (chat_usable env OLLAMA);
      split; try discriminate; try (intros (? & ? & ?); discriminate);
      auto.
Qed.

(** A provider that fails half-way leaves its secondary models behind,
    under a primary model of another provider. *)
Example half_initialized_provider_leaves_models :
  _initialize_models half_openai_env [] =
    [ ("primary", ChatModel OLLAMA "llama3");
      ("gpt-3.5-turbo", ChatModel OPENAI "gpt-3.5-turbo");
      ("llama2", ChatModel OLLAMA "llama2");
      ("mistral", ChatModel OLLAMA "mistral") ].
Proof. reflexivity. Qed.

End ProviderProps.

(* ------------------------------------------------------------------ *)
(** ** The privacy-policy scraper *)

Module ScraperProps.
Import Models EmailProcessor RegexSem PyDict PrivacyScraper.
Import CollaboratorNotions.

Lemma existsb_eqb_in x seen :
  existsb (String.eqb x) seen = true <-> In x seen.
Proof.
  rewrite existsb_exists. split.
  - intros (y & Hy & E). apply String.eqb_eq in E. now subst y.
  - intros H. exists x. split; [exact H | apply String.eqb_refl].
Qed.

Lemma fromkeys_from_in : forall l seen x,
  In x (fromkeys_from seen l) <-> In x l /\ ~ In x seen.
Proof.
  induction l as [|y l IH]; intros seen x; simpl.
  - tauto.
  - destruct (existsb (String.eqb y) seen) eqn:E.
    + apply existsb_eqb_in in E. rewrite IH. split.
      * intros [H1 H2]. auto.
      * intros [[-> | H1] H2]; [contradiction | auto].
    + assert (Hy : ~ In y seen).
      { intros H. apply existsb_eqb_in in H. congruence. }
      simpl. rewrite IH. simpl. split.
      * intros [-> | [H1 H2]]; [auto|]. split; [auto|]. intros H. apply H2. auto.
      * intros [[-> | H1] H2]; [auto|].
        destruct (string_dec y x) as [-> | Hne]; [auto|].
        right. split; [exact H1|]. intros [H | H]; [contradiction | auto].
Qed.

Lemma fromkeys_from_nodup : forall l seen, NoDup (fromkeys_from seen l).
Proof.
  induction l as [|y l IH]; intros seen; simpl; [constructor|].
  destruct (existsb (String.eqb y) seen); [apply IH|].
  constructor; [|apply IH].
  rewrite fromkeys_from_in. intros [_ H]. apply H. now left.
Qed.

Lemma fromkeys_in l x : In x (fromkeys l) <-> In x l.
Proof. unfold fromkeys. rewrite fromkeys_from_in. simpl. tauto. Qed.

Lemma fromkeys_nodup l : NoDup (fromkeys l).
Proof. apply fromkeys_from_nodup. Qed.

Lemma fromkeys_head x l : hd_error (fromkeys (x :: l)) = Some x.
Proof. reflexivity. Qed.

Lemma scraper_valid_is_chain_valid email :
  PrivacyScraper._is_valid_email email = DPOExtraction._is_valid_email email.
Proof. reflexivity. Qed.

Lemma first_valid_inv : forall found m,
  first_valid found = Some m ->
  In m found /\ DPOExtraction._is_valid_email m = true.
Proof.
  induction found as [|x found IH]; intros m; simpl; [discriminate|].
  destruct (PrivacyScraper._is_valid_email x) eqn:E.
  - intros [= <-]. split; [now left | exact E].
  - intros H. apply IH in H as [H1 H2]. auto.
Qed.

Lemma regex_loop_inv env content : forall n i m,
  regex_loop env content i n = Some m ->
  (exists j, i <= j < i + n /\ In m (findall env j content)) /\
  DPOExtraction._is_valid_email m = true.
Proof.
  induction n as [|n IH]; intros i m; simpl; [discriminate|].
  destruct (first_valid (findall env i content)) as [x|] eqn:E.
  - intros [= <-]. apply first_valid_inv in E as [H1 H2].
    split; [exists i; split; [lia | exact H1] | exact H2].
  - intros H. apply IH in H as [(j & Hj & Hin) H2].
    split; [exists j; split; [lia | exact Hin] | exact H2].
Qed.

(** Whatever [_extract_dpo_email] returns passed [_is_valid_email], in
    the chain or in the pattern search. *)
Lemma extract_dpo_email_valid env content dpo :
  _extract_dpo_email env content = Some dpo ->
  DPOExtraction._is_valid_email dpo = true.
Proof.
  unfold _extract_dpo_email. cbv zeta.
  set (c := if 8000 <? String.length content
            then String.append (PyStr.take 8000 content) "..."
            else content).
  unfold _regex_extract_dpo_email.
  destruct (DPOExtraction.extract_dpo_email (ainvoke env) c)
    as [[e|]|] eqn:E.
  - destruct (PyStr.is_empty e).
    + intros H. now apply regex_loop_inv in H.
    + intros [= <-]. now apply DPOExtras.chain_result_inv in E.
  - intros H. now apply regex_loop_inv in H.
  - intros H. now apply regex_loop_inv in H.
Qed.

Lemma scrape_one_inv env url r :
  scrape_one env url = Ret (Some r) ->
  exists text dpo reported policy_url,
    scrape_page_content env url = Ret (Some text) /\
    text <> EmptyString /\
    _extract_dpo_email env text = Some dpo /\
    DPOExtraction._is_valid_email dpo = true /\
    email_str (PrivacyScraper.validators env) dpo = Some reported /\
    http_url (PrivacyScraper.validators env) url = Some policy_url /\
    r = {| result_dpo_email := Some reported;
           privacy_policy_url := Some policy_url;
           success := true; error_message := None |}.
Proof.
  unfold scrape_one.
  destruct (scrape_page_content env url) as [[text|]|]; simpl;
    try discriminate.
  destruct (PyStr.is_empty text) eqn:Et; [discriminate|].
  destruct (_extract_dpo_email env text) as [dpo|] eqn:Ed; [|discriminate].
  destruct (negb (PyStr.is_empty dpo)
            && negb (String.eqb (PyStr.lower dpo) "none"));
    [|discriminate].
  unfold new_success.
  destruct (email_str (PrivacyScraper.validators env) dpo)
    as [reported|] eqn:E1; [|discriminate].
  destruct (http_url (PrivacyScraper.validators env) url)
    as [policy_url|] eqn:E2; [|discriminate].
  simpl. intros [= <-]. exists text, dpo, reported, policy_url.
  repeat split; auto.
  - intros ->. discriminate.
  - now apply extract_dpo_email_valid in Ed.
Qed.

Lemma scrape_loop_cases env : forall urls,
  (scrape_loop env urls = failure "No DPO email found in privacy policies" /\
   Forall (fun u => forall r, scrape_one env u <> Ret (Some r)) urls) \/
  (exists url,
     first_hit env urls url /\
     scrape_one env url = Ret (Some (scrape_loop env urls))).
Proof.
  intros urls. induction urls as [|u rest IH].
  { left. split; [reflexivity | constructor]. }
  assert (Hskip : (forall r, scrape_one env u <> Ret (Some r)) ->
    scrape_loop env (u :: rest) = scrape_loop env rest ->
    (scrape_loop env (u :: rest)
       = failure "No DPO email found in privacy policies" /\
     Forall (fun u => forall r, scrape_one env u <> Ret (Some r)) (u :: rest))
    \/
    (exists url,
       first_hit env (u :: rest) url /\
       scrape_one env url = Ret (Some (scrape_loop env (u :: rest))))).
  { intros Hu ->.
    destruct IH as [[E F] | (url & (before & after & -> & Hb) & E)].
    - left. split; [exact E | now constructor].
    - right. exists url. split; [|exact E].
      exists (u :: before), after. split; [reflexivity | now constructor]. }
  destruct (scrape_one env u) as [[r|]|] eqn:E.
  - right. exists u. split; [|simpl; now rewrite E].
    exists [], rest. split; [reflexivity | constructor].
  - apply Hskip; [intros r; discriminate | simpl; now rewrite E].
  - apply Hskip; [intros r; discriminate | simpl; now rewrite E].
Qed.

(** What a run of the loop over the candidates ends with. *)
Lemma scrape_loop_result env urls :
  (scrape_loop env urls = failure "No DPO email found in privacy policies" /\
   Forall (fun u => forall r', scrape_one env u <> Ret (Some r')) urls) \/
  (exists url text dpo reported policy_url,
     first_hit env urls url /\
     scrape_page_content env url = Ret (Some text) /\
     text <> EmptyString /\
     _extract_dpo_email env text = Some dpo /\
     DPOExtraction._is_valid_email dpo = true /\
     email_str (PrivacyScraper.validators env) dpo = Some reported /\
     http_url (PrivacyScraper.validators env) url = Some policy_url /\
     scrape_loop env urls =
       {| result_dpo_email := Some reported;
          privacy_policy_url := Some policy_url;
          success := true; error_message := None |}).
Proof.
  destruct (scrape_loop_cases env urls) as [[E F] | (url & Hf & E)].
  - left. now split.
  - right. apply scrape_one_inv in E
      as (text & dpo & reported & policy_url
          & H1 & H2 & H3 & H4 & H5 & H6 & H7).
    exists url, text, dpo, reported, policy_url. auto 10.
Qed.

(** *** The candidate URLs *)

Lemma join_paths_inv env base : forall paths joined,
  join_paths env base paths = Ret joined ->
  Forall2 (fun path u => urljoin env base path = Ret u) paths joined.
Proof.
  induction paths as [|path paths IH]; intros joined; simpl.
  - intros [= <-]. constructor.
  - destruct (urljoin env base path) as [u|] eqn:E; simpl; [|discriminate].
    destruct (join_paths env base paths) as [l|]; simpl; [|discriminate].
    intros [= <-]. constructor; [exact E | now apply IH].
Qed.

Lemma join_paths_raise env base : forall paths e,
  join_paths env base paths = Raise e ->
  exists path, In path paths /\ urljoin env base path = Raise e.
Proof.
  induction paths as [|path paths IH]; intros e; simpl; [discriminate|].
  destruct (urljoin env base path) as [u|e'] eqn:E; simpl.
  - destruct (join_paths env base paths) as [l|e''] eqn:Ej; simpl;
      [discriminate|].
    intros [= <-]. destruct (IH _ eq_refl) as (q & Hq & Eq).
    exists q. auto.
  - intros [= <-]. exists path. auto.
Qed.

Lemma join_paths_total env base : forall paths,
  (forall path, In path paths -> exists u, urljoin env base path = Ret u) ->
  exists joined, join_paths env base paths = Ret joined.
Proof.
  induction paths as [|path paths IH]; intros H; simpl; [now exists []|].
  destruct (H path (or_introl eq_refl)) as (u & ->). simpl.
  destruct IH as (l & ->); [intros q Hq; apply H; now right|].
  simpl. eexists. reflexivity.
Qed.

Lemma joined_in env base paths joined :
  Forall2 (fun path u => urljoin env base path = Ret u) paths joined ->
  forall u, In u joined <->
            exists path, In path paths /\ urljoin env base path = Ret u.
Proof.
  induction 1 as [|path v paths joined Hpv HF IH]; intros u; simpl.
  - split; [intros [] | intros (path & [] & _)].
  - rewrite IH. split.
    + intros [<- | (q & Hq & Hr)]; [exists path; auto | exists q; auto].
    + intros (q & [<- | Hq] & Hr).
      * left. congruence.
      * right. exists q. auto.
Qed.

Lemma find_privacy_policy_urls_inv env website_url urls :
  _find_privacy_policy_urls env website_url = Ret urls ->
  exists joined,
    join_paths env (normalize_base website_url) privacy_paths = Ret joined /\
    urls = fromkeys
             (match discover_privacy_links env (normalize_base website_url)
              with
              | Ret discovered_urls => joined ++ discovered_urls
              | Raise _ => joined
              end)%list.
Proof.
  unfold _find_privacy_policy_urls. cbv zeta.
  destruct (join_paths env _ privacy_paths) as [joined|]; simpl;
    [|discriminate].
  intros [= <-]. now exists joined.
Qed.

Lemma find_privacy_policy_urls_raise env website_url e :
  _find_privacy_policy_urls env website_url = Raise e ->
  join_paths env (normalize_base website_url) privacy_paths = Raise e.
Proof.
  unfold _find_privacy_policy_urls. cbv zeta.
  destruct (join_paths env _ privacy_paths) as [joined|]; simpl;
    [discriminate | congruence].
Qed.

Lemma found_urls_nonempty env website_url urls :
  _find_privacy_policy_urls env website_url = Ret urls ->
  exists first rest,
    urls = first :: rest /\
    urljoin env (normalize_base website_url) "/privacy" = Ret first.
Proof.
  intros H. apply find_privacy_policy_urls_inv in H as (joined & Hj & ->).
  pose proof (join_paths_inv _ _ _ _ Hj) as HF.
  unfold privacy_paths in HF. inversion HF as [|p u ps us Hp _]; subst.
  destruct (discover_privacy_links env _); eexists u, _;
    (split; [reflexivity | exact Hp]).
Qed.

(** The branch for an empty list of candidates is never taken. *)
Lemma scrape_privacy_policy_cases env website_url :
  _scrape_privacy_policy env website_url =
  match _find_privacy_policy_urls env website_url with
  | Ret urls => scrape_loop env urls
  | Raise e => failure (str_exc env e)
  end.
Proof.
  unfold _scrape_privacy_policy.
  destruct (_find_privacy_policy_urls env website_url) as [urls|e] eqn:E;
    [|reflexivity].
  destruct (found_urls_nonempty _ _ _ E) as (first & rest & -> & _).
  reflexivity.
Qed.

(** X17. Whenever the search for candidate privacy-policy URLs of a site
    returns, which it does exactly when [urljoin] returns for each of the
    nine fixed paths, the candidates are not empty and pairwise distinct;
    the first one is the [/privacy] page of the site, whose address gets
    the scheme [https://] unless it already starts with [http://] or
    [https://]; every candidate is one of the nine fixed paths joined to
    that address or a link discovered on the main page, and each of those
    is a candidate.  So the scraper's branch for an empty list of
    candidates is never taken: a failure reads that no privacy-policy URL
    was found only if that is the text of the exception [urljoin]
    raised. *)
Theorem privacy_urls_distinct_nonempty : forall env website_url,
  let base := normalize_base website_url in
  (forall urls,
     _find_privacy_policy_urls env website_url = Ret urls ->
     NoDup urls /\ urls <> [] /\
     (exists first,
        urljoin env base "/privacy" = Ret first /\
        hd_error urls = Some first) /\
     (forall u,
        In u urls <->
        (exists path, In path privacy_paths /\
                      urljoin env base path = Ret u) \/
        exists discovered,
          discover_privacy_links env base = Ret discovered /\
          In u discovered)) /\
  ((exists urls, _find_privacy_policy_urls env website_url = Ret urls) <->
   (forall path, In path privacy_paths ->
      exists u, urljoin env base path = Ret u)) /\
  (forall e,
     _find_privacy_policy_urls env website_url = Raise e ->
     exists path, In path privacy_paths /\ urljoin env base path = Raise e) /\
  (PyStr.startswith website_url "http://" = false ->
   PyStr.startswith website_url "https://" = false ->
   base = String.append "https://" website_url) /\
  _scrape_privacy_policy env website_url =
    match _find_privacy_policy_urls env website_url with
    | Ret urls => scrape_loop env urls
    | Raise e => failure (str_exc env e)
    end /\
  (error_message (_scrape_privacy_policy env website_url)
     = Some "No privacy policy URLs found" ->
   exists e,
     _find_privacy_policy_urls env website_url = Raise e /\
     str_exc env e = "No privacy policy URLs found").
Proof.
  intros env website_url base.
  split; [|split; [|split; [|split; [|split]]]].
  - intros urls H.
    destruct (found_urls_nonempty _ _ _ H) as (first & rest & Hu & Hfirst).
    fold base in Hfirst.
    apply find_privacy_policy_urls_inv in H as (joined & Hj & E).
    fold base in Hj, E.
    pose proof (joined_in _ _ _ _ (join_paths_inv _ _ _ _ Hj)) as Hin.
    split; [rewrite E; apply fromkeys_nodup|].
    split; [rewrite Hu; discriminate|].
    split; [exists first; split; [exact Hfirst | now rewrite Hu]|].
    intros u. rewrite E, fromkeys_in.
    destruct (discover_privacy_links env base) as [d|e].
    + rewrite in_app_iff, Hin. split.
      * intros [H | H]; [now left | right; now exists d].
      * intros [H | (d' & [= <-] & H)]; [now left | now right].
    + rewrite Hin. split; [now left|].
      intros [H | (d' & Ed & _)]; [exact H | discriminate].
  - split.
    + intros (urls & H) path Hpath.
      apply find_privacy_policy_urls_inv in H as (joined & Hj & _).
      fold base in Hj.
      pose proof (joined_in _ _ _ _ (join_paths_inv _ _ _ _ Hj)) as Hin.
      destruct (urljoin env base path) as [u|e] eqn:E; [now exists u|].
      exfalso. clear Hin.
      pose proof (join_paths_inv _ _ _ _ Hj) as HF.
      revert Hpath E. generalize privacy_paths joined HF. clear.
      induction 1 as [|q v qs vs Hq _ IH]; intros [] E.
      * subst q. congruence.
      * now apply IH.
    + intros H. destruct (join_paths_total env base privacy_paths H)
        as (joined & Hj).
      unfold _find_privacy_policy_urls. cbv zeta. fold base. rewrite Hj.
      simpl. eexists. reflexivity.
  - intros e H. apply find_privacy_policy_urls_raise in H.
    now apply join_paths_raise in H.
  - intros H1 H2. unfold base, normalize_base. now rewrite H1, H2.
  - apply scrape_privacy_policy_cases.
  - rewrite scrape_privacy_policy_cases.
    destruct (_find_privacy_policy_urls env website_url) as [urls|e].
    + destruct (scrape_loop_result env urls)
        as [[E _] | (url & text & dpo & reported & policy_url & H)].
      * rewrite E. discriminate.
      * decompose [and] H. match goal with Hr : scrape_loop _ _ = _ |- _ =>
          rewrite Hr end. discriminate.
    + simpl. intros [= H]. now exists e.
Qed.

(** X18. A scrape has one of three outcomes.  It fails with the text of
    the exception when [urljoin] raises on the site's address.  It fails,
    with no email, no policy URL and the message that no DPO email was
    found, after every candidate URL was tried without a result.  Or it
    succeeds at the first candidate URL, in order, whose page has text
    from which an address is extracted that is not "none" and that the
    result model accepts together with the URL: the extracted address has
    the email shape [local@domain.tld] once stripped, whether the chain or
    the pattern search found it, and the reported email and policy URL are
    the validated forms of that address and of that candidate.  Success
    and a reported email go together. *)
Theorem scrape_result_sound : forall env website_url,
  let r := _scrape_privacy_policy env website_url in
  ((exists e,
      _find_privacy_policy_urls env website_url = Raise e /\
      success r = false /\ result_dpo_email r = None /\
      privacy_policy_url r = None /\
      error_message r = Some (str_exc env e))
   \/
   (exists urls,
      _find_privacy_policy_urls env website_url = Ret urls /\
      success r = false /\ result_dpo_email r = None /\
      privacy_policy_url r = None /\
      error_message r = Some "No DPO email found in privacy policies" /\
      Forall (fun u => forall r', scrape_one env u <> Ret (Some r')) urls)
   \/
   (exists urls url text dpo,
      _find_privacy_policy_urls env website_url = Ret urls /\
      success r = true /\ error_message r = None /\
      first_hit env urls url /\
      scrape_page_content env url = Ret (Some text) /\
      _extract_dpo_email env text = Some dpo /\
      email_shape (PyStr.strip dpo) /\
      result_dpo_email r <> None /\
      email_str (PrivacyScraper.validators env) dpo = result_dpo_email r /\
      http_url (PrivacyScraper.validators env) url
        = privacy_policy_url r)) /\
  (success r = true <-> result_dpo_email r <> None).
Proof.
  intros env website_url r. unfold r.
  rewrite scrape_privacy_policy_cases.
  destruct (_find_privacy_policy_urls env website_url) as [urls|e].
  - destruct (scrape_loop_result env urls)
      as [[E F] | (url & text & dpo & reported & policy_url
                   & Hf & H1 & H2 & H3 & H4 & H5 & H6 & E)];
      rewrite E.
    + split.
      * right. left. exists urls. simpl. auto 10.
      * simpl. split; [discriminate | intros H; now contradiction H].
    + split.
      * right. right. exists urls, url, text, dpo. simpl.
        apply DPOExtras.valid_email_iff_shape in H4.
        repeat split; auto. discriminate.
      * simpl. split; [discriminate | reflexivity].
  - split.
    + left. exists e. simpl. auto.
    + simpl. split; [discriminate | intros H; now contradiction H].
Qed.

(** What [_run] answers: the result of the scrape, or, when the event
    loop cannot be started, a failure with the text of the exception. *)
Lemma run_cases env site :
  (asyncio_run env = Ret tt /\
   _run env site = Ret (_scrape_privacy_policy env site)) \/
  (exists e, asyncio_run env = Raise e /\
             _run env site = Ret (failure (str_exc env e))).
Proof.
  unfold _run. destruct (asyncio_run env) as [[]|e]; simpl.
  - now left.
  - right. now exists e.
Qed.

(** X19. With the scraper plugged into the pipeline, the enhancement
    stage leaves the DPO email of a result as it was, or sets it, for an
    entity that has a website and no DPO email, to the address the
    successful scrape of that website reports: the validated form of an
    address extracted from a policy page, which has the email shape
    [local@domain.tld] once stripped.  The [run] entry point of the
    scraper never raises: it answers with the result of the scrape, or,
    when the scrape cannot be run, with a failure that carries the text of
    the exception and no email. *)
Theorem enhancement_sets_scraped_email : forall S env pe,
  let pe' := _enhance_business_entity (with_scraper S env) pe in
  (forall site,
     (asyncio_run env = Ret tt /\
      _run env site = Ret (_scrape_privacy_policy env site)) \/
     (exists e, asyncio_run env = Raise e /\
        _run env site = Ret (failure (str_exc env e)))) /\
  (dpo_email (business_entity pe') = dpo_email (business_entity pe) \/
   exists site reported extracted,
     website (business_entity pe) = Some site /\
     truthy_opt (dpo_email (business_entity pe)) = false /\
     _run env site = Ret (_scrape_privacy_policy env site) /\
     result_dpo_email (_scrape_privacy_policy env site) = Some reported /\
     success (_scrape_privacy_policy env site) = true /\
     dpo_email (business_entity pe') = Some reported /\
     email_str (PrivacyScraper.validators env) extracted = Some reported /\
     email_shape (PyStr.strip extracted)).
Proof.
  intros S env pe pe'. split; [intros site; apply run_cases|].
  unfold pe', _enhance_business_entity. cbv zeta.
  destruct (website (business_entity pe)) as [site|]; [|now left].
  destruct (truthy_opt (dpo_email (business_entity pe))) eqn:Et;
    [now left|].
  cbn [negb with_scraper scraper_run].
  destruct (run_cases env site) as [[_ Er] | (e & _ & Er)]; rewrite Er;
    cbn [bind scrape_dpo_email scrape_success]; [|now left].
  pose proof (scrape_privacy_policy_cases env site) as Hs.
  destruct (_find_privacy_policy_urls env site) as [urls|e];
    [|rewrite Hs; now left].
  destruct (scrape_loop_result env urls)
    as [[E F] | (url & text & dpo & reported & policy_url
                 & Hf & H1 & H2 & H3 & H4 & H5 & H6 & E)];
    rewrite E in Hs; rewrite Hs.
  - now left.
  - cbn [result_dpo_email success andb].
    destruct (PyStr.is_empty reported) eqn:Ee; [now left|].
    right. exists site, reported, dpo. rewrite Hs in Er |- *. simpl.
    apply DPOExtras.valid_email_iff_shape in H4. auto 10.
Qed.

End ScraperProps.

(* ------------------------------------------------------------------ *)
(** ** The metadata extractor *)

Module MetadataProps.
Import Models EmailProcessor MetadataExtractor CollaboratorNotions.

Lemma likely_footer_nonempty text :
  _is_likely_footer text = true -> text <> EmptyString.
Proof. intros H ->. discriminate H. Qed.

Lemma footer_from_text_nonempty text n :
  extract_footer_from_text text n <> Some EmptyString.
Proof.
  unfold extract_footer_from_text. cbv zeta.
  destruct (PyStr.is_empty text); [discriminate|].
  destruct (n <=? _); [|discriminate].
  destruct (_is_likely_footer _) eqn:E; [|discriminate].
  apply likely_footer_nonempty in E. congruence.
Qed.

Lemma urls_from_text_inv H text u :
  In u (extract_urls_from_text H text) ->
  In u (findall_urls H text) /\
  exists scheme netloc,
    urlparse H u = Ret (scheme, netloc) /\
    scheme <> EmptyString /\ netloc <> EmptyString.
Proof.
  unfold extract_urls_from_text.
  destruct (PyStr.is_empty text); [intros []|].
  rewrite filter_In. intros [Hin Hp]. split; [exact Hin|].
  destruct (urlparse H u) as [[scheme netloc]|]; [|discriminate].
  exists scheme, netloc. split; [reflexivity|].
  apply andb_prop in Hp as [H1 H2].
  split; intros ->; discriminate.
Qed.

(** X20. The metadata of an email always carries the sender domain read
    from its [from] address, whether the extraction went through or fell
    back to the minimal record; its URLs are pairwise distinct, and each
    one was found in the HTML body or found in the clean text and parsed
    with a scheme and a network location; its footer is never the empty
    string. The extractor never raises, so the pipeline's own fallback for
    a failing extractor is not reached. *)
Theorem metadata_invariants : forall H n email clean_text,
  let md := MetadataExtractor.extract_metadata H n email clean_text in
  sender_domain md = extract_sender_domain (from_email email) /\
  NoDup (urls md) /\
  (forall u, In u (urls md) ->
     (exists h found,
        html_content email = Some h /\ h <> EmptyString /\
        extract_urls H h = Ret found /\ In u found) \/
     (In u (findall_urls H clean_text) /\
      exists scheme netloc,
        urlparse H u = Ret (scheme, netloc) /\
        scheme <> EmptyString /\ netloc <> EmptyString)) /\
  footer_text md <> Some EmptyString /\
  (forall S, _extract_metadata (with_extractor S H n) email clean_text = md).
Proof.
  intros H n email clean_text md.
  assert (Hlast : forall S,
    _extract_metadata (with_extractor S H n) email clean_text = md)
    by reflexivity.
  unfold md, MetadataExtractor.extract_metadata in *. clear md. cbv zeta in *.
  assert (Hfooter : forall o,
    (if truthy_opt o then o
     else extract_footer_from_text clean_text n) <> Some EmptyString).
  { intros [f|]; simpl.
    - destruct f; simpl; [apply footer_from_text_nonempty | discriminate].
    - apply footer_from_text_nonempty. }
  assert (Hurls : forall found u,
    In u (PyDict.fromkeys (found ++ extract_urls_from_text H clean_text)) ->
    In u found \/
    (In u (findall_urls H clean_text) /\
      exists scheme netloc,
        urlparse H u = Ret (scheme, netloc) /\
        scheme <> EmptyString /\ netloc <> EmptyString)).
  { intros found u Hu. apply (proj1 (ScraperProps.fromkeys_in _ _)) in Hu.
    apply in_app_or in Hu as [Hu | Hu]; [now left | right].
    now apply urls_from_text_inv. }
  destruct (html_content email) as [h|] eqn:Eh.
  - destruct (PyStr.is_empty h) eqn:Ee.
    + cbn [bind]. cbn [sender_domain urls footer_text].
      repeat split; auto using ScraperProps.fromkeys_nodup.
      intros u Hu. apply Hurls in Hu as [[] | Hu]. now right.
    + assert (Hh : h <> EmptyString) by (intros ->; discriminate).
      destruct (extract_urls H h) as [found|] eqn:Eu; cbn [bind].
      * destruct (extract_footer_text H h n) as [footer|]; cbn [bind].
        -- cbn [sender_domain urls footer_text].
           repeat split; auto using ScraperProps.fromkeys_nodup.
           intros u Hu. apply Hurls in Hu as [Hu | Hu]; [left | now right].
           exists h, found. auto.
        -- cbn [sender_domain urls footer_text].
           repeat split; auto; [constructor | intros u [] | discriminate].
      * cbn [sender_domain urls footer_text].
        repeat split; auto; [constructor | intros u [] | discriminate].
  - cbn [bind]. cbn [sender_domain urls footer_text].
    repeat split; auto using ScraperProps.fromkeys_nodup.
    intros u Hu. apply Hurls in Hu as [[] | Hu]. now right.
Qed.

End MetadataProps.

(* ------------------------------------------------------------------ *)
(** ** The batch task *)

Module TaskProps.
Import Tasks.

Lemma batch_loop_spec delay : forall email_filenames i,
  let rs := fst (batch_loop delay i email_filenames) in
  let es := snd (batch_loop delay i email_filenames) in
  List.length rs + List.length es = List.length email_filenames /\
  (forall k f, nth_error email_filenames k = Some f ->
     match delay (i + k) f with
     | Ret t => In {| q_index := i + k; q_email_filename := f;
                      q_task_id := t |} rs
     | Raise e => In {| f_index := i + k; f_email_filename := f;
                        f_error := e |} es
     end) /\
  (forall q, In q rs ->
     exists k, q_index q = i + k /\
       nth_error email_filenames k = Some (q_email_filename q) /\
       delay (q_index q) (q_email_filename q) = Ret (q_task_id q)) /\
  (forall x, In x es ->
     exists k, f_index x = i + k /\
       nth_error email_filenames k = Some (f_email_filename x) /\
       delay (f_index x) (f_email_filename x) = Raise (f_error x)).
Proof.
  induction email_filenames as [|f0 rest IH]; intros i; cbv zeta.
  - simpl. split; [reflexivity|]. split; [|split].
    + intros [|k] f; discriminate.
    + intros q [].
    + intros x [].
  - specialize (IH (S i)). cbv zeta in IH.
    destruct IH as (Hlen & Hall & Hrs & Hes).
    simpl batch_loop.
    destruct (batch_loop delay (S i) rest) as [rs es]. simpl fst in *.
    simpl snd in *.
    assert (Hall' : forall k f, nth_error rest k = Some f ->
      match delay (i + S k) f with
      | Ret t => In {| q_index := i + S k; q_email_filename := f;
                       q_task_id := t |} rs
      | Raise e => In {| f_index := i + S k; f_email_filename := f;
                         f_error := e |} es
      end).
    { intros k f Hk. replace (i + S k) with (S i + k) by lia. now apply Hall. }
    assert (Hrs' : forall q, In q rs ->
      exists k, q_index q = i + k /\
        nth_error (f0 :: rest) k = Some (q_email_filename q) /\
        delay (q_index q) (q_email_filename q) = Ret (q_task_id q)).
    { intros q Hq. destruct (Hrs q Hq) as (k & H1 & H2 & H3).
      exists (S k). split; [lia | now split]. }
    assert (Hes' : forall x, In x es ->
      exists k, f_index x = i + k /\
        nth_error (f0 :: rest) k = Some (f_email_filename x) /\
        delay (f_index x) (f_email_filename x) = Raise (f_error x)).
    { intros x Hx. destruct (Hes x Hx) as (k & H1 & H2 & H3).
      exists (S k). split; [lia | now split]. }
    destruct (delay i f0) as [t|e] eqn:E; simpl fst; simpl snd.
    + split; [simpl; lia|]. split; [|split].
      * intros [|k] f Hk.
        -- injection Hk as <-. rewrite Nat.add_0_r, E. now left.
        -- specialize (Hall' k f Hk).
           destruct (delay (i + S k) f); [now right | exact Hall'].
      * intros q [<- | Hq]; [|now apply Hrs'].
        exists 0. simpl. rewrite Nat.add_0_r. auto.
      * exact Hes'.
    + split; [simpl; lia|]. split; [|split].
      * intros [|k] f Hk.
        -- injection Hk as <-. rewrite Nat.add_0_r, E. now left.
        -- specialize (Hall' k f Hk).
           destruct (delay (i + S k) f); [exact Hall' | now right].
      * exact Hrs'.
      * intros x [<- | Hx]; [|now apply Hes'].
        exists 0. simpl. rewrite Nat.add_0_r. auto.
Qed.

(** X21. A batch accounts for every file name once: the total is the
    number of names and equals queued plus errors; the name at position i
    appears, with index i, among the results with the task id its call
    returned, or among the error details with the exception its call
    raised; and the results and error details hold nothing else. A call
    that fails does not stop the batch. *)
Theorem batch_accounts_for_every_file : forall delay email_filenames,
  let r := batch_process_emails_task delay email_filenames in
  total r = List.length email_filenames /\
  total r = queued r + errors r /\
  queued r = List.length (results r) /\
  errors r = List.length (error_details r) /\
  (forall i f, nth_error email_filenames i = Some f ->
     match delay i f with
     | Ret t => In {| q_index := i; q_email_filename := f;
                      q_task_id := t |} (results r)
     | Raise e => In {| f_index := i; f_email_filename := f;
                        f_error := e |} (error_details r)
     end) /\
  (forall q, In q (results r) ->
     nth_error email_filenames (q_index q) = Some (q_email_filename q) /\
     delay (q_index q) (q_email_filename q) = Ret (q_task_id q)) /\
  (forall x, In x (error_details r) ->
     nth_error email_filenames (f_index x) = Some (f_email_filename x) /\
     delay (f_index x) (f_email_filename x) = Raise (f_error x)).
Proof.
  intros delay email_filenames r.
  destruct (batch_loop_spec delay email_filenames 0) as (Hlen & Hall & Hrs & Hes).
  unfold r, batch_process_emails_task.
  destruct (batch_loop delay 0 email_filenames) as [rs es].
  cbn [fst snd] in Hlen, Hall, Hrs, Hes.
  cbn [total queued errors results error_details].
  split; [reflexivity|]. split; [now rewrite Hlen|].
  split; [reflexivity|]. split; [reflexivity|].
  split; [exact Hall|]. split.
  - intros q Hq. destruct (Hrs q Hq) as (k & H1 & H2 & H3).
    simpl in H1. split; [now rewrite H1 | exact H3].
  - intros x Hx. destruct (Hes x Hx) as (k & H1 & H2 & H3).
    simpl in H1. split; [now rewrite H1 | exact H3].
Qed.

End TaskProps.
